(** * spherapy.util.epoch_u: epoch conversions and TLE file look-ups

    A shallow embedding of [src/spherapy/util/epoch_u.py] and of the part of
    the Python runtime it runs on (str slicing, [int()], [float()], binary64
    arithmetic, [str(float)], [datetime]/[timedelta], and the three numpy
    calls of [findClosestDatetimeIndices]), followed by the properties of the
    module's functions.

    Layout: the embedding of the runtime ([Module Py], [Module datetime],
    [Module np]), the functions of [epoch_u.py] under their own names
    ([Section epoch_u]), then the theorems. *)

From Stdlib Require Import ZArith List String Ascii Bool Lia.
From Stdlib Require Import Decimal DecimalString.
From Stdlib Require Import Floats.SpecFloat.
From stdpp Require Import base option list gmap strings.

Local Open Scope Z_scope.

(** ** Exceptions and results

    A Python call either returns a value or raises.  Only the class of the
    exception is kept. *)
Module Py.

Inductive exn : Set :=
| ValueError
| OverflowError
| IndexError
| TypeError
| ZeroDivisionError
| OSError
| Exception (name : string).

Inductive result (A : Type) : Type :=
| Ok (a : A)
| Raise (e : exn).
Arguments Ok {A} a.
Arguments Raise {A} e.

Definition bind {A B} (r : result A) (k : A -> result B) : result B :=
  match r with
  | Ok a => k a
  | Raise e => Raise e
  end.

Definition raises {A} (r : result A) : bool :=
  match r with Ok _ => false | Raise _ => true end.

Notation "'let*' x := r 'in' k" := (bind r (fun x => k))
  (at level 10, x pattern, r at level 200, k at level 200).

(** ** str

    A Python [str] is modelled by a Rocq [string]: a sequence of the code
    points 0..255.  Slices are those of the source: [s[:n]], [s[n:]],
    [s[-n:]]. *)

Definition chars (s : string) : list ascii := list_ascii_of_string s.
Definition of_chars (cs : list ascii) : string := string_of_list_ascii cs.

(** [s[:n]] *)
Definition str_upto (n : nat) (s : string) : string := of_chars (take n (chars s)).
(** [s[n:]] *)
Definition str_from (n : nat) (s : string) : string := of_chars (drop n (chars s)).
(** [s[-n:]] for [n > 0] *)
Definition str_last (n : nat) (s : string) : string :=
  let cs := chars s in of_chars (drop (length cs - n) cs).

(** [str(z)] for an int *)
Definition str_of_int (z : Z) : string := NilZero.string_of_int (Z.to_int z).

(** [s.zfill(width)]: zeros go after a leading sign *)
Definition zfill (width : nat) (s : string) : string :=
  let cs := chars s in
  let fill := replicate (width - length cs) "0"%char in
  match cs with
  | c :: cs' =>
      if (Ascii.eqb c "+" || Ascii.eqb c "-")%bool
      then of_chars (c :: fill ++ cs')
      else of_chars (fill ++ cs)
  | [] => of_chars fill
  end.

(** ** Characters as CPython's number parsers see them

    [int(s)] and [float(s)] first pass [s] through
    [_PyUnicode_TransformDecimalAndSpaceToASCII]: a code point below 127 is
    kept, a Unicode space becomes a blank (U+0085 and U+00A0 are the ones in
    0..255), anything else becomes ['?'] and ends the text. *)

Definition code (c : ascii) : Z := Z.of_nat (nat_of_ascii c).

Fixpoint ascii_transform (cs : list ascii) : list ascii :=
  match cs with
  | [] => []
  | c :: cs' =>
      if code c <? 127 then c :: ascii_transform cs'
      else if (code c =? 133) || (code c =? 160) then " "%char :: ascii_transform cs'
      else ["?"%char]
  end.

(** [Py_ISSPACE]: blank, [\t], [\n], [\v], [\f], [\r] *)
Definition is_space (c : ascii) : bool :=
  ((9 <=? code c) && (code c <=? 13)) || (code c =? 32).

Definition digit_val (c : ascii) : option Z :=
  if (48 <=? code c) && (code c <=? 57) then Some (code c - 48) else None.

Definition is_digit (c : ascii) : bool :=
  match digit_val c with Some _ => true | None => false end.

Fixpoint skip_spaces (cs : list ascii) : list ascii :=
  match cs with
  | c :: cs' => if is_space c then skip_spaces cs' else cs
  | [] => []
  end.

(** An optional sign: [(negative, rest)] *)
Definition take_sign (cs : list ascii) : bool * list ascii :=
  match cs with
  | c :: cs' =>
      if Ascii.eqb c "-" then (true, cs')
      else if Ascii.eqb c "+" then (false, cs')
      else (false, cs)
  | [] => (false, [])
  end.

(** ** [int(s)], base 10 ([PyLong_FromString])

    Blanks, a sign, digits with single underscores between them, blanks.
    [scan_int] is the digit loop: it stops at the first character that is
    neither a digit nor an underscore and fails on a doubled or trailing
    underscore. *)

Fixpoint scan_int (cs : list ascii) (acc : Z) (ndigits : nat) (prev_underscore : bool)
  : option (Z * nat * list ascii) :=
  match cs with
  | c :: cs' =>
      if Ascii.eqb c "_" then
        if prev_underscore then None else scan_int cs' acc ndigits true
      else
        match digit_val c with
        | Some d => scan_int cs' (10 * acc + d) (S ndigits) false
        | None => if prev_underscore then None else Some (acc, ndigits, cs)
        end
  | [] => if prev_underscore then None else Some (acc, ndigits, [])
  end.

(** [sys.get_int_max_str_digits()] *)
Definition max_str_digits : nat := 4300.

Definition int_of_str (s : string) : result Z :=
  let cs := skip_spaces (ascii_transform (chars s)) in
  let '(neg, cs) := take_sign cs in
  match cs with
  | c :: _ =>
      if Ascii.eqb c "_" then Raise ValueError
      else
        match scan_int cs 0 0 false with
        | Some (v, nd, rest) =>
            if (nd =? 0)%nat then Raise ValueError
            else if (max_str_digits <? nd)%nat then Raise ValueError
            else
              match skip_spaces rest with
              | [] => Ok (if neg then - v else v)
              | _ :: _ => Raise ValueError
              end
        | None => Raise ValueError
        end
  | [] => Raise ValueError
  end.

(** ** float: IEEE 754 binary64

    A Python [float] is a [spec_float] of the Standard Library at precision
    53 and maximal exponent 1024; the arithmetic is [SpecFloat]'s, which
    rounds to nearest, ties to even. *)

Definition prec : Z := 53.
Definition emax : Z := 1024.
Definition float : Set := spec_float.

Definition fadd : float -> float -> float := SFadd prec emax.
Definition fsub : float -> float -> float := SFsub prec emax.
Definition fmul : float -> float -> float := SFmul prec emax.
Definition fdiv : float -> float -> float := SFdiv prec emax.
Definition fabs : float -> float := SFabs.
Definition fle : float -> float -> bool := SFleb.
Definition feqb : float -> float -> bool := SFeqb.

Definition is_nan (f : float) : bool :=
  match f with S754_nan => true | _ => false end.
Definition is_zero (f : float) : bool :=
  match f with S754_zero _ => true | _ => false end.
Definition is_finite (f : float) : bool :=
  match f with S754_zero _ | S754_finite _ _ _ => true | _ => false end.

(** The binary64 nearest to [n / d] (or the infinity past the largest):
    the quotient and the position of the remainder as [SFdiv] computes
    them, for two integers. *)
Definition round_ratio (neg : bool) (n d : positive) : float :=
  let '(q, e, l) := SFdiv_core_binary prec emax (Zpos n) 0 (Zpos d) 0 in
  binary_round_aux prec emax neg q e l.

(** The binary64 nearest to [digits * 10 ^ e10], [digits >= 0]. *)
Definition float_of_decimal (neg : bool) (digits : Z) (e10 : Z) : float :=
  match digits with
  | Zpos m =>
      if 0 <=? e10
      then binary_round prec emax neg (Z.to_pos (Zpos m * 10 ^ e10)) 0
      else round_ratio neg m (Z.to_pos (10 ^ (- e10)))
  | _ => S754_zero neg
  end.

(** [float(z)] for an int ([PyLong_AsDouble]) *)
Definition float_of_int (z : Z) : result float :=
  match binary_normalize prec emax z 0 false with
  | S754_infinity _ => Raise OverflowError
  | f => Ok f
  end.

(** [a / b] for two ints ([long_true_divide]) *)
Definition int_truediv (a b : Z) : result float :=
  match b, a with
  | 0, _ => Raise ZeroDivisionError
  | _, 0 => Ok (S754_zero (b <? 0))
  | _, _ =>
      match round_ratio (xorb (a <? 0) (b <? 0)) (Z.to_pos (Z.abs a)) (Z.to_pos (Z.abs b)) with
      | S754_infinity _ => Raise OverflowError
      | f => Ok f
      end
  end.

(** [x / y] for two floats ([float_div]) *)
Definition float_truediv (x y : float) : result float :=
  if is_zero y then Raise ZeroDivisionError else Ok (fdiv x y).

(** [z + x] for an int and a float: the int is converted first *)
Definition int_add_float (z : Z) (x : float) : result float :=
  let* fz := float_of_int z in Ok (fadd fz x).

(** C's [modf]: [(fractional part, integral part)], both with the sign of
    the argument. *)
Definition modf (x : float) : float * float :=
  match x with
  | S754_nan => (S754_nan, S754_nan)
  | S754_infinity s => (S754_zero s, x)
  | S754_zero s => (x, x)
  | S754_finite s m e =>
      if 0 <=? e then (S754_zero s, x)
      else
        let ip := Z.shiftr (Zpos m) (- e) in
        let rem := Zpos m - Z.shiftl ip (- e) in
        (binary_normalize prec emax (cond_Zopp s rem) e s,
         binary_normalize prec emax (cond_Zopp s ip) 0 s)
  end.

(** [int(x)] of a float ([PyLong_FromDouble]): truncation *)
Definition int_of_float (x : float) : result Z :=
  match x with
  | S754_nan => Raise ValueError
  | S754_infinity _ => Raise OverflowError
  | S754_zero _ => Ok 0
  | S754_finite s m e =>
      Ok (cond_Zopp s (if 0 <=? e then Z.shiftl (Zpos m) e else Z.shiftr (Zpos m) (- e)))
  end.

(** C's [round]: to the nearest integer, halves away from zero *)
Definition c_round (x : float) : float :=
  match x with
  | S754_finite s m e =>
      if 0 <=? e then x
      else
        let ip := Z.shiftr (Zpos m) (- e) in
        let rem := Zpos m - Z.shiftl ip (- e) in
        let ip' := if Z.shiftl 1 (- e) <=? 2 * rem then ip + 1 else ip in
        binary_normalize prec emax (cond_Zopp s ip') 0 s
  | _ => x
  end.

(** ** [float(s)] ([PyFloat_FromString])

    Underscores may stand between two digits and are dropped; blanks are
    stripped at both ends; what is left must be, in full, a decimal numeral
    ([_Py_dg_strtod]) or an infinity or NaN ([_Py_parse_inf_or_nan]).  The
    numeral is rounded to the nearest binary64; one past the largest
    becomes an infinity, no exception being asked for.  (dtoa.c's cap of
    10^9 digits is not modelled.) *)

Fixpoint strip_underscores (cs : list ascii) (prev : option ascii) : option (list ascii) :=
  match cs with
  | [] =>
      match prev with
      | Some p => if Ascii.eqb p "_" then None else Some []
      | None => Some []
      end
  | c :: cs' =>
      let prev_digit := match prev with Some p => is_digit p | None => false end in
      let prev_underscore := match prev with Some p => Ascii.eqb p "_" | None => false end in
      if Ascii.eqb c "_" then
        if prev_digit then strip_underscores cs' (Some c) else None
      else if prev_underscore && negb (is_digit c) then None
      else option_map (cons c) (strip_underscores cs' (Some c))
  end.

(** A maximal run of digits read onto [acc]: [(value, count, rest)] *)
Fixpoint span_digits (cs : list ascii) (acc : Z) (n : Z) : Z * Z * list ascii :=
  match cs with
  | c :: cs' =>
      match digit_val c with
      | Some d => span_digits cs' (10 * acc + d) (n + 1)
      | None => (acc, n, cs)
      end
  | [] => (acc, n, [])
  end.

(** The exponent part; an [e] that no digit follows is not part of the
    numeral. *)
Definition parse_exponent (cs : list ascii) : Z * list ascii :=
  match cs with
  | c :: cs' =>
      if Ascii.eqb c "e" || Ascii.eqb c "E" then
        let '(eneg, cs1) := take_sign cs' in
        let '(v, n, cs2) := span_digits cs1 0 0 in
        if n =? 0 then (0, cs) else (if eneg then - v else v, cs2)
      else (0, cs)
  | [] => (0, [])
  end.

(** [_Py_dg_strtod]: [None] when no numeral starts the text *)
Definition parse_decimal (cs : list ascii) : option (float * list ascii) :=
  let '(neg, cs1) := take_sign cs in
  let '(ip, nint, cs2) := span_digits cs1 0 0 in
  let '(mant, nfrac, cs3) :=
    match cs2 with
    | c :: cs' => if Ascii.eqb c "." then span_digits cs' ip 0 else (ip, 0, cs2)
    | [] => (ip, 0, cs2)
    end in
  if nint + nfrac =? 0 then None
  else
    let '(e, cs4) := parse_exponent cs3 in
    Some (float_of_decimal neg mant (e - nfrac), cs4).

Definition to_lower (c : ascii) : ascii :=
  if (65 <=? code c) && (code c <=? 90) then ascii_of_nat (nat_of_ascii c + 32) else c.

(** [case_insensitive_match]: the text after the pattern, when it starts
    with it *)
Fixpoint match_ci (pat cs : list ascii) : option (list ascii) :=
  match pat, cs with
  | [], _ => Some cs
  | p :: pat', c :: cs' => if Ascii.eqb (to_lower c) p then match_ci pat' cs' else None
  | _ :: _, [] => None
  end.

Definition parse_inf_or_nan (cs : list ascii) : option (float * list ascii) :=
  let '(neg, cs1) := take_sign cs in
  match match_ci (chars "inf") cs1 with
  | Some cs2 =>
      match match_ci (chars "inity") cs2 with
      | Some cs3 => Some (S754_infinity neg, cs3)
      | None => Some (S754_infinity neg, cs2)
      end
  | None =>
      match match_ci (chars "nan") cs1 with
      | Some cs2 => Some (S754_nan, cs2)
      | None => None
      end
  end.

Definition float_of_str (s : string) : result float :=
  match strip_underscores (ascii_transform (chars s)) None with
  | None => Raise ValueError
  | Some cs =>
      let cs := rev (skip_spaces (rev (skip_spaces cs))) in
      match cs with
      | [] => Raise ValueError
      | _ :: _ =>
          match parse_decimal cs with
          | Some (f, []) => Ok f
          | Some (_, _ :: _) => Raise ValueError
          | None =>
              match parse_inf_or_nan cs with
              | Some (f, []) => Ok f
              | _ => Raise ValueError
              end
          end
      end
  end.

(** ** [repr(x)] and [str(x)] of a float ([float_repr], format code ['r'])

    The digits are the shortest decimal numeral that [float] reads back as
    [x] and, among those, the nearest to [x]; the exponent form is used
    when the decimal point would stand more than 16 places after or 4
    places or more before the first digit. *)

Definition same_float (x y : float) : bool :=
  match x, y with
  | S754_nan, S754_nan => true
  | S754_zero s, S754_zero t => Bool.eqb s t
  | S754_infinity s, S754_infinity t => Bool.eqb s t
  | S754_finite s m e, S754_finite t n g => Bool.eqb s t && Pos.eqb m n && Z.eqb e g
  | _, _ => false
  end.

(** [10 ^ k <= num / den] *)
Definition pow10_le (k num den : Z) : bool :=
  if 0 <=? k then 10 ^ k * den <=? num else den <=? num * 10 ^ (- k).

(** The [k] with [10 ^ k <= num / den < 10 ^ (k + 1)], from an estimate *)
Fixpoint adjust_log10 (fuel : nat) (k num den : Z) : Z :=
  match fuel with
  | O => k
  | S fuel' =>
      if pow10_le (k + 1) num den then adjust_log10 fuel' (k + 1) num den
      else if pow10_le k num den then k
      else adjust_log10 fuel' (k - 1) num den
  end.

Definition floor_log10 (num den : Z) : Z :=
  adjust_log10 8 ((Z.log2 num - Z.log2 den) * 30103 / 100000) num den.

(** The [n]-digit numerals on both sides of [num / den], kept when they
    read back as [x]: [(digits, exponent of ten)] *)
Definition candidate (x : float) (num den k n : Z) : option (Z * Z) :=
  let p := k - (n - 1) in
  let '(a, b) := if 0 <=? p then (num, den * 10 ^ p) else (num * 10 ^ (- p), den) in
  let lo := a / b in
  let hi := lo + 1 in
  let nearest :=
    match 2 * (a mod b) ?= b with
    | Lt => lo
    | Gt => hi
    | Eq => if Z.even lo then lo else hi
    end in
  match same_float (float_of_decimal false lo p) x,
        same_float (float_of_decimal false hi p) x with
  | true, true => Some (nearest, p)
  | true, false => Some (lo, p)
  | false, true => Some (hi, p)
  | false, false => if n =? 17 then Some (nearest, p) else None
  end.

Fixpoint shortest_from (fuel : nat) (x : float) (num den k n : Z) : Z * Z :=
  match fuel with
  | O => (0, 0)
  | S fuel' =>
      match candidate x num den k n with
      | Some r => r
      | None => shortest_from fuel' x num den k (n + 1)
      end
  end.

Fixpoint strip_zeros (fuel : nat) (d p : Z) : Z * Z :=
  match fuel with
  | O => (d, p)
  | S fuel' => if d mod 10 =? 0 then strip_zeros fuel' (d / 10) (p + 1) else (d, p)
  end.

(** The digits of a positive finite [m * 2 ^ e] *)
Definition shortest_digits (m : positive) (e : Z) : Z * Z :=
  let '(num, den) := if 0 <=? e then (Zpos m * 2 ^ e, 1) else (Zpos m, 2 ^ (- e)) in
  let '(d, p) := shortest_from 17 (S754_finite false m e) num den (floor_log10 num den) 1 in
  strip_zeros 17 d p.

Definition float_repr (x : float) : string :=
  match x with
  | S754_nan => "nan"
  | S754_infinity s => if s then "-inf" else "inf"
  | S754_zero s => if s then "-0.0" else "0.0"
  | S754_finite s m e =>
      let '(d, p) := shortest_digits m e in
      let ds := chars (str_of_int d) in
      let nd := Z.of_nat (length ds) in
      let decpt := nd + p in
      let body :=
        if (decpt <=? -4) || (16 <? decpt) then
          let mant :=
            match ds with
            | d1 :: (_ :: _) as rest => d1 :: "."%char :: rest
            | _ => ds
            end in
          mant ++ "e"%char :: (if decpt - 1 <? 0 then "-"%char else "+"%char)
               :: chars (zfill 2 (str_of_int (Z.abs (decpt - 1))))
        else if decpt <=? 0 then
          "0"%char :: "."%char :: replicate (Z.to_nat (- decpt)) "0"%char ++ ds
        else if nd <=? decpt then
          ds ++ replicate (Z.to_nat (decpt - nd)) "0"%char ++ ["."%char; "0"%char]
        else
          take (Z.to_nat decpt) ds ++ "."%char :: drop (Z.to_nat decpt) ds in
      of_chars ((if s then ["-"%char] else []) ++ body)
  end.

(** ** Values a caller may pass where a [str] is expected, and [str(v)] *)

Inductive value : Set :=
| VStr (s : string)
| VInt (z : Z)
| VFloat (x : float).

(** [str(z)] for an int ([long_to_decimal_string]): CPython converts at
    most [max_str_digits] digits, the sign not counted, and raises
    [ValueError] ("Exceeds the limit (4300 digits) for integer string
    conversion") past that. *)
Definition str_int (z : Z) : result string :=
  if 10 ^ Z.of_nat max_str_digits <=? Z.abs z then Raise ValueError
  else Ok (str_of_int z).

Definition str (v : value) : result string :=
  match v with
  | VStr s => Ok s
  | VInt z => str_int z
  | VFloat x => Ok (float_repr x)
  end.

(** ** Lists: [l[i]], [range], [for] loops *)

(** [l[i]]: a negative index counts from the end *)
Definition getitem {A} (l : list A) (i : Z) : result A :=
  let n := Z.of_nat (length l) in
  let j := if i <? 0 then i + n else i in
  if (0 <=? j) && (j <? n) then
    match l !! Z.to_nat j with
    | Some x => Ok x
    | None => Raise IndexError
    end
  else Raise IndexError.

(** [range(start, stop, step)] for a positive step *)
Definition range (start stop step : Z) : list Z :=
  (fun k => start + step * k) <$> seqZ 0 ((stop - start + step - 1) / step).

(** [for x in xs: s = body(s, x)]; the first exception ends the loop *)
Fixpoint for_ {A S} (xs : list A) (body : S -> A -> result S) (s : S) : result S :=
  match xs with
  | [] => Ok s
  | x :: xs' => let* s' := body s x in for_ xs' body s'
  end.

(** Calling [f] on each element in turn *)
Fixpoint mapM {A B} (f : A -> result B) (xs : list A) : result (list B) :=
  match xs with
  | [] => Ok []
  | x :: xs' => let* y := f x in let* ys := mapM f xs' in Ok (y :: ys)
  end.

(** ** Paths: [pathlib.Path.exists], [open('r')] with [readlines()]

    A path names nothing, or something whose opening and reading either
    raises or gives the lines of the file, each with its terminator, or it
    cannot be reached.

    [Path.exists()] calls [os.stat]: it is [False] when [stat] fails with
    ENOENT, ENOTDIR, EBADF or ELOOP, and passes on every other [OSError].
    [Unreachable] is a path for which [stat] fails with such another
    error: a name longer than the file system takes (ENAMETOOLONG, no file
    has this name), a directory that may not be searched (EACCES). *)

Inductive path_state : Type :=
| Absent
| Present (content : result (list string))
| Unreachable.

Definition filesystem : Type := string -> path_state.

Definition path_exists (fs : filesystem) (path : string) : result bool :=
  match fs path with
  | Absent => Ok false
  | Present _ => Ok true
  | Unreachable => Raise OSError
  end.

Definition readlines (fs : filesystem) (path : string) : result (list string) :=
  match fs path with
  | Absent => Raise OSError
  | Present content => content
  | Unreachable => Raise OSError
  end.

End Py.

Import Py.

(** ** The [datetime] module ([import datetime as dt])

    [timedelta] and [datetime] values are the normalized records CPython
    keeps; the constructors validate as [_datetimemodule.c] does. *)
Module dt.

Record timedelta : Set := { days : Z; seconds : Z; microseconds : Z }.

#[global] Instance timedelta_eq_dec : EqDecision timedelta.
Proof. solve_decision. Defined.

Definition us_per_second : Z := 1000000.
Definition us_per_day : Z := 86400000000.
Definition max_delta_days : Z := 999999999.

(** [microseconds_to_delta]: split a count of microseconds, then check the
    range of the days. *)
Definition delta_of_microseconds (us : Z) : result timedelta :=
  let secs := us / us_per_second in
  let d := secs / 86400 in
  if (- max_delta_days <=? d) && (d <=? max_delta_days)
  then Ok {| days := d; seconds := secs mod 86400; microseconds := us mod us_per_second |}
  else Raise OverflowError.

(** [timedelta(days=d, seconds=s, microseconds=us)] for ints *)
Definition timedelta_of (d s us : Z) : result timedelta :=
  delta_of_microseconds (us + s * us_per_second + d * us_per_day).

Definition half : float := binary_normalize prec emax 1 (-1) false.
Definition fint (z : Z) : float := binary_normalize prec emax z 0 false.

(** [timedelta(days=x)] for a float ([delta_new] with [accum]): the whole
    days are exact; the fraction is multiplied by the microseconds of a day
    in binary64, and what is left below a microsecond is rounded to the
    nearest, halves to the even total. *)
Definition timedelta_of_float_days (x : float) : result timedelta :=
  let '(fracpart, intpart) := modf x in
  let* ip := int_of_float intpart in
  let sum := ip * us_per_day in
  if feqb fracpart (S754_zero false) then delta_of_microseconds sum
  else
    let* factor := float_of_int us_per_day in
    let dnum := fmul factor fracpart in
    let '(leftover_us, intpart2) := modf dnum in
    let* ip2 := int_of_float intpart2 in
    let y := sum + ip2 in
    if feqb leftover_us (S754_zero false) then delta_of_microseconds y
    else
      let whole_us := c_round leftover_us in
      let whole_us :=
        if feqb (fabs (fsub whole_us leftover_us)) half then
          let x_is_odd := fint (if Z.odd y then 1 else 0) in
          fsub (fmul (fint 2) (c_round (fmul (fadd leftover_us x_is_odd) half))) x_is_odd
        else whole_us in
      let* temp := int_of_float whole_us in
      delta_of_microseconds (y + temp).

Definition timedelta_add (a b : timedelta) : result timedelta :=
  timedelta_of (days a + days b) (seconds a + seconds b) (microseconds a + microseconds b).

Definition timedelta_sub (a b : timedelta) : result timedelta :=
  timedelta_of (days a - days b) (seconds a - seconds b) (microseconds a - microseconds b).

Definition timedelta_neg (a : timedelta) : result timedelta :=
  timedelta_of (- days a) (- seconds a) (- microseconds a).

(** [td.total_seconds()] *)
Definition total_seconds (td : timedelta) : result float :=
  int_truediv ((days td * 86400 + seconds td) * 10 ^ 6 + microseconds td) (10 ^ 6).

(** *** The proleptic Gregorian calendar *)

Definition MINYEAR : Z := 1.
Definition MAXYEAR : Z := 9999.
Definition MAXORDINAL : Z := 3652059.

Definition is_leap (year : Z) : bool :=
  (year mod 4 =? 0) && (negb (year mod 100 =? 0) || (year mod 400 =? 0)).

Definition days_before_year (year : Z) : Z :=
  let y := year - 1 in y * 365 + y / 4 - y / 100 + y / 400.

Definition DAYS_IN_MONTH : list Z := [31; 28; 31; 30; 31; 30; 31; 31; 30; 31; 30; 31].
Definition DAYS_BEFORE_MONTH : list Z := [0; 31; 59; 90; 120; 151; 181; 212; 243; 273; 304; 334].

Definition days_in_month (year month : Z) : Z :=
  if (month =? 2) && is_leap year then 29
  else nth (Z.to_nat (month - 1)) DAYS_IN_MONTH 0.

Definition days_before_month (year month : Z) : Z :=
  nth (Z.to_nat (month - 1)) DAYS_BEFORE_MONTH 0
  + (if (2 <? month) && is_leap year then 1 else 0).

Definition ymd2ord (year month day : Z) : Z :=
  days_before_year year + days_before_month year month + day.

Definition DI400Y : Z := 146097.
Definition DI100Y : Z := 36524.
Definition DI4Y : Z := 1461.

Definition ord2ymd (ordinal : Z) : Z * Z * Z :=
  let n := ordinal - 1 in
  let n400 := n / DI400Y in
  let n := n mod DI400Y in
  let year := n400 * 400 + 1 in
  let n100 := n / DI100Y in
  let n := n mod DI100Y in
  let n4 := n / DI4Y in
  let n := n mod DI4Y in
  let n1 := n / 365 in
  let n := n mod 365 in
  let year := year + n100 * 100 + n4 * 4 + n1 in
  if (n1 =? 4) || (n100 =? 4) then (year - 1, 12, 31)
  else
    let leapyear := (n1 =? 3) && (negb (n4 =? 24) || (n100 =? 3)) in
    let month := Z.shiftr (n + 50) 5 in
    let preceding :=
      nth (Z.to_nat (month - 1)) DAYS_BEFORE_MONTH 0
      + (if (2 <? month) && leapyear then 1 else 0) in
    if n <? preceding then
      let month := month - 1 in
      let preceding :=
        preceding - (nth (Z.to_nat (month - 1)) DAYS_IN_MONTH 0
                     + (if (month =? 2) && leapyear then 1 else 0)) in
      (year, month, n - preceding + 1)
    else (year, month, n - preceding + 1).

(** *** datetime

    [TZ] is the type of tzinfo objects, compared by identity;
    [tz_utcoffset] is their [utcoffset] method. *)
Section tz.
Context {TZ : Type} `{EqDecision TZ}.

Record datetime : Type := mk {
  year : Z; month : Z; day : Z;
  hour : Z; minute : Z; second : Z; microsecond : Z;
  tzinfo : option TZ
}.

(** The ranges every datetime object keeps ([_check_date_fields],
    [_check_time_fields]) *)
Definition fields_ok (y m d hh mm ss us : Z) : bool :=
  (MINYEAR <=? y) && (y <=? MAXYEAR) && (1 <=? m) && (m <=? 12)
  && (1 <=? d) && (d <=? days_in_month y m)
  && (0 <=? hh) && (hh <=? 23) && (0 <=? mm) && (mm <=? 59)
  && (0 <=? ss) && (ss <=? 59) && (0 <=? us) && (us <=? 999999).

Definition wf (d : datetime) : bool :=
  fields_ok (year d) (month d) (day d) (hour d) (minute d) (second d) (microsecond d).

(** [dt.datetime(year, month, day, hour, minute, second, microsecond, tzinfo)] *)
Definition new (y m d hh mm ss us : Z) (tz : option TZ) : result datetime :=
  if fields_ok y m d hh mm ss us then Ok (mk y m d hh mm ss us tz)
  else Raise ValueError.

Definition toordinal (d : datetime) : Z := ymd2ord (year d) (month d) (day d).

(** [d.replace(microsecond=us)] *)
Definition replace_microsecond (d : datetime) (us : Z) : datetime :=
  mk (year d) (month d) (day d) (hour d) (minute d) (second d) us (tzinfo d).

(** [d.timetuple().tm_yday]: the day of the year of the date fields.
    [timetuple] also asks the tzinfo for [dst()], to fill [tm_isdst]; the
    tzinfo objects considered here answer it ([timezone] and [zoneinfo]
    do), a [tzinfo] subclass without [dst] raises [NotImplementedError]
    and is outside this model. *)
Definition tm_yday (d : datetime) : Z := days_before_month (year d) (month d) + day d.

Variable tz_utcoffset : TZ -> datetime -> option timedelta.

(** [d.utcoffset()] *)
Definition utcoffset (d : datetime) : option timedelta :=
  match tzinfo d with
  | Some tz => tz_utcoffset tz d
  | None => None
  end.

(** [a - b] for two datetimes: with one and the same tzinfo object (or
    none on both sides) the UTC offsets are not consulted. *)
Definition sub (a b : datetime) : result timedelta :=
  let days1 := toordinal a in
  let days2 := toordinal b in
  let secs1 := second a + minute a * 60 + hour a * 3600 in
  let secs2 := second b + minute b * 60 + hour b * 3600 in
  let* base := timedelta_of (days1 - days2) (secs1 - secs2) (microsecond a - microsecond b) in
  if decide (tzinfo a = tzinfo b) then Ok base
  else
    let myoff := utcoffset a in
    let otoff := utcoffset b in
    if decide (myoff = otoff) then Ok base
    else
      match myoff, otoff with
      | Some myoff, Some otoff =>
          let* r := timedelta_add base otoff in timedelta_sub r myoff
      | _, _ => Raise TypeError
      end.

(** [d + td] *)
Definition add (d : datetime) (other : timedelta) : result datetime :=
  let* delta :=
    timedelta_of (toordinal d) (hour d * 3600 + minute d * 60 + second d) (microsecond d) in
  let* delta := timedelta_add delta other in
  let hh := seconds delta / 3600 in
  let rem := seconds delta mod 3600 in
  if (0 <? days delta) && (days delta <=? MAXORDINAL) then
    let '(y, m, dd) := ord2ymd (days delta) in
    Ok (mk y m dd hh (rem / 60) (rem mod 60) (microseconds delta) (tzinfo d))
  else Raise OverflowError.

(** [d - td], that is [d + -td] *)
Definition sub_timedelta (d : datetime) (other : timedelta) : result datetime :=
  let* n := timedelta_neg other in add d n.

(** The fields in the order [_cmp] compares them *)
Definition fields (d : datetime) : list Z :=
  [year d; month d; day d; hour d; minute d; second d; microsecond d].

Fixpoint lex_compare (xs ys : list Z) : comparison :=
  match xs, ys with
  | x :: xs', y :: ys' =>
      match x ?= y with
      | Eq => lex_compare xs' ys'
      | c => c
      end
  | [], [] => Eq
  | [], _ :: _ => Lt
  | _ :: _, [] => Gt
  end.

(** [datetime._cmp] as the ordering operators call it *)
Definition cmp (a b : datetime) : result comparison :=
  if decide (tzinfo a = tzinfo b) then Ok (lex_compare (fields a) (fields b))
  else
    let myoff := utcoffset a in
    let otoff := utcoffset b in
    if decide (myoff = otoff) then Ok (lex_compare (fields a) (fields b))
    else
      match myoff, otoff with
      | Some _, Some _ =>
          let* diff := sub a b in
          Ok (if days diff <? 0 then Lt
              else if decide (diff = Build_timedelta 0 0 0) then Eq else Gt)
      | _, _ => Raise TypeError
      end.

(** [a < b] and [a > b] *)
Definition lt (a b : datetime) : result bool :=
  let* c := cmp a b in Ok (match c with Lt => true | _ => false end).
Definition gt (a b : datetime) : result bool :=
  let* c := cmp a b in Ok (match c with Gt => true | _ => false end).

End tz.

Arguments datetime TZ : clear implicits.

End dt.

(** ** The numpy calls of [findClosestDatetimeIndices] *)
Module np.

(** [np.vectorize(f)(arr)] for a one-dimensional array: with no [otypes]
    given, numpy calls [f] on the first element to find the output type,
    and refuses an array of size 0 ("cannot call `vectorize` on size 0
    inputs unless `otypes` is set", a [ValueError]). *)
Definition vectorize {A B} (f : A -> result B) (arr : list A) : result (list B) :=
  match arr with
  | [] => Raise ValueError
  | _ :: _ => mapM f arr
  end.

(** [np.zeros(shape, dtype=np.int64)] *)
Definition zeros (n : nat) : list Z := replicate n 0.

(** [arr - x] and [np.abs(arr)], elementwise *)
Definition sub_scalar (arr : list float) (x : float) : list float :=
  (fun a => fsub a x) <$> arr.
Definition abs (arr : list float) : list float := fabs <$> arr.

(** The loop of numpy's [DOUBLE_argmin]: the running minimum [mp] is
    replaced when [mp <= x] fails, and a NaN, once met, stays. *)
Fixpoint argmin_from (xs : list float) (i : nat) (mp : float) (min_ind : nat) : nat :=
  match xs with
  | [] => min_ind
  | x :: xs' =>
      if is_nan mp then min_ind
      else if fle mp x then argmin_from xs' (S i) mp min_ind
      else argmin_from xs' (S i) x i
  end.

(** [np.argmin(arr, axis=0)] *)
Definition argmin (arr : list float) : result Z :=
  match arr with
  | [] => Raise ValueError
  | x :: xs => Ok (Z.of_nat (argmin_from xs 1 x 0))
  end.

End np.

(** ** spherapy.util.elements_u, as far as [epoch_u] uses it *)

(** Modelled from the spec: the structure [split3LELineIntoFields] returns
    (its definition is in [elements_u.py], which is not among the sources);
    the spec gives it the parsed tokens [fields] and the line text
    [line_str], the two keys [epoch_u.py] reads. *)
Record ElementsLineDict : Set := {
  fields : list string;
  line_str : string
}.

(** ** epoch_u.py *)

(** What [getStoredTLEByIdx] collects per record: the raw text, or the
    dict [{0: .., 1: .., 2: ..}] of the three split lines. *)
Inductive tle_data : Type :=
| TleStr (s : string)
| TleDict (d : gmap Z ElementsLineDict).

(** [idx_list: int | list[int]] *)
Inductive idx_arg : Set :=
| IdxInt (idx : Z)
| IdxList (idxs : list Z).

Section epoch_u.
Context {TZ : Type} `{EqDecision TZ}.
(** [dt.timezone.utc] *)
Variable utc : TZ.
Variable tz_utcoffset : TZ -> dt.datetime TZ -> option dt.timedelta.
(** [elements_u.split3LELineIntoFields] *)
Variable split3LELineIntoFields : string -> result ElementsLineDict.

Definition epoch2datetime (epoch_str : value) : result (dt.datetime TZ) :=
  let* epoch_str :=
    match epoch_str with
    | VStr s => Ok s
    | _ => str epoch_str
    end in
  let* year := int_of_str (str_upto 2 epoch_str) in
  let year := if year <? 50 then year + 2000 else year + 1900 in
  let* fractional_day_of_year := float_of_str (str_from 2 epoch_str) in
  let* base := dt.new year 1 1 0 0 0 0 (Some utc) in
  let* delta := dt.timedelta_of_float_days fractional_day_of_year in
  let* shifted := dt.add base delta in
  let* one_day := dt.timedelta_of 1 0 0 in
  dt.sub_timedelta shifted one_day.

Definition epochEarlierThan (epoch_a epoch_b : value) : result bool :=
  let* datetime_a := epoch2datetime epoch_a in
  let* datetime_b := epoch2datetime epoch_b in
  dt.lt tz_utcoffset datetime_a datetime_b.

Definition epochLaterThan (epoch_a epoch_b : value) : result bool :=
  let* datetime_a := epoch2datetime epoch_a in
  let* datetime_b := epoch2datetime epoch_b in
  dt.gt tz_utcoffset datetime_a datetime_b.

Definition datetime2TLEepoch (date : dt.datetime TZ) : result string :=
  let tzinfo := dt.tzinfo date in
  let year_str := str_last 2 (str_of_int (dt.year date)) in
  let day_str := zfill 3 (str_of_int (dt.tm_yday date)) in
  let* midnight := dt.new (dt.year date) (dt.month date) (dt.day date) 0 0 0 0 tzinfo in
  let* since := dt.sub tz_utcoffset date midnight in
  let* secs := dt.total_seconds since in
  let* one_day := dt.timedelta_of 1 0 0 in
  let* day_secs := dt.total_seconds one_day in
  let* fraction := float_truediv secs day_secs in
  let fraction_str := str_from 1 (float_repr fraction) in
  Ok (year_str +:+ day_str +:+ fraction_str).

Definition datetime2sgp4epoch (date : dt.datetime TZ) : result float :=
  let tzinfo := dt.tzinfo date in
  let* sgp4start := dt.new 1949 12 31 0 0 0 0 tzinfo in
  let* delta := dt.sub tz_utcoffset date sgp4start in
  let* frac := int_truediv (dt.seconds delta) 86400 in
  int_add_float (dt.days delta) frac.

Section findClosest.
(** The elements of the arrays and their [timestamp()] method *)
Context {T : Type}.
Variable timestamp : T -> result float.

Definition findClosestDatetimeIndices (test_arr source_arr : list T) : result (list Z) :=
  let* test_arr_fl := np.vectorize timestamp test_arr in
  let* source_arr_fl := np.vectorize timestamp source_arr in
  let idx_arr := np.zeros (length test_arr_fl) in
  for_ (seq 0 (length test_arr_fl))
    (fun idx_arr ii =>
       let* t := getitem test_arr_fl (Z.of_nat ii) in
       let diff := np.abs (np.sub_scalar source_arr_fl t) in
       let* k := np.argmin diff in
       Ok (<[ii := k]> idx_arr))
    idx_arr.
End findClosest.

Definition getStoredEpochs (fs : filesystem) (tle_path : string)
  : result (option (dt.datetime TZ * dt.datetime TZ)) :=
  let* there := path_exists fs tle_path in
  if negb there then Ok None
  else
    let* lines := readlines fs tle_path in
    let* line_first := getitem lines 1 in
    let* first_tle_line_1 := split3LELineIntoFields line_first in
    let* line_last := getitem lines (-2) in
    let* last_tle_line_1 := split3LELineIntoFields line_last in
    let* first_epoch := getitem (fields first_tle_line_1) 3 in
    let* first_epoch_dt := epoch2datetime (VStr first_epoch) in
    let* last_epoch := getitem (fields last_tle_line_1) 3 in
    let* last_epoch_dt := epoch2datetime (VStr last_epoch) in
    Ok (Some (first_epoch_dt, last_epoch_dt)).

Definition getAllStoredEpochs (fs : filesystem) (tle_path : string)
  : result (option (list (dt.datetime TZ))) :=
  let* there := path_exists fs tle_path in
  if negb there then Ok None
  else
    let* lines := readlines fs tle_path in
    let* tle_epochs_dt :=
      for_ (range 1 (Z.of_nat (length lines)) 3)
        (fun tle_epochs_dt ii =>
           let* line := getitem lines ii in
           let* tle_line := split3LELineIntoFields line in
           let* epoch := getitem (fields tle_line) 3 in
           let* epoch_dt := epoch2datetime (VStr epoch) in
           Ok (tle_epochs_dt ++ [epoch_dt]))
        [] in
    Ok (Some tle_epochs_dt).

Definition getStoredTLEByIdx (fs : filesystem) (tle_path : string)
    (idx_list : idx_arg) (string_only : bool) : result (option (list tle_data)) :=
  let* there := path_exists fs tle_path in
  if negb there then Ok None
  else
    let idx_list :=
      match idx_list with
      | IdxInt idx => [idx]
      | IdxList idxs => idxs
      end in
    let* lines := readlines fs tle_path in
    let* tles :=
      for_ idx_list
        (fun tles idx =>
           let* line_0 := getitem lines (idx * 3 + 0) in
           let* tle_line_0 := split3LELineIntoFields line_0 in
           let* line_1 := getitem lines (idx * 3 + 1) in
           let* tle_line_1 := split3LELineIntoFields line_1 in
           let* line_2 := getitem lines (idx * 3 + 2) in
           let* tle_line_2 := split3LELineIntoFields line_2 in
           let tle_data :=
             if string_only
             then TleStr (line_str tle_line_0 +:+ line_str tle_line_1 +:+ line_str tle_line_2)
             else TleDict {[ 0 := tle_line_0; 1 := tle_line_1; 2 := tle_line_2 ]} in
           Ok (tles ++ [tle_data]))
        [] in
    Ok (Some tles).

End epoch_u.

(** ** What the statements below are phrased with *)

(** *** The file readers, line by line

    [split_line lines i] is the split of the file line at Python index [i];
    [line_epoch] converts the epoch token (position 3) of that line;
    [record_lines lines k] are the splits of the lines [3k], [3k+1], [3k+2]
    of record [k]. *)
Section reading.
Context {TZ : Type}.
Variable utc : TZ.
Variable split3LELineIntoFields : string -> result ElementsLineDict.

Definition split_line (lines : list string) (i : Z) : result ElementsLineDict :=
  let* line := getitem lines i in split3LELineIntoFields line.

Definition line_epoch (lines : list string) (i : Z) : result (dt.datetime TZ) :=
  let* tle_line := split_line lines i in
  let* epoch := getitem (fields tle_line) 3 in
  epoch2datetime utc (VStr epoch).

Definition record_lines (lines : list string) (k : Z)
  : result (ElementsLineDict * ElementsLineDict * ElementsLineDict) :=
  let* r0 := split_line lines (k * 3 + 0) in
  let* r1 := split_line lines (k * 3 + 1) in
  let* r2 := split_line lines (k * 3 + 2) in
  Ok (r0, r1, r2).

(** The three [line_str] texts of record [k], one after the other *)
Definition record_text (lines : list string) (k : Z) : result tle_data :=
  let* rs := record_lines lines k in
  let '(r0, r1, r2) := rs in
  Ok (TleStr (line_str r0 +:+ line_str r1 +:+ line_str r2)).

(** The dict of the three splits of record [k] *)
Definition record_dict (lines : list string) (k : Z) : result tle_data :=
  let* rs := record_lines lines k in
  let '(r0, r1, r2) := rs in
  Ok (TleDict {[ 0 := r0; 1 := r1; 2 := r2 ]}).

End reading.

(** *** Results as Python objects

    [getStoredTLEByIdx] returns a list of str or of dicts of dicts; to set
    it beside a description that gives the values another shape, both are
    read as objects. *)
#[local] Set Warnings "-register-all".
Inductive pyobj : Type :=
| PStr (s : string)
| PInt (z : Z)
| PList (items : list pyobj)
| PDict (items : list (pyobj * pyobj)).

Definition obj_of_line (r : ElementsLineDict) : pyobj :=
  PDict [(PStr "fields", PList (PStr <$> fields r)); (PStr "line_str", PStr (line_str r))].

Definition obj_of_tle_data (t : tle_data) : pyobj :=
  match t with
  | TleStr s => PStr s
  | TleDict d => PDict ((fun kv => (PInt kv.1, obj_of_line kv.2)) <$> map_to_list d)
  end.

(** [o[key]] for a dict [o] with int keys *)
Definition dict_get (o : pyobj) (key : Z) : option pyobj :=
  match o with
  | PDict items =>
      snd <$> List.find (fun kv => match kv.1 with PInt z => key =? z | _ => false end) items
  | _ => None
  end.

(** The reading "the value at each key is the ordered field sequence of
    that line": the fields of a split line as a list of str. *)
Definition field_sequence (r : ElementsLineDict) : pyobj := PList (PStr <$> fields r).

(** *** Floats that are numbers, and floats that are not infinite *)
Definition not_nan (x : float) : Prop := is_nan x = false.
Definition not_inf (x : float) : Prop :=
  match x with S754_infinity _ => False | _ => True end.

(** *** The distance [np.abs(source - t)] compares, and the index
    [np.argmin] picks for one query *)
Definition dist (s q : float) : float := fabs (fsub s q).

Definition nearest (source_fl : list float) (t : float) : result Z :=
  np.argmin (np.abs (np.sub_scalar source_fl t)).

(** *** Sample data for the closed instances *)

(** The blank-separated tokens of a line *)
Fixpoint tokens_from (cs cur : list ascii) : list string :=
  match cs with
  | [] => match cur with [] => [] | _ :: _ => [of_chars (rev cur)] end
  | c :: cs' =>
      if is_space c then
        match cur with
        | [] => tokens_from cs' []
        | _ :: _ => of_chars (rev cur) :: tokens_from cs' []
        end
      else tokens_from cs' (c :: cur)
  end.

(** A splitter for the samples: the tokens, and the line as it is *)
Definition sample_split (line : string) : result ElementsLineDict :=
  Ok {| fields := tokens_from (chars line) []; line_str := line |}.

Definition nl : string := String (ascii_of_nat 10) EmptyString.

(** Two records, the later epoch first *)
Definition sample_lines : list string :=
  [ "ISS (ZARYA)" +:+ nl;
    "1 25544U 98067A   21002.50000000  .00001264  00000-0  29621-4 0  9993" +:+ nl;
    "2 25544  51.6442 147.0064 0001049 125.0732 341.9095 15.49249247262383" +:+ nl;
    "ISS (ZARYA)" +:+ nl;
    "1 25544U 98067A   21001.00000000  .00001264  00000-0  29621-4 0  9991" +:+ nl;
    "2 25544  51.6442 147.0064 0001049 125.0732 341.9095 15.49249247262375" +:+ nl ].

Definition sample_fs (path : string) : path_state :=
  if String.eqb path "tle/25544.tle" then Present (Ok sample_lines) else Absent.

Definition three_lines : list string := ["L0" +:+ nl; "L1" +:+ nl; "L2" +:+ nl].

Definition three_lines_fs (path : string) : path_state :=
  if String.eqb path "three.tle" then Present (Ok three_lines) else Absent.

(** An empty directory of a file system whose names have at most 255
    characters: a longer name cannot be looked up. *)
Definition empty_dir_fs (path : string) : path_state :=
  if (255 <? String.length path)%nat then Unreachable else Absent.

Definition long_name : string := of_chars (replicate 256 "a"%char).

(** Tzinfo objects of the samples: one object, at offset zero *)
Definition no_offset (tz : unit) (d : dt.datetime unit) : option dt.timedelta :=
  Some (dt.Build_timedelta 0 0 0).

(** *** Helpers for the calendar and for timedelta *)

(** A normalized timedelta: what [microseconds_to_delta] builds *)
Definition normalized (td : dt.timedelta) : Prop :=
  - dt.max_delta_days <= dt.days td <= dt.max_delta_days
  /\ 0 <= dt.seconds td < 86400
  /\ 0 <= dt.microseconds td < 1000000.

(** A year written by its place in the 400-, 100- and 4-year cycles *)
Definition cycle_year (a b c d : Z) : Z := 400 * a + 100 * b + 4 * c + d + 1.

(** The month and day of the [n]-th day (from 0) of a year, as [ord2ymd]
    finds them; [leap] says whether the year is a leap year. *)
Definition month_day (leap : bool) (n : Z) : Z * Z :=
  let month := Z.shiftr (n + 50) 5 in
  let preceding :=
    nth (Z.to_nat (month - 1)) dt.DAYS_BEFORE_MONTH 0
    + (if (2 <? month) && leap then 1 else 0) in
  if n <? preceding then
    let month := month - 1 in
    let preceding :=
      preceding - (nth (Z.to_nat (month - 1)) dt.DAYS_IN_MONTH 0
                   + (if (month =? 2) && leap then 1 else 0)) in
    (month, n - preceding + 1)
  else (month, n - preceding + 1).

Definition month_day_ok (leap : bool) (n : Z) : bool :=
  let '(m, d) := month_day leap n in
  (1 <=? m) && (m <=? 12) && (1 <=? d)
  && (d <=? (if (m =? 2) && leap then 29 else nth (Z.to_nat (m - 1)) dt.DAYS_IN_MONTH 0))
  && (nth (Z.to_nat (m - 1)) dt.DAYS_BEFORE_MONTH 0
      + (if (2 <? m) && leap then 1 else 0) + d =? n + 1).


(** *** What [epoch2datetime] computes *)

(** The century pivot of the two-digit year: below 50 is 20xx *)
Definition pivot_year (y : Z) : Z := if y <? 50 then y + 2000 else y + 1900.

(** The datetime a day count leads to: the ordinal of 1 January plus the
    days, less one, with the time of day of the count. *)
Definition shifted_datetime {TZ : Type} (utc : TZ) (y : Z) (delta : dt.timedelta)
  : dt.datetime TZ :=
  let '(yy, m, dd) := dt.ord2ymd (dt.ymd2ord (pivot_year y) 1 1 + dt.days delta - 1) in
  dt.mk yy m dd (dt.seconds delta / 3600) (dt.seconds delta mod 3600 / 60)
    (dt.seconds delta mod 3600 mod 60) (dt.microseconds delta) (Some utc).

(** The instant of a datetime read off its own fields, in microseconds
    since the start of day 0; the UTC offset plays no part. *)
Definition instant {TZ : Type} (d : dt.datetime TZ) : Z :=
  (dt.toordinal d * 86400 + dt.hour d * 3600 + dt.minute d * 60 + dt.second d) * 1000000
  + dt.microsecond d.

(** *** Records of [getStoredTLEByIdx] seen as text *)

(** The text of a record kept as a dict: the [line_str] of its lines 0, 1
    and 2, one after the other. *)
Definition tle_text (t : tle_data) : tle_data :=
  match t with
  | TleStr s => TleStr s
  | TleDict d =>
      match d !! 0, d !! 1, d !! 2 with
      | Some r0, Some r1, Some r2 => TleStr (line_str r0 +:+ line_str r1 +:+ line_str r2)
      | _, _, _ => t
      end
  end.

(** A record index counted from the start of a file of [m] records *)
Definition from_start (m k : Z) : Z := if k <? 0 then k + m else k.

(** The text of a list of strings: all of them, one after the other *)
Definition text_of (ss : list string) : string := foldr String.append EmptyString ss.

(** The lines of a file three by three: the text of each whole record *)
Fixpoint record_texts (lines : list string) : list string :=
  match lines with
  | l0 :: l1 :: l2 :: rest => (l0 +:+ l1 +:+ l2) :: record_texts rest
  | _ => []
  end.

(** [d.replace(tzinfo=tz)] *)
Definition replace_tzinfo {TZ : Type} (d : dt.datetime TZ) (tz : option TZ) : dt.datetime TZ :=
  dt.mk (dt.year d) (dt.month d) (dt.day d) (dt.hour d) (dt.minute d) (dt.second d)
    (dt.microsecond d) tz.

(** *** Checks run over the years and the days of a year *)

(** The last two characters of [str(y)] are two characters that [int()]
    reads as [y mod 100]. *)
Definition year_text_ok (y : Z) : bool :=
  let s := str_last 2 (str_of_int y) in
  (length (chars s) =? 2)%nat
  && match int_of_str s with Ok v => v =? y mod 100 | Raise _ => false end.

(** The day [n] padded to three digits and followed by [.0] is read by
    [float()] as a number of days that [timedelta] takes as [n] whole
    days. *)
Definition day_text_ok (n : Z) : bool :=
  match float_of_str (zfill 3 (str_of_int n) +:+ ".0") with
  | Ok f =>
      match dt.timedelta_of_float_days f with
      | Ok td => bool_decide (td = dt.Build_timedelta n 0 0)
      | Raise _ => false
      end
  | Raise _ => false
  end.

(** [GMST_epoch = dt.datetime(2000, 1, 1, 12, 0, 0)]: a datetime with no
    tzinfo *)
Definition GMST_epoch {TZ : Type} : dt.datetime TZ := dt.mk 2000 1 1 12 0 0 0 None.


(** * Properties *)

(** ** Results *)

Lemma bind_Ok {A B} (r : result A) (k : A -> result B) (b : B) :
  bind r k = Ok b <-> exists a, r = Ok a /\ k a = Ok b.
Proof.
  destruct r as [a|e]; simpl; split.
  - intros Hk. exists a. auto.
  - intros (a' & Ha & Hk). congruence.
  - discriminate.
  - intros (a' & Ha & _). discriminate.
Qed.

Lemma bind_Raise {A B} (r : result A) (k : A -> result B) (e : exn) :
  bind r k = Raise e <-> r = Raise e \/ exists a, r = Ok a /\ k a = Raise e.
Proof.
  destruct r as [a|e']; simpl; split.
  - intros Hk. right. exists a. auto.
  - intros [Hr | (a' & Ha & Hk)]; congruence.
  - intros [= ->]. left. reflexivity.
  - intros [Hr | (a' & Ha & _)]; congruence.
Qed.

(** ** str *)

Lemma chars_of_chars cs : chars (of_chars cs) = cs.
Proof. apply list_ascii_of_string_of_list_ascii. Qed.

Lemma of_chars_chars s : of_chars (chars s) = s.
Proof. apply string_of_list_ascii_of_string. Qed.

Lemma chars_length s : length (chars s) = String.length s.
Proof. induction s as [|c s IH]; simpl; [reflexivity | now rewrite IH]. Qed.

Lemma str_upto_length n s : (length (chars (str_upto n s)) <= n)%nat.
Proof. unfold str_upto. rewrite chars_of_chars, length_take. lia. Qed.

Lemma str_from_short s : (String.length s <= 2)%nat -> str_from 2 s = EmptyString.
Proof.
  intros Hlen. unfold str_from. rewrite <- chars_length in Hlen.
  rewrite drop_ge by exact Hlen. reflexivity.
Qed.

(** ** int() *)

Lemma digit_val_range c d : digit_val c = Some d -> 0 <= d <= 9.
Proof.
  unfold digit_val. destruct (_ && _) eqn:Hc; [|discriminate].
  intros [= <-]. apply andb_true_iff in Hc as [H1 H2]. lia.
Qed.

Lemma scan_int_bound cs : forall acc nd b v n rest,
  scan_int cs acc nd b = Some (v, n, rest) ->
  0 <= acc < 10 ^ Z.of_nat nd ->
  0 <= v < 10 ^ Z.of_nat n /\ (n <= nd + length cs)%nat.
Proof.
  induction cs as [|c cs IH]; intros acc nd b v n rest; simpl.
  - destruct b; [discriminate|]. intros [= <- <- <-] Hacc. split; [exact Hacc | lia].
  - destruct (Ascii.eqb c "_").
    + destruct b; [discriminate|]. intros Hs Hacc.
      destruct (IH _ _ _ _ _ _ Hs Hacc) as [Hv Hn]. split; [exact Hv | lia].
    + destruct (digit_val c) as [d|] eqn:Hd.
      * intros Hs Hacc. apply digit_val_range in Hd.
        assert (Hacc' : 0 <= 10 * acc + d < 10 ^ Z.of_nat (S nd)).
        { rewrite Nat2Z.inj_succ, Z.pow_succ_r by lia. lia. }
        destruct (IH _ _ _ _ _ _ Hs Hacc') as [Hv Hn]. split; [exact Hv | lia].
      * destruct b; [discriminate|]. intros [= <- <- <-] Hacc. split; [exact Hacc | lia].
Qed.

Lemma ascii_transform_length cs : (length (ascii_transform cs) <= length cs)%nat.
Proof.
  induction cs as [|c cs IH]; simpl; [lia|].
  destruct (code c <? 127); simpl; [lia|].
  destruct (_ || _); simpl; lia.
Qed.

Lemma skip_spaces_length cs : (length (skip_spaces cs) <= length cs)%nat.
Proof.
  induction cs as [|c cs IH]; simpl; [lia|]. destruct (is_space c); simpl; lia.
Qed.

Lemma take_sign_length cs : (length (take_sign cs).2 <= length cs)%nat.
Proof.
  destruct cs as [|c cs]; simpl; [lia|].
  destruct (Ascii.eqb c "-"); simpl; [lia|]. destruct (Ascii.eqb c "+"); simpl; lia.
Qed.

(** [int(s)] raises nothing but [ValueError], and what it returns has at
    most as many digits as [s] has characters. *)
Lemma int_of_str_error s e : int_of_str s = Raise e -> e = ValueError.
Proof.
  unfold int_of_str. destruct (take_sign _) as [neg cs].
  destruct cs as [|c cs]; [congruence|].
  destruct (Ascii.eqb c "_"); [congruence|].
  destruct (scan_int _ _ _ _) as [[[v nd] rest]|]; [|congruence].
  destruct (nd =? 0)%nat; [congruence|].
  destruct (max_str_digits <? nd)%nat; [congruence|].
  destruct (skip_spaces rest); congruence.
Qed.

Lemma int_of_str_bound s y :
  int_of_str s = Ok y -> Z.abs y < 10 ^ Z.of_nat (length (chars s)).
Proof.
  unfold int_of_str.
  pose proof (take_sign_length (skip_spaces (ascii_transform (chars s)))) as Hsign.
  pose proof (skip_spaces_length (ascii_transform (chars s))) as Hskip.
  pose proof (ascii_transform_length (chars s)) as Htrans.
  destruct (take_sign _) as [neg cs]. simpl in Hsign.
  destruct cs as [|c cs]; [discriminate|].
  destruct (Ascii.eqb c "_"); [discriminate|].
  destruct (scan_int _ _ _ _) as [[[v nd] rest]|] eqn:Hscan; [|discriminate].
  destruct (nd =? 0)%nat; [discriminate|].
  destruct (max_str_digits <? nd)%nat; [discriminate|].
  destruct (skip_spaces rest); [|discriminate].
  intros [= <-].
  apply scan_int_bound in Hscan as [Hv Hn]; [|simpl; lia].
  assert (10 ^ Z.of_nat nd <= 10 ^ Z.of_nat (length (chars s))).
  { apply Z.pow_le_mono_r; lia. }
  destruct neg; lia.
Qed.

Lemma year_segment_range s y :
  int_of_str (str_upto 2 s) = Ok y -> -99 <= y <= 99.
Proof.
  intros Hy. apply int_of_str_bound in Hy.
  pose proof (str_upto_length 2 s) as Hlen.
  assert (10 ^ Z.of_nat (length (chars (str_upto 2 s))) <= 10 ^ 2).
  { apply Z.pow_le_mono_r; lia. }
  lia.
Qed.

(** ** binary64: what rounding can and cannot produce *)

Lemma iter_pos_nat {A} (f : A -> A) (p : positive) (x : A) :
  SpecFloat.iter_pos f p x = Nat.iter (Pos.to_nat p) f x.
Proof.
  revert x. induction p as [p IH|p IH|]; intros x.
  - change (SpecFloat.iter_pos f p~1 x)
      with (SpecFloat.iter_pos f p (SpecFloat.iter_pos f p (f x))).
    rewrite !IH, Pos2Nat.inj_xI.
    replace (S (2 * Pos.to_nat p)) with (S (Pos.to_nat p + Pos.to_nat p)) by lia.
    rewrite Nat.iter_succ_r, Nat.iter_add. reflexivity.
  - change (SpecFloat.iter_pos f p~0 x)
      with (SpecFloat.iter_pos f p (SpecFloat.iter_pos f p x)).
    rewrite !IH, Pos2Nat.inj_xO.
    replace (2 * Pos.to_nat p)%nat with (Pos.to_nat p + Pos.to_nat p)%nat by lia.
    rewrite Nat.iter_add. reflexivity.
  - reflexivity.
Qed.

Lemma Zdigits2_nonneg m : 0 <= Zdigits2 m.
Proof. destruct m; simpl; lia. Qed.

Lemma Zdigits2_log2 m : 0 < m -> Zdigits2 m = Z.log2 m + 1.
Proof.
  destruct m as [|p|p]; try lia. intros _. simpl.
  induction p as [p IH|p IH|]; simpl in *; try reflexivity.
  - rewrite Pos2Z.inj_succ, IH. destruct p; simpl; lia.
  - rewrite Pos2Z.inj_succ, IH. destruct p; simpl; lia.
Qed.

Lemma Zdigits2_le m n : 0 <= m <= n -> Zdigits2 m <= Zdigits2 n.
Proof.
  intros [Hm Hn]. destruct (Z.eq_dec m 0) as [->|Hm0].
  - apply Zdigits2_nonneg.
  - rewrite !Zdigits2_log2 by lia. pose proof (Z.log2_le_mono m n Hn). lia.
Qed.

Lemma Zdigits2_succ m : 0 <= m -> Zdigits2 (m + 1) <= Zdigits2 m + 1.
Proof.
  intros Hm. destruct (Z.eq_dec m 0) as [->|Hm0]; [simpl; lia|].
  rewrite !Zdigits2_log2 by lia. pose proof (Z.log2_succ_le m) as Hs.
  rewrite <- Z.add_1_r in Hs. lia.
Qed.

Lemma shr_1_spec mrs :
  0 <= shr_m mrs ->
  0 <= shr_m (shr_1 mrs) /\
  Zdigits2 (shr_m (shr_1 mrs)) = Z.max 0 (Zdigits2 (shr_m mrs) - 1).
Proof.
  destruct mrs as [m r s]. simpl. intros Hm.
  destruct m as [|[p|p|]|p]; simpl; try lia.
Qed.

Lemma iter_shr_1_spec n mrs :
  0 <= shr_m mrs ->
  0 <= shr_m (Nat.iter n shr_1 mrs) /\
  Zdigits2 (shr_m (Nat.iter n shr_1 mrs)) = Z.max 0 (Zdigits2 (shr_m mrs) - Z.of_nat n).
Proof.
  intros Hm. induction n as [|n [IH1 IH2]].
  - simpl. pose proof (Zdigits2_nonneg (shr_m mrs)). lia.
  - rewrite Nat.iter_succ. destruct (shr_1_spec _ IH1) as [H1 H2].
    split; [exact H1|]. rewrite H2, IH2. lia.
Qed.

(** The two halves of [shr_fexp]: the exponent it gives, and the size of
    the mantissa it leaves. *)
Lemma shr_fexp_spec m e l :
  0 <= m ->
  let r := shr_fexp prec emax m e l in
  0 <= shr_m r.1 /\
  r.2 = Z.max e (fexp prec emax (Zdigits2 m + e)) /\
  Zdigits2 (shr_m r.1) + r.2 = Z.max (Zdigits2 m + e) r.2.
Proof.
  intros Hm. unfold shr_fexp, shr.
  assert (Hrec : shr_m (shr_record_of_loc m l) = m) by (destruct l as [|[]]; reflexivity).
  pose proof (Zdigits2_nonneg m) as Hd.
  destruct (fexp prec emax (Zdigits2 m + e) - e) as [|p|p] eqn:Hn; simpl.
  - rewrite Hrec. lia.
  - rewrite iter_pos_nat.
    destruct (iter_shr_1_spec (Pos.to_nat p) (shr_record_of_loc m l)) as [H1 H2];
      [rewrite Hrec; exact Hm|].
    rewrite H2, Hrec, positive_nat_Z. lia.
  - rewrite Hrec. lia.
Qed.

Lemma round_nearest_even_spec m l :
  0 <= m -> m <= round_nearest_even m l <= m + 1.
Proof. intros Hm. destruct l as [|[]]; simpl; try lia. destruct (Z.even m); lia. Qed.

Lemma binary_round_aux_not_nan s m e l :
  0 <= m -> not_nan (binary_round_aux prec emax s m e l).
Proof.
  intros Hm. unfold binary_round_aux.
  pose proof (shr_fexp_spec m e l Hm) as (H1 & _ & _).
  destruct (shr_fexp prec emax m e l) as [mrs' e']. simpl in H1.
  pose proof (round_nearest_even_spec (shr_m mrs') (loc_of_shr_record mrs') H1) as Hr.
  pose proof (shr_fexp_spec (round_nearest_even (shr_m mrs') (loc_of_shr_record mrs')) e' loc_Exact
                ltac:(lia)) as (H2 & _ & _).
  destruct (shr_fexp prec emax _ e' loc_Exact) as [mrs'' e'']. simpl in H2.
  destruct (shr_m mrs'') as [|p|p]; try reflexivity; [|lia].
  destruct (e'' <=? emax - prec); reflexivity.
Qed.

Lemma binary_round_aux_not_inf s m e l :
  0 <= m -> e <= emax - prec -> Zdigits2 m + e < emax ->
  not_inf (binary_round_aux prec emax s m e l).
Proof.
  intros Hm He Hd. unfold binary_round_aux.
  pose proof (shr_fexp_spec m e l Hm) as (H1 & He' & Hd').
  destruct (shr_fexp prec emax m e l) as [mrs' e']. simpl in H1, He', Hd'.
  pose proof (round_nearest_even_spec (shr_m mrs') (loc_of_shr_record mrs') H1) as Hr.
  set (m' := round_nearest_even (shr_m mrs') (loc_of_shr_record mrs')) in *.
  pose proof (shr_fexp_spec m' e' loc_Exact ltac:(lia)) as (H2 & He'' & _).
  destruct (shr_fexp prec emax m' e' loc_Exact) as [mrs'' e'']. simpl in H2, He''.
  assert (Hm' : Zdigits2 m' <= Zdigits2 (shr_m mrs') + 1).
  { etransitivity; [apply (Zdigits2_le m' (shr_m mrs' + 1)); lia|].
    apply Zdigits2_succ; lia. }
  unfold fexp, SpecFloat.emin, prec, emax in *.
  destruct (shr_m mrs'') as [|p|p]; try exact I.
  destruct (e'' <=? 1024 - 53) eqn:Hle; [exact I|].
  apply Z.leb_gt in Hle. lia.
Qed.

Lemma digits2_pos_iter_xO m d :
  Zpos (digits2_pos (Pos.iter xO m d)) = Zpos (digits2_pos m) + Zpos d.
Proof.
  induction d as [|d IH] using Pos.peano_ind.
  - simpl. lia.
  - rewrite Pos.iter_succ. simpl. rewrite Pos2Z.inj_succ, IH. lia.
Qed.

Lemma binary_round_not_nan s m e : not_nan (binary_round prec emax s m e).
Proof.
  unfold binary_round. destruct (shl_align _ _ _) as [mz ez].
  apply binary_round_aux_not_nan. lia.
Qed.

Lemma binary_round_not_inf s m e :
  e <= emax - prec -> Zpos (digits2_pos m) + e < emax ->
  not_inf (binary_round prec emax s m e).
Proof.
  intros He Hd. unfold binary_round, shl_align.
  destruct (fexp prec emax (Zpos (digits2_pos m) + e) - e) as [|p|p] eqn:Hn.
  - apply binary_round_aux_not_inf; simpl; lia.
  - apply binary_round_aux_not_inf; simpl; lia.
  - apply binary_round_aux_not_inf; [lia| lia |].
    simpl. rewrite digits2_pos_iter_xO. lia.
Qed.

Lemma binary_normalize_not_nan z e s : not_nan (binary_normalize prec emax z e s).
Proof. destruct z; simpl; [reflexivity | apply binary_round_not_nan ..]. Qed.

Lemma binary_normalize_not_inf z e s :
  e <= emax - prec -> Zdigits2 z + e < emax ->
  not_inf (binary_normalize prec emax z e s).
Proof.
  intros He Hd. destruct z; simpl; [exact I | apply binary_round_not_inf; assumption ..].
Qed.

Lemma Zdigits2_bound z k : 0 <= k -> Z.abs z < 2 ^ k -> Zdigits2 z <= k.
Proof.
  intros Hk Hz. destruct (Z.eq_dec z 0) as [->|Hz0]; [simpl; lia|].
  assert (Hd : Zdigits2 z = Zdigits2 (Z.abs z)) by (destruct z; reflexivity).
  rewrite Hd, Zdigits2_log2 by lia.
  assert (Z.log2 (Z.abs z) < k) by (apply Z.log2_lt_pow2; lia). lia.
Qed.

(** [float(z)] succeeds below 2^1023. *)
Lemma float_of_int_Ok z :
  Z.abs z < 2 ^ 1023 -> float_of_int z = Ok (binary_normalize prec emax z 0 false).
Proof.
  intros Hz. unfold float_of_int.
  pose proof (binary_normalize_not_inf z 0 false) as Hinf.
  pose proof (Zdigits2_bound z 1023 ltac:(lia) Hz).
  destruct (binary_normalize prec emax z 0 false); try reflexivity.
  exfalso. apply Hinf; unfold emax, prec; lia.
Qed.

Lemma Zdigits2_shiftl m s : 0 < m -> 0 <= s -> Zdigits2 (Z.shiftl m s) = Zdigits2 m + s.
Proof.
  intros Hm Hs. rewrite !Zdigits2_log2; [|lia|].
  - rewrite Z.log2_shiftl by lia. lia.
  - rewrite Z.shiftl_mul_pow2 by lia. apply Z.mul_pos_pos; [lia|]. apply Z.pow_pos_nonneg; lia.
Qed.

Lemma round_ratio_not_nan s n d : not_nan (round_ratio s n d).
Proof.
  unfold round_ratio.
  destruct (SFdiv_core_binary prec emax (Zpos n) 0 (Zpos d) 0) as [[q e] l] eqn:Hdiv.
  apply binary_round_aux_not_nan.
  unfold SFdiv_core_binary in Hdiv.
  destruct (Z.div_eucl _ _) as [q' r'] eqn:Hqr in Hdiv.
  injection Hdiv as <- _ _.
  match type of Hqr with Z.div_eucl ?a ?b = _ =>
    pose proof (Z_div_mod a b ltac:(lia)) as Hdm; rewrite Hqr in Hdm;
    assert (0 <= a) end.
  { destruct (_ - _) as [|p|p]; [lia| |lia]. apply Z.shiftl_nonneg. lia. }
  nia.
Qed.

Lemma round_ratio_not_inf s n d :
  Zpos (digits2_pos n) < emax -> not_inf (round_ratio s n d).
Proof.
  intros Hn. unfold round_ratio.
  destruct (SFdiv_core_binary prec emax (Zpos n) 0 (Zpos d) 0) as [[q e] l] eqn:Hdiv.
  unfold SFdiv_core_binary in Hdiv.
  set (e' := Z.min (fexp prec emax (Zdigits2 (Zpos n) + 0 - (Zdigits2 (Zpos d) + 0))) (0 - 0)) in *.
  destruct (Z.div_eucl _ _) as [q' r'] eqn:Hqr in Hdiv.
  injection Hdiv as <- <- _.
  assert (He' : e' <= 0) by (unfold e'; lia).
  match type of Hqr with Z.div_eucl ?a ?b = _ =>
    pose proof (Z_div_mod a b ltac:(lia)) as Hdm; rewrite Hqr in Hdm;
    assert (Ha : 0 <= a /\ Zdigits2 a + e' <= Zdigits2 (Zpos n)) end.
  { destruct (0 - 0 - e') as [|p|p] eqn:Hs.
    - simpl. lia.
    - split; [apply Z.shiftl_nonneg; lia|]. rewrite Zdigits2_shiftl by lia. lia.
    - pose proof (Zdigits2_nonneg (Zpos n)). simpl Zdigits2 at 1. lia. }
  destruct Ha as [Ha0 Had].
  assert (Hq : 0 <= q' <= _) by (split; [nia | apply Z.le_refl]).
  assert (Hq' : q' <= match 0 - 0 - e' with Z0 => Zpos n | Zpos _ => Z.shiftl (Zpos n) (0 - 0 - e') | Zneg _ => 0 end) by nia.
  apply binary_round_aux_not_inf; [lia | unfold emax, prec; lia |].
  pose proof (Zdigits2_le q' _ (conj (proj1 Hq) Hq')). simpl Zdigits2 in Had at 2. lia.
Qed.

(** [a / b] succeeds for ints when [b] is not zero and [a] is below 2^1023. *)
Lemma int_truediv_Ok a b :
  b <> 0 -> Z.abs a < 2 ^ 1023 ->
  exists f, int_truediv a b = Ok f /\ not_nan f /\ not_inf f.
Proof.
  intros Hb Ha. unfold int_truediv.
  pose proof (Zdigits2_bound a 1023 ltac:(lia) Ha) as Hd.
  destruct b as [|b|b]; [lia| |];
    (destruct a as [|a|a];
     [eexists; split; [reflexivity|split; [reflexivity|exact I]]| |]).
  all: match goal with |- context [round_ratio ?s ?n ?d] =>
         pose proof (round_ratio_not_nan s n d) as Hnan;
         pose proof (round_ratio_not_inf s n d) as Hinf;
         destruct (round_ratio s n d) eqn:Hr end.
  all: try (eexists; split; [reflexivity|split; [reflexivity|exact I]]).
  all: try discriminate Hnan.
  all: exfalso; apply Hinf; simpl in Hd |- *; unfold emax; lia.
Qed.

(** ** binary64: arithmetic on numbers gives numbers *)

Lemma is_finite_not_nan x : is_finite x = true -> not_nan x.
Proof. unfold not_nan. destruct x; simpl; intros; congruence. Qed.

Lemma fsub_not_nan a b : not_nan a -> is_finite b = true -> not_nan (fsub a b).
Proof.
  unfold not_nan at 1.
  destruct a as [sa|sa| |sa ma ea], b as [sb|sb| |sb mb eb]; simpl; intros Ha Hb;
    try discriminate; try reflexivity.
  - destruct sa, sb; reflexivity.
  - apply binary_normalize_not_nan.
Qed.

Lemma fadd_not_nan a b : not_nan a -> is_finite b = true -> not_nan (fadd a b).
Proof.
  unfold not_nan at 1.
  destruct a as [sa|sa| |sa ma ea], b as [sb|sb| |sb mb eb]; simpl; intros Ha Hb;
    try discriminate; try reflexivity.
  - destruct sa, sb; reflexivity.
  - apply binary_normalize_not_nan.
Qed.

Lemma fmul_not_nan a sb mb eb : not_nan a -> not_nan (fmul a (S754_finite sb mb eb)).
Proof.
  unfold not_nan at 1.
  destruct a as [sa|sa| |sa ma ea]; simpl; intros Ha; try discriminate; try reflexivity.
  apply binary_round_aux_not_nan. lia.
Qed.

Lemma fabs_not_nan a : not_nan a -> not_nan (fabs a).
Proof. unfold not_nan. destruct a; simpl; intros; congruence. Qed.

Lemma dist_not_nan s q : is_finite s = true -> is_finite q = true -> not_nan (dist s q).
Proof.
  intros Hs Hq. apply fabs_not_nan, fsub_not_nan; [apply is_finite_not_nan|]; assumption.
Qed.

(** ** binary64: [<=] is a total preorder on numbers *)

Lemma SFcompare_not_nan a b :
  not_nan a -> not_nan b -> exists c, SFcompare a b = Some c.
Proof.
  unfold not_nan. destruct a, b; simpl; intros Ha Hb; try discriminate; eauto.
Qed.

Ltac order_step a b :=
  change (PosDef.Pos.compare_cont Eq a b) with (a ?= b)%positive in *;
  destruct (Pos.compare_spec a b); subst;
  rewrite ?Pos.compare_refl in *; cbn [CompOpp] in *.

Ltac order_cases :=
  repeat match goal with
         | |- context [PosDef.Pos.compare_cont Eq ?a ?b] => order_step a b
         | H : context [PosDef.Pos.compare_cont Eq ?a ?b] |- _ => order_step a b
         | |- context [?a ?= ?b] =>
             destruct (Z.compare_spec a b); subst; rewrite ?Z.compare_refl in *
         | H : context [?a ?= ?b] |- _ =>
             destruct (Z.compare_spec a b); subst; rewrite ?Z.compare_refl in *
         end;
  try reflexivity; try discriminate; try lia.

Lemma fle_trans a b c : fle a b = true -> fle b c = true -> fle a c = true.
Proof.
  unfold fle, SFleb.
  destruct a as [sa|sa| |sa ma ea], b as [sb|sb| |sb mb eb], c as [sc|sc| |sc mc ec];
    simpl; try discriminate; try reflexivity;
    try (destruct sa; simpl; try discriminate; try reflexivity);
    try (destruct sb; simpl; try discriminate; try reflexivity);
    try (destruct sc; simpl; try discriminate; try reflexivity).
  all: intros Hab Hbc; order_cases.
Qed.

Lemma fle_total a b : not_nan a -> not_nan b -> fle a b = false -> fle b a = true.
Proof.
  unfold fle, SFleb, not_nan.
  destruct a as [sa|sa| |sa ma ea], b as [sb|sb| |sb mb eb];
    simpl; try discriminate; try reflexivity; intros _ _;
    try (destruct sa; simpl; try discriminate; try reflexivity);
    try (destruct sb; simpl; try discriminate; try reflexivity).
  all: intros Hab; order_cases.
Qed.

Lemma fle_refl a : not_nan a -> fle a a = true.
Proof.
  unfold fle, SFleb, not_nan. destruct a as [sa|sa| |sa ma ea]; simpl; try discriminate; try reflexivity;
    intros _; destruct sa; try reflexivity;
    change (PosDef.Pos.compare_cont Eq ma ma) with (ma ?= ma)%positive;
    rewrite Z.compare_refl, Pos.compare_refl; reflexivity.
Qed.

(** ** timedelta *)

Lemma delta_of_microseconds_Ok us td :
  dt.delta_of_microseconds us = Ok td ->
  normalized td /\
  us = (dt.days td * 86400 + dt.seconds td) * 1000000 + dt.microseconds td.
Proof.
  unfold dt.delta_of_microseconds, normalized, dt.us_per_second, dt.max_delta_days.
  destruct (_ && _) eqn:Hrange; [|discriminate].
  intros [= <-]. simpl.
  apply andb_true_iff in Hrange as [H1 H2].
  apply Z.leb_le in H1, H2.
  pose proof (Z.mod_pos_bound (us / 1000000) 86400 ltac:(lia)).
  pose proof (Z.mod_pos_bound us 1000000 ltac:(lia)).
  pose proof (Z.div_mod (us / 1000000) 86400 ltac:(lia)).
  pose proof (Z.div_mod us 1000000 ltac:(lia)).
  lia.
Qed.

Lemma delta_of_microseconds_error us e :
  dt.delta_of_microseconds us = Raise e -> e = OverflowError.
Proof.
  unfold dt.delta_of_microseconds. destruct (_ && _); [discriminate|]. now intros [= <-].
Qed.

Lemma timedelta_of_normal d s us :
  - dt.max_delta_days <= d <= dt.max_delta_days ->
  0 <= s < 86400 -> 0 <= us < 1000000 ->
  dt.timedelta_of d s us = Ok (dt.Build_timedelta d s us).
Proof.
  intros Hd Hs Hus.
  unfold dt.timedelta_of, dt.delta_of_microseconds, dt.us_per_second, dt.us_per_day,
    dt.max_delta_days in *.
  assert (Hq1 : (us + s * 1000000 + d * 86400000000) / 1000000 = s + d * 86400).
  { symmetry. apply (Z.div_unique _ _ _ us); lia. }
  assert (Hr1 : (us + s * 1000000 + d * 86400000000) mod 1000000 = us).
  { symmetry. apply (Z.mod_unique _ _ (s + d * 86400)); lia. }
  assert (Hq2 : (s + d * 86400) / 86400 = d).
  { symmetry. apply (Z.div_unique _ _ _ s); lia. }
  assert (Hr2 : (s + d * 86400) mod 86400 = s).
  { symmetry. apply (Z.mod_unique _ _ d); lia. }
  rewrite Hq1, Hr1, Hq2, Hr2.
  destruct (_ && _) eqn:Hrange; [reflexivity|].
  apply andb_false_iff in Hrange as [H|H]; apply Z.leb_gt in H; lia.
Qed.

(** Adding whole days to a normalized timedelta *)
Lemma timedelta_of_days_shift k d s us :
  0 <= s < 86400 -> 0 <= us < 1000000 ->
  dt.timedelta_of (k + d) s us =
    if (- dt.max_delta_days <=? k + d) && (k + d <=? dt.max_delta_days)
    then Ok (dt.Build_timedelta (k + d) s us) else Raise OverflowError.
Proof.
  intros Hs Hus.
  destruct (_ && _) eqn:Hrange.
  - apply andb_true_iff in Hrange as [H1 H2]. apply Z.leb_le in H1, H2.
    apply timedelta_of_normal; lia.
  - unfold dt.timedelta_of, dt.delta_of_microseconds, dt.us_per_second, dt.us_per_day in *.
    assert (Hq1 : (us + s * 1000000 + (k + d) * 86400000000) / 1000000 = s + (k + d) * 86400).
    { symmetry. apply (Z.div_unique _ _ _ us); lia. }
    assert (Hq2 : (s + (k + d) * 86400) / 86400 = k + d).
    { symmetry. apply (Z.div_unique _ _ _ s); lia. }
    rewrite Hq1, Hq2, Hrange. reflexivity.
Qed.

(** ** The calendar *)

Ltac div_lia := Z.to_euclidean_division_equations; lia.

Lemma days_before_year_cycle a b c d :
  0 <= b <= 3 -> 0 <= c <= 24 -> 0 <= d <= 3 ->
  dt.days_before_year (cycle_year a b c d) = 146097 * a + 36524 * b + 1461 * c + 365 * d.
Proof. intros Hb Hc Hd. unfold dt.days_before_year, cycle_year. div_lia. Qed.

Lemma is_leap_cycle a b c d :
  0 <= b <= 3 -> 0 <= c <= 24 -> 0 <= d <= 3 ->
  dt.is_leap (cycle_year a b c d) = (d =? 3) && (negb (c =? 24) || (b =? 3)).
Proof.
  intros Hb Hc Hd. unfold dt.is_leap, cycle_year.
  repeat match goal with |- context [?x =? ?y] => destruct (Z.eqb_spec x y) end;
    simpl; try reflexivity; exfalso; div_lia.
Qed.

Lemma month_cases m :
  1 <= m <= 12 ->
  m = 1 \/ m = 2 \/ m = 3 \/ m = 4 \/ m = 5 \/ m = 6 \/
  m = 7 \/ m = 8 \/ m = 9 \/ m = 10 \/ m = 11 \/ m = 12.
Proof. lia. Qed.

Lemma month_day_checked :
  forallb (month_day_ok true) (seqZ 0 366) && forallb (month_day_ok false) (seqZ 0 365) = true.
Proof. vm_compute. reflexivity. Qed.

Lemma month_day_spec (leap : bool) n m d :
  0 <= n < (if leap then 366 else 365) ->
  month_day leap n = (m, d) ->
  1 <= m <= 12 /\
  1 <= d <= (if (m =? 2) && leap then 29 else nth (Z.to_nat (m - 1)) dt.DAYS_IN_MONTH 0) /\
  nth (Z.to_nat (m - 1)) dt.DAYS_BEFORE_MONTH 0 + (if (2 <? m) && leap then 1 else 0) + d = n + 1.
Proof.
  intros Hn Hmd.
  assert (Hok : month_day_ok leap n = true).
  { pose proof month_day_checked as Hall. apply andb_true_iff in Hall as [Ht Hf].
    destruct leap.
    - rewrite forallb_forall in Ht. apply Ht, list_elem_of_In, elem_of_seqZ. lia.
    - rewrite forallb_forall in Hf. apply Hf, list_elem_of_In, elem_of_seqZ. lia. }
  unfold month_day_ok in Hok. rewrite Hmd in Hok.
  repeat (apply andb_true_iff in Hok as [Hok ?]).
  repeat match goal with
         | H : (_ <=? _) = true |- _ => apply Z.leb_le in H
         | H : (_ =? _) = true |- _ => apply Z.eqb_eq in H
         end.
  lia.
Qed.

Lemma ord2ymd_month_day ordinal :
  let n0 := ordinal - 1 in
  let a := n0 / dt.DI400Y in
  let b := n0 mod dt.DI400Y / dt.DI100Y in
  let c := n0 mod dt.DI400Y mod dt.DI100Y / dt.DI4Y in
  let d := n0 mod dt.DI400Y mod dt.DI100Y mod dt.DI4Y / 365 in
  let n := n0 mod dt.DI400Y mod dt.DI100Y mod dt.DI4Y mod 365 in
  dt.ord2ymd ordinal =
    if (d =? 4) || (b =? 4) then (cycle_year a b c d - 1, 12, 31)
    else
      let md := month_day ((d =? 3) && (negb (c =? 24) || (b =? 3))) n in
      (cycle_year a b c d, md.1, md.2).
Proof.
  intros n0 a b c d n. unfold dt.ord2ymd, month_day, cycle_year.
  fold n0. fold a. fold b. fold c. fold d. fold n.
  replace (a * 400 + 1 + b * 100 + c * 4 + d) with (400 * a + 100 * b + 4 * c + d + 1) by lia.
  destruct ((d =? 4) || (b =? 4)); [reflexivity|].
  cbv zeta. destruct (n <? _); reflexivity.
Qed.

(** [ord2ymd] inverts [ymd2ord], and gives the fields of a date. *)
Lemma ord2ymd_spec ordinal y m d :
  1 <= ordinal ->
  dt.ord2ymd ordinal = (y, m, d) ->
  dt.ymd2ord y m d = ordinal /\
  1 <= m <= 12 /\ 1 <= d <= dt.days_in_month y m /\
  1 <= y /\ (ordinal <= dt.MAXORDINAL -> y <= dt.MAXYEAR).
Proof.
  intros Hord. rewrite ord2ymd_month_day. cbv zeta.
  unfold dt.DI400Y, dt.DI100Y, dt.DI4Y, dt.MAXORDINAL, dt.MAXYEAR.
  set (n0 := ordinal - 1).
  set (a := n0 / 146097). set (r1 := n0 mod 146097).
  set (b := r1 / 36524). set (r2 := r1 mod 36524).
  set (c := r2 / 1461). set (r3 := r2 mod 1461).
  set (dd := r3 / 365). set (n := r3 mod 365).
  assert (Ha : 0 <= a) by (subst a n0; div_lia).
  assert (Hr1 : n0 = 146097 * a + r1 /\ 0 <= r1 < 146097) by (subst a r1; div_lia).
  assert (Hr2 : r1 = 36524 * b + r2 /\ 0 <= r2 < 36524) by (subst b r2; div_lia).
  assert (Hr3 : r2 = 1461 * c + r3 /\ 0 <= r3 < 1461) by (subst c r3; div_lia).
  assert (Hn : r3 = 365 * dd + n /\ 0 <= n < 365) by (subst dd n; div_lia).
  assert (Hb : 0 <= b <= 4) by lia.
  assert (Hc : 0 <= c <= 24) by lia.
  assert (Hd : 0 <= dd <= 4) by lia.
  clearbody a r1 b r2 c r3 dd n.
  destruct ((dd =? 4) || (b =? 4)) eqn:Hspecial.
  - intros [= <- <- <-].
    apply orb_true_iff in Hspecial.
    assert (Hleap : dt.is_leap (cycle_year a b c dd - 1) = true).
    { unfold dt.is_leap, cycle_year. apply andb_true_iff. split.
      - apply Z.eqb_eq. destruct Hspecial as [H|H]; apply Z.eqb_eq in H; div_lia.
      - apply orb_true_iff.
        destruct (Z.eqb_spec ((400 * a + 100 * b + 4 * c + dd + 1 - 1) mod 100) 0) as [H100|H100];
          [right|left; reflexivity].
        apply Z.eqb_eq. destruct Hspecial as [H|H]; apply Z.eqb_eq in H; div_lia. }
    unfold dt.ymd2ord, dt.days_in_month, dt.days_before_month. rewrite Hleap.
    change (Z.to_nat (12 - 1)) with 11%nat.
    change ((12 =? 2) && true) with false. change ((2 <? 12) && true) with true.
    cbn [nth dt.DAYS_BEFORE_MONTH dt.DAYS_IN_MONTH].
    unfold dt.days_before_year, cycle_year. subst n0.
    destruct Hspecial as [H|H]; apply Z.eqb_eq in H; repeat split; div_lia.
  - apply orb_false_iff in Hspecial as [Hd4 Hb4].
    apply Z.eqb_neq in Hd4, Hb4.
    destruct (month_day _ n) as [m' d'] eqn:Hmd. simpl.
    intros [= <- <- <-].
    pose proof (is_leap_cycle a b c dd ltac:(lia) ltac:(lia) ltac:(lia)) as Hleap.
    pose proof (days_before_year_cycle a b c dd ltac:(lia) ltac:(lia) ltac:(lia)) as Hdby.
    apply month_day_spec in Hmd; [|destruct (_ && _); lia].
    destruct Hmd as (Hm & Hday & Hsum).
    unfold dt.ymd2ord, dt.days_in_month, dt.days_before_month.
    rewrite Hleap, Hdby. unfold cycle_year. subst n0.
    repeat split; try lia.
Qed.

(** ** datetime *)

Lemma fields_ok_spec y m d hh mm ss us :
  dt.fields_ok y m d hh mm ss us = true <->
  (1 <= y <= 9999 /\ 1 <= m <= 12 /\ 1 <= d <= dt.days_in_month y m) /\
  (0 <= hh <= 23 /\ 0 <= mm <= 59 /\ 0 <= ss <= 59 /\ 0 <= us <= 999999).
Proof.
  unfold dt.fields_ok, dt.MINYEAR, dt.MAXYEAR.
  rewrite !andb_true_iff, !Z.leb_le. tauto.
Qed.

Ltac month_tables :=
  repeat match goal with
         | |- context [Z.to_nat (?a - ?b)] =>
             let v := eval vm_compute in (Z.to_nat (a - b)) in
             change (Z.to_nat (a - b)) with v
         | |- context [?a =? ?b] =>
             let v := eval vm_compute in (a =? b) in change (a =? b) with v
         | |- context [?a <? ?b] =>
             let v := eval vm_compute in (a <? b) in change (a <? b) with v
         end;
  cbn [nth dt.DAYS_IN_MONTH dt.DAYS_BEFORE_MONTH andb].

Lemma days_in_month_range y m : 1 <= m <= 12 -> 28 <= dt.days_in_month y m <= 31.
Proof.
  intros Hm. unfold dt.days_in_month.
  destruct (month_cases m Hm) as
    [->|[->|[->|[->|[->|[->|[->|[->|[->|[->|[->| ->]]]]]]]]]]];
    destruct (dt.is_leap y); month_tables; lia.
Qed.

Lemma days_before_month_range y m : 1 <= m <= 12 -> 0 <= dt.days_before_month y m <= 335.
Proof.
  intros Hm. unfold dt.days_before_month.
  destruct (month_cases m Hm) as
    [->|[->|[->|[->|[->|[->|[->|[->|[->|[->|[->| ->]]]]]]]]]]];
    destruct (dt.is_leap y); month_tables; lia.
Qed.

Lemma ymd2ord_range y m d :
  1 <= y <= 9999 -> 1 <= m <= 12 -> 1 <= d <= dt.days_in_month y m ->
  1 <= dt.ymd2ord y m d <= 3652061.
Proof.
  intros Hy Hm Hd. unfold dt.ymd2ord.
  pose proof (days_in_month_range y m Hm).
  pose proof (days_before_month_range y m Hm).
  assert (0 <= dt.days_before_year y <= 3651695) by (unfold dt.days_before_year; div_lia).
  lia.
Qed.

Lemma ymd2ord_jan1 y : dt.ymd2ord y 1 1 = dt.days_before_year y + 1.
Proof. unfold dt.ymd2ord, dt.days_before_month. month_tables. lia. Qed.

Section datetime_facts.
Context {TZ : Type} `{EqDecision TZ}.
Variable tz_utcoffset : TZ -> dt.datetime TZ -> option dt.timedelta.
Implicit Types d a b : dt.datetime TZ.

Lemma wf_spec d :
  dt.wf d = true <->
  (1 <= dt.year d <= 9999 /\ 1 <= dt.month d <= 12
   /\ 1 <= dt.day d <= dt.days_in_month (dt.year d) (dt.month d)) /\
  (0 <= dt.hour d <= 23 /\ 0 <= dt.minute d <= 59 /\ 0 <= dt.second d <= 59
   /\ 0 <= dt.microsecond d <= 999999).
Proof. apply fields_ok_spec. Qed.

Lemma toordinal_range d : dt.wf d = true -> 1 <= dt.toordinal d <= 3652061.
Proof.
  intros Hwf. apply wf_spec in Hwf as [(Hy & Hm & Hd) _].
  apply ymd2ord_range; assumption.
Qed.

(** The time of day a count of seconds stands for *)
Lemma time_of_seconds secs :
  0 <= secs < 86400 ->
  0 <= secs / 3600 <= 23 /\ 0 <= secs mod 3600 / 60 <= 59 /\ 0 <= secs mod 3600 mod 60 <= 59 /\
  secs / 3600 * 3600 + secs mod 3600 / 60 * 60 + secs mod 3600 mod 60 = secs.
Proof. intros Hs. div_lia. Qed.

(** [a - b] when [b] is a midnight with the tzinfo of [a]: no borrow, and
    the offsets are not looked at. *)
Lemma sub_midnight a y m dd :
  dt.wf a = true -> dt.fields_ok y m dd 0 0 0 0 = true ->
  dt.sub tz_utcoffset a (dt.mk y m dd 0 0 0 0 (dt.tzinfo a)) =
    Ok (dt.Build_timedelta (dt.toordinal a - dt.ymd2ord y m dd)
          (dt.hour a * 3600 + dt.minute a * 60 + dt.second a) (dt.microsecond a)).
Proof.
  intros Ha Hb. pose proof (toordinal_range a Ha) as Hoa.
  apply wf_spec in Ha as [_ (Hh & Hmi & Hs & Hus)].
  apply fields_ok_spec in Hb as [(Hy & Hm & Hd) _].
  pose proof (ymd2ord_range y m dd Hy Hm Hd) as Hob.
  unfold dt.sub, dt.toordinal at 2. simpl.
  rewrite timedelta_of_normal; unfold dt.max_delta_days; try lia.
  simpl. rewrite decide_True by reflexivity.
  f_equal. f_equal; lia.
Qed.

(** [d + td] when the times of day add up without carry *)
Lemma add_no_carry d td :
  dt.wf d = true -> normalized td ->
  let secs := dt.hour d * 3600 + dt.minute d * 60 + dt.second d + dt.seconds td in
  let us := dt.microsecond d + dt.microseconds td in
  let ordinal := dt.toordinal d + dt.days td in
  secs < 86400 -> us < 1000000 ->
  dt.add d td =
    if (0 <? ordinal) && (ordinal <=? dt.MAXORDINAL) then
      let '(y, m, dd) := dt.ord2ymd ordinal in
      Ok (dt.mk y m dd (secs / 3600) (secs mod 3600 / 60) (secs mod 3600 mod 60) us (dt.tzinfo d))
    else Raise OverflowError.
Proof.
  intros Hwf (Hdays & Hsecs & Hus) secs us ordinal Hs Hu.
  pose proof (toordinal_range d Hwf) as Hord.
  apply wf_spec in Hwf as [_ (Hh & Hmi & Hse & Hmu)].
  unfold dt.add.
  rewrite timedelta_of_normal; unfold dt.max_delta_days in *; try lia.
  simpl. unfold dt.timedelta_add. simpl.
  rewrite timedelta_of_days_shift by lia.
  fold secs us ordinal. unfold dt.max_delta_days, dt.MAXORDINAL.
  destruct (_ && (ordinal <=? 999999999)) eqn:Hrange.
  - simpl. reflexivity.
  - simpl. destruct ((0 <? ordinal) && (ordinal <=? 3652059)) eqn:Hin; [|reflexivity].
    apply andb_true_iff in Hin as [H1 H2]. apply Z.ltb_lt in H1. apply Z.leb_le in H2.
    apply andb_false_iff in Hrange as [H|H]; apply Z.leb_gt in H; lia.
Qed.

End datetime_facts.

(** ** [timedelta(days=x)] *)

Lemma fmul_not_nan_l sa ma ea b : not_nan b -> not_nan (fmul (S754_finite sa ma ea) b).
Proof.
  unfold not_nan at 1.
  destruct b as [sb|sb| |sb mb eb]; simpl; intros Hb; try discriminate; try reflexivity.
  apply binary_round_aux_not_nan. lia.
Qed.

Lemma modf_not_nan x : not_nan x -> not_nan (modf x).1 /\ not_nan (modf x).2.
Proof.
  unfold not_nan at 1. destruct x as [s|s| |s m e]; simpl; intros Hx; try discriminate;
    try (split; reflexivity).
  destruct (0 <=? e); simpl; [split; reflexivity|].
  split; apply binary_normalize_not_nan.
Qed.

Lemma c_round_not_nan x : not_nan x -> not_nan (c_round x).
Proof.
  unfold not_nan at 1. destruct x as [s|s| |s m e]; simpl; intros Hx; try discriminate;
    try reflexivity.
  destruct (0 <=? e); [reflexivity|]. apply binary_normalize_not_nan.
Qed.

Lemma int_of_float_error x e :
  int_of_float x = Raise e ->
  (is_nan x = true /\ e = ValueError) \/ (is_nan x = false /\ e = OverflowError).
Proof. destruct x; simpl; intros [= <-]; auto. Qed.

Lemma fint_finite z : Z.abs z < 2 ^ 1023 -> is_finite (dt.fint z) = true.
Proof.
  intros Hz. unfold dt.fint.
  pose proof (binary_normalize_not_nan z 0 false) as Hnan.
  pose proof (binary_normalize_not_inf z 0 false) as Hinf.
  pose proof (Zdigits2_bound z 1023 ltac:(lia) Hz).
  destruct (binary_normalize prec emax z 0 false); try reflexivity.
  - exfalso. apply Hinf; unfold emax, prec; lia.
  - discriminate Hnan.
Qed.

Lemma timedelta_of_float_days_nan : dt.timedelta_of_float_days S754_nan = Raise ValueError.
Proof. reflexivity. Qed.

Lemma timedelta_of_float_days_inf s :
  dt.timedelta_of_float_days (S754_infinity s) = Raise OverflowError.
Proof. reflexivity. Qed.

Lemma us_per_day_float :
  float_of_int dt.us_per_day = Ok (S754_finite false 5662310400000000 (-16)).
Proof. vm_compute. reflexivity. Qed.

Lemma timedelta_of_float_days_Ok x td :
  dt.timedelta_of_float_days x = Ok td -> normalized td.
Proof.
  unfold dt.timedelta_of_float_days. rewrite us_per_day_float.
  destruct (modf x) as [fracpart intpart].
  destruct (int_of_float intpart) as [ip|]; cbn [bind]; [|discriminate].
  destruct (feqb fracpart _); [intros H; apply delta_of_microseconds_Ok in H; tauto|].
  destruct (modf (fmul _ fracpart)) as [leftover_us intpart2].
  destruct (int_of_float intpart2) as [ip2|]; cbn [bind]; [|discriminate].
  destruct (feqb leftover_us _); [intros H; apply delta_of_microseconds_Ok in H; tauto|].
  destruct (int_of_float _) as [temp|]; cbn [bind]; [|discriminate].
  intros H; apply delta_of_microseconds_Ok in H; tauto.
Qed.

(** [timedelta(days=x)] raises [ValueError] for a NaN and nothing but
    [OverflowError] otherwise. *)
Lemma timedelta_of_float_days_error x e :
  dt.timedelta_of_float_days x = Raise e ->
  (is_nan x = true /\ e = ValueError) \/ (is_nan x = false /\ e = OverflowError).
Proof.
  destruct (is_nan x) eqn:Hnan.
  { destruct x; try discriminate. rewrite timedelta_of_float_days_nan. intros [= <-]. auto. }
  intros Hraise. right. split; [reflexivity|]. revert Hraise.
  unfold dt.timedelta_of_float_days. rewrite us_per_day_float.
  destruct (modf_not_nan x Hnan) as [Hfrac Hint].
  destruct (modf x) as [fracpart intpart]. simpl in Hfrac, Hint.
  destruct (int_of_float intpart) as [ip|e1] eqn:Hip; cbn [bind].
  2:{ intros [= <-]. apply int_of_float_error in Hip as [[H _]|[_ H]]; [congruence|exact H]. }
  destruct (feqb fracpart _); [apply delta_of_microseconds_error|].
  pose proof (fmul_not_nan_l false 5662310400000000 (-16) fracpart Hfrac) as Hdnum.
  destruct (modf_not_nan _ Hdnum) as [Hleft Hint2].
  destruct (modf (fmul _ fracpart)) as [leftover_us intpart2]. simpl in Hleft, Hint2.
  destruct (int_of_float intpart2) as [ip2|e2] eqn:Hip2; cbn [bind].
  2:{ intros [= <-]. apply int_of_float_error in Hip2 as [[H _]|[_ H]]; [congruence|exact H]. }
  destruct (feqb leftover_us _); [apply delta_of_microseconds_error|].
  match goal with |- context [int_of_float ?w] =>
    assert (Hw : not_nan w); [|destruct (int_of_float w) as [temp|e3] eqn:Hw3; cbn [bind]] end.
  { destruct (feqb _ dt.half); [|apply c_round_not_nan, Hleft].
    apply fsub_not_nan; [|apply fint_finite; destruct (Z.odd _); simpl; lia].
    change (dt.fint 2) with (S754_finite false 4503599627370496 (-51)).
    apply fmul_not_nan_l, c_round_not_nan.
    change dt.half with (S754_finite false 4503599627370496 (-53)).
    apply fmul_not_nan, fadd_not_nan; [exact Hleft|].
    apply fint_finite. destruct (Z.odd _); simpl; lia. }
  - apply delta_of_microseconds_error.
  - intros [= <-]. apply int_of_float_error in Hw3 as [[H _]|[_ H]]; [congruence|exact H].
Qed.

(** ** float() *)

Lemma float_of_str_error s e : float_of_str s = Raise e -> e = ValueError.
Proof.
  unfold float_of_str.
  destruct (strip_underscores _ _) as [cs|]; [|congruence].
  destruct (rev _) as [|c cs']; [congruence|].
  destruct (parse_decimal _) as [[f [|]]|]; try congruence.
  destruct (parse_inf_or_nan _) as [[f [|]]|]; congruence.
Qed.

(** ** epoch2datetime *)

Section epoch2datetime_facts.
Context {TZ : Type}.
Variable utc : TZ.

Lemma new_jan1 y (tz : option TZ) :
  1 <= y <= 9999 -> dt.new y 1 1 0 0 0 0 tz = Ok (dt.mk y 1 1 0 0 0 0 tz).
Proof.
  intros Hy. unfold dt.new.
  assert (Hok : dt.fields_ok y 1 1 0 0 0 0 = true).
  { apply fields_ok_spec. pose proof (days_in_month_range y 1 ltac:(lia)). lia. }
  rewrite Hok. reflexivity.
Qed.

(** A value that is no [str] is converted first. *)
Lemma epoch2datetime_str v :
  epoch2datetime utc v = (let* s := str v in epoch2datetime utc (VStr s)).
Proof.
  destruct v as [s|z|x].
  - reflexivity.
  - unfold epoch2datetime, str. destruct (str_int z); reflexivity.
  - reflexivity.
Qed.

Lemma str_error v e : str v = Raise e -> e = ValueError /\ exists z, v = VInt z.
Proof.
  destruct v as [s|z|x]; [discriminate| |discriminate].
  unfold str, str_int. destruct (_ <=? _); [|discriminate].
  intros [= <-]. split; [reflexivity|]. exists z. reflexivity.
Qed.

(** With both segments parsed, what is left is the datetime arithmetic. *)
Lemma epoch2datetime_parsed v s y f :
  str v = Ok s ->
  int_of_str (str_upto 2 s) = Ok y ->
  float_of_str (str_from 2 s) = Ok f ->
  epoch2datetime utc v =
    (let* delta := dt.timedelta_of_float_days f in
     let* shifted := dt.add (dt.mk (pivot_year y) 1 1 0 0 0 0 (Some utc)) delta in
     dt.sub_timedelta shifted (dt.Build_timedelta 1 0 0)).
Proof.
  intros Hs Hy Hf. rewrite epoch2datetime_str, Hs. unfold epoch2datetime. cbn [bind].
  rewrite Hy, Hf. cbn [bind]. fold (pivot_year y).
  rewrite new_jan1.
  - cbn [bind]. destruct (dt.timedelta_of_float_days f); cbn [bind]; [|reflexivity].
    destruct (dt.add _ _); reflexivity.
  - apply year_segment_range in Hy. unfold pivot_year. destruct (y <? 50); lia.
Qed.

Lemma shifted_datetime_wf y delta :
  normalized delta ->
  2 <= dt.ymd2ord (pivot_year y) 1 1 + dt.days delta <= dt.MAXORDINAL ->
  let d := shifted_datetime utc y delta in
  dt.wf d = true /\
  dt.toordinal d = dt.ymd2ord (pivot_year y) 1 1 + dt.days delta - 1 /\
  dt.hour d * 3600 + dt.minute d * 60 + dt.second d = dt.seconds delta /\
  dt.microsecond d = dt.microseconds delta /\
  dt.tzinfo d = Some utc.
Proof.
  intros (Hdays & Hsecs & Hus) HD. unfold shifted_datetime.
  set (D := dt.ymd2ord (pivot_year y) 1 1 + dt.days delta) in *.
  destruct (dt.ord2ymd (D - 1)) as [[yy m] dd] eqn:Hymd. cbv zeta.
  apply ord2ymd_spec in Hymd as (Hord & Hm & Hd & Hy1 & Hy2); [|lia].
  pose proof (time_of_seconds (dt.seconds delta) Hsecs) as (Hh & Hmi & Hs & Hsum).
  unfold dt.MAXORDINAL, dt.MAXYEAR in *.
  repeat split; simpl; try lia; try assumption.
  apply wf_spec. simpl. lia.
Qed.

Lemma epoch2datetime_arith y delta :
  -99 <= y <= 99 -> normalized delta ->
  let D := dt.ymd2ord (pivot_year y) 1 1 + dt.days delta in
  (let* shifted := dt.add (dt.mk (pivot_year y) 1 1 0 0 0 0 (Some utc)) delta in
   dt.sub_timedelta shifted (dt.Build_timedelta 1 0 0)) =
    if (2 <=? D) && (D <=? dt.MAXORDINAL) then Ok (shifted_datetime utc y delta)
    else Raise OverflowError.
Proof.
  intros Hy Hnorm D.
  assert (HY : 1 <= pivot_year y <= 9999) by (unfold pivot_year; destruct (y <? 50); lia).
  assert (Hbase : dt.wf (dt.mk (pivot_year y) 1 1 0 0 0 0 (Some utc)) = true).
  { apply wf_spec. simpl. pose proof (days_in_month_range (pivot_year y) 1 ltac:(lia)). lia. }
  pose proof Hnorm as (Hdays & Hsecs & Hus).
  rewrite (add_no_carry _ delta Hbase Hnorm) by (simpl; lia).
  unfold dt.toordinal. simpl dt.year. simpl dt.month. simpl dt.day.
  simpl dt.hour. simpl dt.minute. simpl dt.second. simpl dt.microsecond. simpl dt.tzinfo.
  fold D. replace (0 * 3600 + 0 * 60 + 0 + dt.seconds delta) with (dt.seconds delta) by lia.
  replace (0 + dt.microseconds delta) with (dt.microseconds delta) by lia.
  unfold dt.MAXORDINAL.
  destruct ((0 <? D) && (D <=? 3652059)) eqn:Hin; cbn [bind].
  2:{ destruct ((2 <=? D) && (D <=? 3652059)) eqn:Hin2; [|reflexivity].
      apply andb_true_iff in Hin2 as [H1 H2]. apply Z.leb_le in H1, H2.
      apply andb_false_iff in Hin as [H|H]; [apply Z.ltb_ge in H|apply Z.leb_gt in H]; lia. }
  apply andb_true_iff in Hin as [H1 H2]. apply Z.ltb_lt in H1. apply Z.leb_le in H2.
  destruct (dt.ord2ymd D) as [[yy m] dd] eqn:Hymd. cbn [bind].
  apply ord2ymd_spec in Hymd as (Hord & Hm & Hd & Hy1 & Hy2); [|lia].
  pose proof (time_of_seconds (dt.seconds delta) Hsecs) as (Hh & Hmi & Hs & Hsum).
  set (shifted := dt.mk yy m dd _ _ _ _ _).
  assert (Hwf : dt.wf shifted = true).
  { apply wf_spec. unfold dt.MAXORDINAL, dt.MAXYEAR in *. unfold shifted. simpl. lia. }
  unfold dt.sub_timedelta.
  change (dt.timedelta_neg (dt.Build_timedelta 1 0 0)) with (Ok (dt.Build_timedelta (-1) 0 0)).
  cbn [bind].
  rewrite (add_no_carry shifted (dt.Build_timedelta (-1) 0 0) Hwf);
    [|unfold normalized, dt.max_delta_days; simpl; lia
     |unfold shifted; simpl; lia|unfold shifted; simpl; lia].
  unfold dt.toordinal. simpl. rewrite Hord, Hsum.
  replace (dt.seconds delta + 0) with (dt.seconds delta) by lia.
  replace (dt.microseconds delta + 0) with (dt.microseconds delta) by lia.
  replace (D + -1) with (D - 1) by lia.
  unfold dt.MAXORDINAL, shifted_datetime. fold D.
  destruct ((2 <=? D) && (D <=? 3652059)) eqn:Hin2.
  - apply andb_true_iff in Hin2 as [H3 H4]. apply Z.leb_le in H3, H4.
    assert (Hin3 : (0 <? D - 1) && (D - 1 <=? 3652059) = true).
    { apply andb_true_iff. split; [apply Z.ltb_lt|apply Z.leb_le]; lia. }
    rewrite Hin3. destruct (dt.ord2ymd (D - 1)) as [[? ?] ?]. reflexivity.
  - assert (Hin3 : (0 <? D - 1) && (D - 1 <=? 3652059) = false).
    { apply andb_false_iff in Hin2 as [H|H]; [apply Z.leb_gt in H|apply Z.leb_gt in H];
        apply andb_false_iff; [left; apply Z.ltb_ge; lia | lia]. }
    rewrite Hin3. reflexivity.
Qed.

End epoch2datetime_facts.

Section epoch2datetime_results.
Context {TZ : Type}.
Variable utc : TZ.

Lemma epoch2datetime_str_error v e :
  str v = Raise e -> epoch2datetime utc v = Raise ValueError.
Proof.
  intros Hs. rewrite epoch2datetime_str, Hs. apply str_error in Hs as [-> _]. reflexivity.
Qed.

Lemma epoch2datetime_int_error v s e :
  str v = Ok s ->
  int_of_str (str_upto 2 s) = Raise e -> epoch2datetime utc v = Raise ValueError.
Proof.
  intros Hs Hy. rewrite epoch2datetime_str, Hs. unfold epoch2datetime. cbn [bind].
  rewrite Hy. apply int_of_str_error in Hy as ->. reflexivity.
Qed.

Lemma epoch2datetime_float_error v s e :
  str v = Ok s ->
  float_of_str (str_from 2 s) = Raise e -> epoch2datetime utc v = Raise ValueError.
Proof.
  intros Hs Hf. destruct (int_of_str (str_upto 2 s)) as [y|e'] eqn:Hy.
  - rewrite epoch2datetime_str, Hs. unfold epoch2datetime. cbn [bind].
    rewrite Hy, Hf. apply float_of_str_error in Hf as ->. reflexivity.
  - apply (epoch2datetime_int_error v s e' Hs Hy).
Qed.

(** C1: for an epoch string of at least 3 characters whose first two
    characters parse as the int [y] and whose remainder parses as the float
    [f], [epoch2datetime] returns [datetime(Y, 1, 1, UTC) + timedelta(days=f)
    - timedelta(days=1)] with [Y = y + 2000] if [y < 50] and [y + 1900]
    otherwise: the base date is always built, and the two-step arithmetic is
    all that is left (its exceptions included).  In particular "49001.0"
    and "49001.00000000" give year 2049, "50001.0" and "50001.00000000" give
    year 1950, and "21001.00000000" is exactly 2021-01-01T00:00:00 UTC. *)
Theorem epoch2datetime_spec :
  (forall (s : string) (y : Z) (f : float),
      (3 <= String.length s)%nat ->
      int_of_str (str_upto 2 s) = Ok y ->
      float_of_str (str_from 2 s) = Ok f ->
      let Y := if y <? 50 then y + 2000 else y + 1900 in
      epoch2datetime utc (VStr s) =
        (let* delta := dt.timedelta_of_float_days f in
         let* shifted := dt.add (dt.mk Y 1 1 0 0 0 0 (Some utc)) delta in
         dt.sub_timedelta shifted (dt.Build_timedelta 1 0 0)))
  /\ epoch2datetime utc (VStr "49001.0") = Ok (dt.mk 2049 1 1 0 0 0 0 (Some utc))
  /\ epoch2datetime utc (VStr "49001.00000000") = Ok (dt.mk 2049 1 1 0 0 0 0 (Some utc))
  /\ epoch2datetime utc (VStr "50001.0") = Ok (dt.mk 1950 1 1 0 0 0 0 (Some utc))
  /\ epoch2datetime utc (VStr "50001.00000000") = Ok (dt.mk 1950 1 1 0 0 0 0 (Some utc))
  /\ epoch2datetime utc (VStr "21001.00000000") = Ok (dt.mk 2021 1 1 0 0 0 0 (Some utc)).
Proof.
  split.
  - intros s y f _ Hy Hf Y. apply (epoch2datetime_parsed utc (VStr s) s y f eq_refl Hy Hf).
  - repeat split; vm_compute; reflexivity.
Qed.

(** C9: [epoch2datetime] raises [ValueError] when its input cannot be
    coerced to its string form (an int past the digit limit of [str]), or
    the string form is shorter than 3 characters, or its first two
    characters do not parse as an int, or the remainder does not parse as a
    float.  When both parse, it raises what [timedelta(days=f)] raises
    ([ValueError] for a NaN, [OverflowError] otherwise, as for an
    infinity); failing that, with [D] the ordinal of 1 January of the
    pivot year plus the whole days of the timedelta, it returns a
    well-formed UTC datetime of ordinal [D - 1] when [2 <= D <= 3652059]
    and raises [OverflowError] when not: the date [D] that is built first
    may not pass 9999-12-31, and the day before it may not precede
    0001-01-01. *)
Theorem epoch2datetime_raises (v : value) :
  (forall e, str v = Raise e ->
     epoch2datetime utc v = Raise ValueError /\ e = ValueError /\ exists z, v = VInt z)
  /\ (forall s, str v = Ok s ->
        ((String.length s < 3)%nat -> epoch2datetime utc v = Raise ValueError)
        /\ (forall e, int_of_str (str_upto 2 s) = Raise e ->
              epoch2datetime utc v = Raise ValueError)
        /\ (forall e, float_of_str (str_from 2 s) = Raise e ->
              epoch2datetime utc v = Raise ValueError)
        /\ (forall y f,
              int_of_str (str_upto 2 s) = Ok y ->
              float_of_str (str_from 2 s) = Ok f ->
              match dt.timedelta_of_float_days f with
              | Raise e =>
                  epoch2datetime utc v = Raise e
                  /\ e = (if is_nan f then ValueError else OverflowError)
              | Ok delta =>
                  let D := dt.ymd2ord (pivot_year y) 1 1 + dt.days delta in
                  if (2 <=? D) && (D <=? dt.MAXORDINAL) then
                    exists d, epoch2datetime utc v = Ok d
                              /\ dt.wf d = true
                              /\ dt.toordinal d = D - 1
                              /\ dt.hour d * 3600 + dt.minute d * 60 + dt.second d
                                 = dt.seconds delta
                              /\ dt.microsecond d = dt.microseconds delta
                              /\ dt.tzinfo d = Some utc
                  else epoch2datetime utc v = Raise OverflowError
              end)).
Proof.
  split.
  { intros e He. split; [apply (epoch2datetime_str_error v e He)|].
    apply (str_error v e He). }
  intros s Hs. split; [|split; [|split]].
  - intros Hlen. destruct (float_of_str (str_from 2 s)) as [f|e] eqn:Hf.
    + rewrite str_from_short in Hf by lia. discriminate Hf.
    + apply (epoch2datetime_float_error v s e Hs Hf).
  - intros e. apply (epoch2datetime_int_error v s e Hs).
  - intros e. apply (epoch2datetime_float_error v s e Hs).
  - intros y f Hy Hf. rewrite (epoch2datetime_parsed utc v s y f Hs Hy Hf).
    destruct (dt.timedelta_of_float_days f) as [delta|e] eqn:Hdelta; cbn [bind].
    + pose proof (timedelta_of_float_days_Ok f delta Hdelta) as Hnorm.
      pose proof (year_segment_range _ _ Hy) as Hrange.
      rewrite (epoch2datetime_arith utc y delta Hrange Hnorm).
      cbv zeta. destruct (_ && _) eqn:HD; [|reflexivity].
      exists (shifted_datetime utc y delta). split; [reflexivity|].
      apply andb_true_iff in HD as [H1 H2]. apply Z.leb_le in H1, H2.
      apply (shifted_datetime_wf utc y delta Hnorm). lia.
    + split; [reflexivity|].
      apply timedelta_of_float_days_error in Hdelta as [[-> ->]|[-> ->]]; reflexivity.
Qed.

End epoch2datetime_results.

(** An instance: the epoch "21001.5", noon of 1 January 2021. *)
Lemma epoch2datetime_spec_witness :
  epoch2datetime () (VStr "21001.5") = Ok (dt.mk 2021 1 1 12 0 0 0 (Some ())).
Proof.
  rewrite (proj1 (epoch2datetime_spec ()) "21001.5" 21 (S754_finite false 6755399441055744 (-52))).
  - vm_compute. reflexivity.
  - simpl. lia.
  - vm_compute. reflexivity.
  - vm_compute. reflexivity.
Defined.

(** Parsed, and yet no datetime: "219999999" and "21inf" have 3
    characters or more, a year segment that parses as an int and a
    remainder that parses as a float, and yet [epoch2datetime] raises
    (OverflowError); "21nan" parses likewise and raises the very exception
    of a parse failure (ValueError); "992922305.0" parses and raises
    (OverflowError) although the day before the date built first is
    9999-12-31, the last date there is. *)
Lemma epoch2datetime_parsed_but_raises :
  (int_of_str (str_upto 2 "219999999") = Ok 21
   /\ float_of_str (str_from 2 "219999999") = Ok (S754_finite false 5368708583129088 (-29))
   /\ epoch2datetime () (VStr "219999999") = Raise OverflowError)
  /\ (int_of_str (str_upto 2 "21inf") = Ok 21
      /\ float_of_str (str_from 2 "21inf") = Ok (S754_infinity false)
      /\ epoch2datetime () (VStr "21inf") = Raise OverflowError)
  /\ (int_of_str (str_upto 2 "21nan") = Ok 21
      /\ float_of_str (str_from 2 "21nan") = Ok S754_nan
      /\ epoch2datetime () (VStr "21nan") = Raise ValueError)
  /\ (int_of_str (str_upto 2 "992922305.0") = Ok 99
      /\ float_of_str (str_from 2 "992922305.0") = Ok (S754_finite false 6275602201968640 (-31))
      /\ dt.timedelta_of_float_days (S754_finite false 6275602201968640 (-31))
         = Ok (dt.Build_timedelta 2922305 0 0)
      /\ dt.ymd2ord (pivot_year 99) 1 1 + 2922305 - 1 = dt.MAXORDINAL
      /\ epoch2datetime () (VStr "992922305.0") = Raise OverflowError).
Proof.
  split; [|split; [|split]].
  - repeat split; vm_compute; reflexivity.
  - repeat split; vm_compute; reflexivity.
  - repeat split; vm_compute; reflexivity.
  - repeat split; vm_compute; reflexivity.
Qed.

(** Past the digit limit, an int has no string form. *)
Lemma str_int_limit : str (VInt (10 ^ 4300)) = Raise ValueError.
Proof.
  unfold str, str_int. change (Z.of_nat max_str_digits) with 4300.
  rewrite Z.abs_eq by (apply Z.pow_nonneg; lia). rewrite Z.leb_refl. reflexivity.
Qed.

(** An instance: the int 21001 is read as "21001". *)
Lemma epoch2datetime_raises_witness :
  exists d, epoch2datetime () (VInt 21001) = Ok d /\ dt.toordinal d = 737791.
Proof.
  assert (Hs : str (VInt 21001) = Ok "21001"%string) by (vm_compute; reflexivity).
  assert (Hy : int_of_str (str_upto 2 "21001") = Ok 21) by (vm_compute; reflexivity).
  assert (Hf : float_of_str (str_from 2 "21001") = Ok (S754_finite false 4503599627370496 (-52)))
    by (vm_compute; reflexivity).
  pose proof (proj2 (proj2 (proj2 (proj2 (epoch2datetime_raises () (VInt 21001))
                                     "21001"%string Hs)))
                21 (S754_finite false 4503599627370496 (-52)) Hy Hf) as H.
  assert (Hdelta : dt.timedelta_of_float_days (S754_finite false 4503599627370496 (-52))
                   = Ok (dt.Build_timedelta 1 0 0)) by (vm_compute; reflexivity).
  rewrite Hdelta in H. cbv zeta in H.
  assert (HD : dt.ymd2ord (pivot_year 21) 1 1 + dt.days (dt.Build_timedelta 1 0 0) = 737792)
    by (vm_compute; reflexivity).
  rewrite HD in H. change ((2 <=? 737792) && (737792 <=? dt.MAXORDINAL)) with true in H.
  destruct H as (d & Hd & _ & Hord & _).
  exists d. split; [exact Hd | exact Hord].
Defined.

(** ** datetime2sgp4epoch *)

Section sgp4_facts.
Context {TZ : Type} `{EqDecision TZ}.
Variable tz_utcoffset : TZ -> dt.datetime TZ -> option dt.timedelta.

(** The difference from the reference instant 1949-12-31T00:00:00 of the
    same tzinfo, and the float built from it. *)
Lemma datetime2sgp4epoch_value (date : dt.datetime TZ) :
  dt.wf date = true ->
  let secs := dt.hour date * 3600 + dt.minute date * 60 + dt.second date in
  dt.sub tz_utcoffset date (dt.mk 1949 12 31 0 0 0 0 (dt.tzinfo date)) =
    Ok (dt.Build_timedelta (dt.toordinal date - 711857) secs (dt.microsecond date))
  /\ exists frac,
      int_truediv secs 86400 = Ok frac
      /\ datetime2sgp4epoch tz_utcoffset date = Ok (fadd (dt.fint (dt.toordinal date - 711857)) frac).
Proof.
  intros Hwf secs.
  assert (Hsub : dt.sub tz_utcoffset date (dt.mk 1949 12 31 0 0 0 0 (dt.tzinfo date)) =
                 Ok (dt.Build_timedelta (dt.toordinal date - 711857) secs (dt.microsecond date))).
  { rewrite (sub_midnight tz_utcoffset date 1949 12 31 Hwf) by reflexivity. reflexivity. }
  split; [exact Hsub|].
  pose proof (toordinal_range date Hwf) as Hord.
  apply wf_spec in Hwf as [_ (Hh & Hmi & Hs & Hus)].
  destruct (int_truediv_Ok secs 86400) as (frac & Hfrac & _); [lia| |].
  { assert (2 ^ 17 <= 2 ^ 1023) by (apply Z.pow_le_mono_r; lia).
    change (2 ^ 17) with 131072 in *. subst secs. lia. }
  exists frac. split; [exact Hfrac|].
  unfold datetime2sgp4epoch.
  change (dt.new 1949 12 31 0 0 0 0 (dt.tzinfo date))
    with (Ok (dt.mk 1949 12 31 0 0 0 0 (dt.tzinfo date))).
  cbn [bind]. rewrite Hsub. cbn [bind dt.seconds dt.days]. fold secs. rewrite Hfrac.
  cbn [bind]. unfold int_add_float. rewrite float_of_int_Ok; [reflexivity|].
  assert (2 ^ 22 <= 2 ^ 1023) by (apply Z.pow_le_mono_r; lia).
  change (2 ^ 22) with 4194304 in *. lia.
Qed.

(** C2: for every datetime [date], aware or naive, [datetime2sgp4epoch]
    returns a float: with [delta] the difference between [date] and
    1949-12-31T00:00:00 carrying the tzinfo of [date] (whole days: the
    ordinals' difference; seconds: the time of day of [date]), it is
    [delta.days + delta.seconds / 86400].  The reference instant itself
    gives 0.0 exactly and the instant one day later gives 1.0, whatever the
    tzinfo. *)
Theorem datetime2sgp4epoch_spec :
  (forall date : dt.datetime TZ,
      dt.wf date = true ->
      exists delta frac,
        dt.sub tz_utcoffset date (dt.mk 1949 12 31 0 0 0 0 (dt.tzinfo date)) = Ok delta
        /\ dt.days delta = dt.toordinal date - dt.ymd2ord 1949 12 31
        /\ dt.seconds delta = dt.hour date * 3600 + dt.minute date * 60 + dt.second date
        /\ int_truediv (dt.seconds delta) 86400 = Ok frac
        /\ float_of_int (dt.days delta) = Ok (dt.fint (dt.days delta))
        /\ datetime2sgp4epoch tz_utcoffset date = Ok (fadd (dt.fint (dt.days delta)) frac))
  /\ (forall tz : option TZ,
        datetime2sgp4epoch tz_utcoffset (dt.mk 1949 12 31 0 0 0 0 tz) = Ok (S754_zero false))
  /\ (forall tz : option TZ,
        datetime2sgp4epoch tz_utcoffset (dt.mk 1950 1 1 0 0 0 0 tz)
        = Ok (S754_finite false 4503599627370496 (-52))).
Proof.
  split; [|split].
  - intros date Hwf.
    pose proof (toordinal_range date Hwf) as Hord.
    destruct (datetime2sgp4epoch_value date Hwf) as (Hsub & frac & Hfrac & Hres).
    eexists. exists frac. split; [exact Hsub|]. cbn [dt.days dt.seconds].
    repeat split; try assumption.
    apply float_of_int_Ok.
    assert (2 ^ 22 <= 2 ^ 1023) by (apply Z.pow_le_mono_r; lia).
    change (2 ^ 22) with 4194304 in *. lia.
  - intros tz.
    destruct (datetime2sgp4epoch_value (dt.mk 1949 12 31 0 0 0 0 tz) eq_refl)
      as (_ & frac & Hfrac & Hres).
    rewrite Hres. vm_compute in Hfrac. injection Hfrac as <-. reflexivity.
  - intros tz.
    destruct (datetime2sgp4epoch_value (dt.mk 1950 1 1 0 0 0 0 tz) eq_refl)
      as (_ & frac & Hfrac & Hres).
    rewrite Hres. vm_compute in Hfrac. injection Hfrac as <-. reflexivity.
Qed.

(** C10: the microsecond of [date] does not reach the result: replacing it
    by zero leaves [datetime2sgp4epoch] unchanged. *)
Theorem datetime2sgp4epoch_ignores_microsecond (date : dt.datetime TZ) :
  dt.wf date = true ->
  datetime2sgp4epoch tz_utcoffset date
  = datetime2sgp4epoch tz_utcoffset (dt.replace_microsecond date 0).
Proof.
  intros Hwf.
  assert (Hwf0 : dt.wf (dt.replace_microsecond date 0) = true).
  { apply wf_spec in Hwf. apply wf_spec. simpl. lia. }
  destruct (datetime2sgp4epoch_value date Hwf) as (_ & frac & Hfrac & ->).
  destruct (datetime2sgp4epoch_value _ Hwf0) as (_ & frac0 & Hfrac0 & ->).
  change (int_truediv (dt.hour date * 3600 + dt.minute date * 60 + dt.second date) 86400
          = Ok frac0) in Hfrac0.
  rewrite Hfrac in Hfrac0. injection Hfrac0 as <-. reflexivity.
Qed.

End sgp4_facts.

(** An instance: 2021-01-01T12:00:00 UTC is 25934.5 days after the reference. *)
Lemma datetime2sgp4epoch_spec_witness :
  exists x, datetime2sgp4epoch no_offset (dt.mk 2021 1 1 12 0 0 0 (Some ())) = Ok x
            /\ float_repr x = "25934.5"%string.
Proof.
  destruct (proj1 (datetime2sgp4epoch_spec no_offset) (dt.mk 2021 1 1 12 0 0 0 (Some ())) eq_refl)
    as (delta & frac & Hsub & Hdays & Hsecs & Hfrac & _ & Hres).
  exists (fadd (dt.fint (dt.days delta)) frac). split; [exact Hres|].
  vm_compute in Hsub. injection Hsub as <-.
  vm_compute in Hfrac. injection Hfrac as <-.
  vm_compute. reflexivity.
Defined.

(** An instance: 2021-01-01T12:00:00.999999, naive. *)
Lemma datetime2sgp4epoch_ignores_microsecond_witness :
  datetime2sgp4epoch no_offset (dt.mk 2021 1 1 12 0 0 999999 None)
  = datetime2sgp4epoch no_offset (dt.mk 2021 1 1 12 0 0 0 None).
Proof.
  apply (datetime2sgp4epoch_ignores_microsecond no_offset (dt.mk 2021 1 1 12 0 0 999999 None)).
  reflexivity.
Defined.

(** ** Lists and loops *)

Lemma getitem_nat {A} (l : list A) (i : nat) (x : A) :
  l !! i = Some x -> getitem l (Z.of_nat i) = Ok x.
Proof.
  intros Hx. unfold getitem. pose proof (lookup_lt_Some _ _ _ Hx) as Hlt.
  destruct (Z.ltb_spec (Z.of_nat i) 0) as [?|_]; [lia|].
  destruct (_ && _) eqn:Hrange.
  - rewrite Nat2Z.id, Hx. reflexivity.
  - apply andb_false_iff in Hrange as [H|H]; [apply Z.leb_gt in H|apply Z.ltb_ge in H]; lia.
Qed.

Lemma mapM_Ok {A B} (f : A -> result B) (xs : list A) (ys : list B) :
  mapM f xs = Ok ys <-> Forall2 (fun x y => f x = Ok y) xs ys.
Proof.
  revert ys. induction xs as [|x xs IH]; intros ys; simpl.
  - split; [intros [= <-]; constructor | intros Hf; inversion Hf; reflexivity].
  - split.
    + intros Hb. apply bind_Ok in Hb as (y & Hy & Hb).
      apply bind_Ok in Hb as (ys' & Hys & [= <-]).
      constructor; [exact Hy | apply IH, Hys].
    + intros Hf. inversion Hf as [|? y ? ys' Hy Hys]; subst.
      rewrite Hy. cbn [bind]. apply IH in Hys. rewrite Hys. reflexivity.
Qed.

(** A loop that appends one result per element is a map. *)
Lemma for_append {A B} (f : A -> result B) (xs : list A) (acc : list B) :
  for_ xs (fun acc x => let* y := f x in Ok (acc ++ [y])) acc =
    (let* ys := mapM f xs in Ok (acc ++ ys)).
Proof.
  revert acc. induction xs as [|x xs IH]; intros acc; simpl.
  - rewrite app_nil_r. reflexivity.
  - destruct (f x) as [y|e]; cbn [bind]; [|reflexivity].
    rewrite IH. destruct (mapM f xs) as [ys|e]; cbn [bind]; [|reflexivity].
    rewrite <- app_assoc. reflexivity.
Qed.

(** ** findClosestDatetimeIndices *)

Lemma argmin_from_spec (xs : list float) : forall (done : list float) (mp : float) (mi : nat),
  Forall not_nan (done ++ xs) ->
  done !! mi = Some mp ->
  (forall k y, done !! k = Some y -> fle mp y = true) ->
  (forall k y, (k < mi)%nat -> done !! k = Some y -> fle y mp = false) ->
  let j := np.argmin_from xs (length done) mp mi in
  exists v, (done ++ xs) !! j = Some v
    /\ (forall k y, (done ++ xs) !! k = Some y -> fle v y = true)
    /\ (forall k y, (k < j)%nat -> (done ++ xs) !! k = Some y -> fle y v = false).
Proof.
  induction xs as [|x xs IH]; intros done mp mi Hnan Hmp Hmin Hfirst; simpl.
  - rewrite app_nil_r. exists mp. auto.
  - assert (Hmp_nan : not_nan mp).
    { rewrite Forall_forall in Hnan. apply Hnan, elem_of_app. left.
      eapply list_elem_of_lookup_2, Hmp. }
    assert (Hx_nan : not_nan x).
    { rewrite Forall_forall in Hnan. apply Hnan, elem_of_app. right. left. }
    rewrite Hmp_nan.
    replace (S (length done)) with (length (done ++ [x])) by (rewrite length_app; simpl; lia).
    replace (done ++ x :: xs) with ((done ++ [x]) ++ xs) in * by (rewrite <- app_assoc; reflexivity).
    destruct (fle mp x) eqn:Hle.
    + apply IH; [exact Hnan | | |].
      * apply lookup_app_l_Some, Hmp.
      * intros k y Hk. apply lookup_app_Some in Hk as [Hk|[_ Hk]]; [eauto|].
        apply list_lookup_singleton_Some in Hk as [_ <-]. exact Hle.
      * intros k y Hlt Hk. apply lookup_app_Some in Hk as [Hk|[Hge _]]; [eauto|].
        apply lookup_lt_Some in Hmp. lia.
    + pose proof (fle_total mp x Hmp_nan Hx_nan Hle) as Hxm.
      apply IH; [exact Hnan | | |].
      * rewrite lookup_app_r by lia. rewrite Nat.sub_diag. reflexivity.
      * intros k y Hk. apply lookup_app_Some in Hk as [Hk|[_ Hk]].
        -- eapply fle_trans; [exact Hxm | eauto].
        -- apply list_lookup_singleton_Some in Hk as [_ <-]. apply fle_refl, Hx_nan.
      * intros k y Hlt Hk. rewrite lookup_app_l in Hk by exact Hlt.
        destruct (fle y x) eqn:Hyx; [|reflexivity].
        rewrite (fle_trans mp y x (Hmin _ _ Hk) Hyx) in Hle. discriminate.
Qed.

(** The index [np.argmin] picks for one query among finite timestamps *)
Lemma nearest_spec (ts : list float) (q : float) :
  ts <> [] -> Forall (fun s => is_finite s = true) ts -> is_finite q = true ->
  exists (j : nat) (sj : float),
    nearest ts q = Ok (Z.of_nat j) /\ ts !! j = Some sj
    /\ (forall k sk, ts !! k = Some sk -> fle (dist sj q) (dist sk q) = true)
    /\ (forall k sk, (k < j)%nat -> ts !! k = Some sk -> fle (dist sk q) (dist sj q) = false).
Proof.
  intros Hne Hfin Hq. unfold nearest, np.abs, np.sub_scalar.
  rewrite <- list_fmap_compose.
  change (fabs ∘ (fun a => fsub a q)) with (fun s => dist s q).
  destruct ts as [|s0 ts]; [contradiction|]. cbn [fmap list_fmap np.argmin].
  assert (Hdists : Forall not_nan ((fun s => dist s q) <$> (s0 :: ts))).
  { apply Forall_fmap. eapply Forall_impl; [exact Hfin|].
    intros s Hs. simpl. apply dist_not_nan; assumption. }
  destruct (argmin_from_spec (fmap (M:=list) (fun s => dist s q) ts)
              [dist s0 q] (dist s0 q) 0 Hdists)
    as (v & Hv & Hmin & Hfirst).
  - reflexivity.
  - intros k y Hk. apply list_lookup_singleton_Some in Hk as [_ <-].
    apply fle_refl. inversion Hdists; assumption.
  - intros k y Hlt. lia.
  - simpl length in *.
    set (j := np.argmin_from _ 1 (dist s0 q) 0) in *.
    change ([dist s0 q] ++ ((fun s => dist s q) <$> ts))
      with ((fun s => dist s q) <$> (s0 :: ts)) in *.
    rewrite list_lookup_fmap in Hv.
    destruct ((s0 :: ts) !! j) as [sj|] eqn:Hsj; [|discriminate].
    injection Hv as <-.
    exists j, sj. repeat split; [exact Hsj| |].
    + intros k sk Hk. apply (Hmin k). rewrite list_lookup_fmap, Hk. reflexivity.
    + intros k sk Hlt Hk. apply (Hfirst k); [exact Hlt|].
      rewrite list_lookup_fmap, Hk. reflexivity.
Qed.

Section findClosest_facts.
Context {T : Type}.
Variable timestamp : T -> result float.

(** The loop over the queries fills the index array with [nearest]. *)
Lemma closest_loop (tq ts : list float) : forall (post pre : list float) (res : list Z),
  tq = pre ++ post -> length res = length pre ->
  for_ (seq (length pre) (length post))
    (fun idx_arr ii =>
       let* t := getitem tq (Z.of_nat ii) in
       let* k := np.argmin (np.abs (np.sub_scalar ts t)) in
       Ok (<[ii := k]> idx_arr))
    (res ++ np.zeros (length post))
  = (let* ks := mapM (nearest ts) post in Ok (res ++ ks)).
Proof.
  induction post as [|x post IH]; intros pre res Htq Hlen; simpl.
  - reflexivity.
  - rewrite (getitem_nat tq (length pre) x).
    2:{ rewrite Htq, lookup_app_r by lia. rewrite Nat.sub_diag. reflexivity. }
    cbn [bind]. fold (nearest ts x).
    destruct (nearest ts x) as [k|e]; cbn [bind]; [|reflexivity].
    rewrite insert_app_r_alt by lia. rewrite Hlen, Nat.sub_diag. simpl.
    replace (S (length pre)) with (length (pre ++ [x])) by (rewrite length_app; simpl; lia).
    replace (res ++ k :: replicate (length post) 0)
      with ((res ++ [k]) ++ np.zeros (length post))
      by (rewrite <- app_assoc; reflexivity).
    rewrite (IH (pre ++ [x]) (res ++ [k])).
    + destruct (mapM (nearest ts) post); cbn [bind]; [|reflexivity].
      rewrite <- app_assoc. reflexivity.
    + rewrite Htq, <- app_assoc. reflexivity.
    + rewrite !length_app, Hlen. reflexivity.
Qed.

Lemma findClosest_map (test_arr source_arr : list T) :
  findClosestDatetimeIndices timestamp test_arr source_arr =
    (let* tq := np.vectorize timestamp test_arr in
     let* ts := np.vectorize timestamp source_arr in
     mapM (nearest ts) tq).
Proof.
  unfold findClosestDatetimeIndices.
  destruct (np.vectorize timestamp test_arr) as [tq|e]; cbn [bind]; [|reflexivity].
  destruct (np.vectorize timestamp source_arr) as [ts|e]; cbn [bind]; [|reflexivity].
  etransitivity; [apply (closest_loop tq ts tq [] [] eq_refl eq_refl)|].
  destruct (mapM (nearest ts) tq); reflexivity.
Qed.


End findClosest_facts.

(** With no query and a reference of three
    timestamps, no array comes back: [np.vectorize] raises. *)
Lemma findClosestDatetimeIndices_no_query :
  findClosestDatetimeIndices float_of_int [] [0; 10; 30] = Raise ValueError
  /\ ~ exists idx_arr, findClosestDatetimeIndices float_of_int [] [0; 10; 30] = Ok idx_arr
                       /\ length idx_arr = 0%nat.
Proof.
  split; [reflexivity|]. intros (idx_arr & Hidx & _). discriminate Hidx.
Qed.


(** ** datetime2TLEepoch *)

Section tle_epoch_facts.
Context {TZ : Type} `{EqDecision TZ}.
Variable utc : TZ.
Variable tz_utcoffset : TZ -> dt.datetime TZ -> option dt.timedelta.

(** The text built from a date: the seconds since its midnight (of the
    same tzinfo) over the seconds of a day, written by [repr], less its
    first character. *)
Lemma datetime2TLEepoch_value (date : dt.datetime TZ) :
  dt.wf date = true ->
  let since :=
    dt.Build_timedelta 0 (dt.hour date * 3600 + dt.minute date * 60 + dt.second date)
      (dt.microsecond date) in
  dt.sub tz_utcoffset date
    (dt.mk (dt.year date) (dt.month date) (dt.day date) 0 0 0 0 (dt.tzinfo date)) = Ok since
  /\ exists secs,
      dt.total_seconds since = Ok secs
      /\ datetime2TLEepoch tz_utcoffset date =
           Ok (str_last 2 (str_of_int (dt.year date))
               +:+ zfill 3 (str_of_int (dt.tm_yday date))
               +:+ str_from 1 (float_repr (fdiv secs (dt.fint 86400)))).
Proof.
  intros Hwf since.
  assert (Hmid : dt.fields_ok (dt.year date) (dt.month date) (dt.day date) 0 0 0 0 = true).
  { apply fields_ok_spec. apply wf_spec in Hwf as [Hd _]. split; [exact Hd|lia]. }
  assert (Hsub : dt.sub tz_utcoffset date
                   (dt.mk (dt.year date) (dt.month date) (dt.day date) 0 0 0 0 (dt.tzinfo date))
                 = Ok since).
  { rewrite (sub_midnight tz_utcoffset date _ _ _ Hwf Hmid). unfold since, dt.toordinal.
    rewrite Z.sub_diag. reflexivity. }
  split; [exact Hsub|].
  apply wf_spec in Hwf as [_ (Hh & Hmi & Hs & Hus)].
  unfold dt.total_seconds.
  destruct (int_truediv_Ok
              ((dt.days since * 86400 + dt.seconds since) * 10 ^ 6 + dt.microseconds since)
              (10 ^ 6)) as (secs & Hsecs & _); [lia| |].
  { assert (2 ^ 37 <= 2 ^ 1023) by (apply Z.pow_le_mono_r; lia).
    change (2 ^ 37) with 137438953472 in *. unfold since. simpl. lia. }
  exists secs. split; [exact Hsecs|].
  unfold datetime2TLEepoch, dt.new. rewrite Hmid. cbn [bind]. rewrite Hsub. cbn [bind].
  unfold dt.total_seconds at 1. rewrite Hsecs. cbn [bind].
  reflexivity.
Qed.

(** C3: for every datetime [date], [datetime2TLEepoch] returns the last
    two digits of the year, then the day of the year padded with zeros to
    three digits, then the text [repr] gives for (seconds since the midnight
    of [date], taken with the tzinfo of [date]) / 86400.0 without its
    character at index 0.  At noon the text is 0.5 and the rest begins at
    the decimal point; 86400 microseconds after midnight of 2021-01-01 the
    text is 1e-06, the result is 21001e-06 with no decimal point, and one
    microsecond after it the text is 1.1574074074074074e-11, whose leading
    digit is lost: [epoch2datetime] reads both results as instants of
    2020-12-31, a day before the date they were made from. *)
Theorem datetime2TLEepoch_drops_first_character :
  (forall date : dt.datetime TZ,
      dt.wf date = true ->
      exists secs,
        dt.total_seconds
          (dt.Build_timedelta 0 (dt.hour date * 3600 + dt.minute date * 60 + dt.second date)
             (dt.microsecond date)) = Ok secs
        /\ datetime2TLEepoch tz_utcoffset date =
             Ok (str_last 2 (str_of_int (dt.year date))
                 +:+ zfill 3 (str_of_int (dt.tm_yday date))
                 +:+ str_from 1 (float_repr (fdiv secs (dt.fint 86400)))))
  /\ (forall tz : option TZ,
        datetime2TLEepoch tz_utcoffset (dt.mk 2021 1 1 12 0 0 0 tz) = Ok "21001.5")
  /\ (forall tz : option TZ,
        datetime2TLEepoch tz_utcoffset (dt.mk 2021 1 1 0 0 0 86400 tz) = Ok "21001e-06")
  /\ (forall tz : option TZ,
        datetime2TLEepoch tz_utcoffset (dt.mk 2021 1 1 0 0 0 1 tz)
        = Ok "21001.1574074074074074e-11")
  /\ epoch2datetime utc (VStr "21001e-06") = Ok (dt.mk 2020 12 31 0 0 0 86400 (Some utc))
  /\ epoch2datetime utc (VStr "21001.1574074074074074e-11")
     = Ok (dt.mk 2020 12 31 0 0 0 1 (Some utc)).
Proof.
  split; [|split; [|split; [|split; [|split]]]].
  - intros date Hwf. apply (datetime2TLEepoch_value date Hwf).
  - intros tz.
    destruct (datetime2TLEepoch_value (dt.mk 2021 1 1 12 0 0 0 tz) eq_refl)
      as (_ & secs & Hsecs & ->).
    vm_compute in Hsecs. injection Hsecs as <-. vm_compute. reflexivity.
  - intros tz.
    destruct (datetime2TLEepoch_value (dt.mk 2021 1 1 0 0 0 86400 tz) eq_refl)
      as (_ & secs & Hsecs & ->).
    vm_compute in Hsecs. injection Hsecs as <-. vm_compute. reflexivity.
  - intros tz.
    destruct (datetime2TLEepoch_value (dt.mk 2021 1 1 0 0 0 1 tz) eq_refl)
      as (_ & secs & Hsecs & ->).
    vm_compute in Hsecs. injection Hsecs as <-. vm_compute. reflexivity.
  - vm_compute. reflexivity.
  - vm_compute. reflexivity.
Qed.

End tle_epoch_facts.

Lemma datetime2TLEepoch_drops_first_character_witness :
  datetime2TLEepoch no_offset (dt.mk 2021 7 4 6 0 0 0 (Some ())) = Ok "21185.25".
Proof.
  destruct (proj1 (datetime2TLEepoch_drops_first_character () no_offset)
              (dt.mk 2021 7 4 6 0 0 0 (Some ())) eq_refl) as (secs & Hsecs & Hres).
  rewrite Hres. vm_compute in Hsecs. injection Hsecs as <-. vm_compute. reflexivity.
Defined.

(** ** The file readers *)

Section readers_facts.
Context {TZ : Type}.
Variable utc : TZ.
Variable split3LELineIntoFields : string -> result ElementsLineDict.

Lemma readers_absent fs path idx_list string_only :
  fs path = Absent ->
  getStoredEpochs utc split3LELineIntoFields fs path = Ok None
  /\ getAllStoredEpochs utc split3LELineIntoFields fs path = Ok None
  /\ getStoredTLEByIdx split3LELineIntoFields fs path idx_list string_only = Ok None.
Proof.
  intros Habsent. unfold getStoredEpochs, getAllStoredEpochs, getStoredTLEByIdx, path_exists.
  rewrite Habsent. auto.
Qed.

Lemma readers_unreachable fs path idx_list string_only :
  fs path = Unreachable ->
  getStoredEpochs utc split3LELineIntoFields fs path = Raise OSError
  /\ getAllStoredEpochs utc split3LELineIntoFields fs path = Raise OSError
  /\ getStoredTLEByIdx split3LELineIntoFields fs path idx_list string_only = Raise OSError.
Proof.
  intros Hfs. unfold getStoredEpochs, getAllStoredEpochs, getStoredTLEByIdx, path_exists.
  rewrite Hfs. auto.
Qed.

Ltac step_bind :=
  match goal with
  | |- bind ?r _ <> _ => destruct r; cbn [bind]; [|discriminate]
  end.

Lemma readers_present fs path content idx_list string_only :
  fs path = Present content ->
  getStoredEpochs utc split3LELineIntoFields fs path <> Ok None
  /\ getAllStoredEpochs utc split3LELineIntoFields fs path <> Ok None
  /\ getStoredTLEByIdx split3LELineIntoFields fs path idx_list string_only <> Ok None.
Proof.
  intros Hpresent.
  unfold getStoredEpochs, getAllStoredEpochs, getStoredTLEByIdx, path_exists.
  rewrite Hpresent. cbn [bind negb]. repeat split.
  - repeat step_bind. discriminate.
  - repeat step_bind. discriminate.
  - repeat step_bind. discriminate.
Qed.

(** C5: each of [getStoredEpochs], [getAllStoredEpochs] and
    [getStoredTLEByIdx] returns [None], without raising, when [exists()]
    finds that the path names nothing, and only then: when something is at
    the path, each returns another value or an exception propagates (from
    reading the file, indexing its lines, the splitter or the epoch
    conversion).  When the path cannot be reached, as a name longer than
    the file system takes, under which no file exists either, [exists()]
    raises [OSError] and so does each of the three. *)
Theorem readers_none_iff_absent fs path idx_list string_only :
  (getStoredEpochs utc split3LELineIntoFields fs path = Ok None <-> fs path = Absent)
  /\ (getAllStoredEpochs utc split3LELineIntoFields fs path = Ok None <-> fs path = Absent)
  /\ (getStoredTLEByIdx split3LELineIntoFields fs path idx_list string_only = Ok None
      <-> fs path = Absent)
  /\ (fs path = Unreachable ->
      path_exists fs path = Raise OSError
      /\ getStoredEpochs utc split3LELineIntoFields fs path = Raise OSError
      /\ getAllStoredEpochs utc split3LELineIntoFields fs path = Raise OSError
      /\ getStoredTLEByIdx split3LELineIntoFields fs path idx_list string_only
         = Raise OSError).
Proof.
  destruct (fs path) as [|content|] eqn:Hfs.
  - destruct (readers_absent fs path idx_list string_only Hfs) as (H1 & H2 & H3).
    split; [|split; [|split]]; [split; auto ..|discriminate].
  - destruct (readers_present fs path content idx_list string_only Hfs) as (H1 & H2 & H3).
    split; [|split; [|split]];
      [split; [intros Hnone; contradiction|discriminate] ..|discriminate].
  - destruct (readers_unreachable fs path idx_list string_only Hfs) as (H1 & H2 & H3).
    rewrite H1, H2, H3.
    split; [|split; [|split]]; [split; discriminate ..|].
    intros _. unfold path_exists. rewrite Hfs. auto.
Qed.

Lemma getStoredEpochs_lines fs path lines d1 d2 :
  fs path = Present (Ok lines) ->
  line_epoch utc split3LELineIntoFields lines 1 = Ok d1 ->
  line_epoch utc split3LELineIntoFields lines (-2) = Ok d2 ->
  getStoredEpochs utc split3LELineIntoFields fs path = Ok (Some (d1, d2)).
Proof.
  intros Hfs H1 H2. unfold line_epoch, split_line in H1, H2.
  apply bind_Ok in H1 as (r1 & H1 & He1). apply bind_Ok in H1 as (l1 & Hl1 & Hr1).
  apply bind_Ok in He1 as (e1 & He1 & Hd1).
  apply bind_Ok in H2 as (r2 & H2 & He2). apply bind_Ok in H2 as (l2 & Hl2 & Hr2).
  apply bind_Ok in He2 as (e2 & He2 & Hd2).
  unfold getStoredEpochs, path_exists, readlines. rewrite Hfs. cbn [negb bind].
  rewrite Hl1. cbn [bind]. rewrite Hr1. cbn [bind]. rewrite Hl2. cbn [bind].
  rewrite Hr2. cbn [bind]. rewrite He1. cbn [bind]. rewrite Hd1. cbn [bind].
  rewrite He2. cbn [bind]. rewrite Hd2. reflexivity.
Qed.

Lemma getitem_from_end {A} (l : list A) (n k : Z) :
  Z.of_nat (length l) = n -> 0 < k -> getitem l (- k) = getitem l (n - k) \/ n - k < 0.
Proof.
  intros Hn Hk. destruct (Z.ltb_spec (n - k) 0) as [Hneg|Hpos]; [right; exact Hneg|left].
  unfold getitem. rewrite Hn.
  destruct (Z.ltb_spec (- k) 0) as [_|?]; [|lia].
  destruct (Z.ltb_spec (n - k) 0) as [?|_]; [lia|].
  replace (- k + n) with (n - k) by lia. reflexivity.
Qed.

(** C6: on an existing file whose line 1 and second-to-last line split and
    whose epoch tokens (position 3) convert, [getStoredEpochs] returns the
    pair (epoch of line 1, epoch of the second-to-last line), in that
    order, whatever the order of the two instants; on a file of two records
    (6 lines) these are the epochs of record 0 (line 1) and of record 1
    (line 4). *)
Theorem getStoredEpochs_spec fs path lines d1 d2 :
  fs path = Present (Ok lines) ->
  (line_epoch utc split3LELineIntoFields lines 1 = Ok d1 ->
   line_epoch utc split3LELineIntoFields lines (-2) = Ok d2 ->
   getStoredEpochs utc split3LELineIntoFields fs path = Ok (Some (d1, d2)))
  /\ (length lines = 6%nat ->
      line_epoch utc split3LELineIntoFields lines (0 * 3 + 1) = Ok d1 ->
      line_epoch utc split3LELineIntoFields lines (1 * 3 + 1) = Ok d2 ->
      getStoredEpochs utc split3LELineIntoFields fs path = Ok (Some (d1, d2))).
Proof.
  intros Hfs. split.
  - apply getStoredEpochs_lines, Hfs.
  - intros Hlen H1 H2. apply (getStoredEpochs_lines fs path lines d1 d2 Hfs H1).
    unfold line_epoch, split_line in *.
    destruct (getitem_from_end lines 6 2) as [Heq|?]; [rewrite Hlen; reflexivity|lia| |lia].
    change (getitem lines (-2) = getitem lines 4) in Heq.
    rewrite Heq. exact H2.
Qed.

(** One pass of the loop of [getStoredTLEByIdx] builds one record *)
Lemma record_loop (lines : list string) (string_only : bool) idxs acc :
  for_ idxs
    (fun tles idx =>
       let* line_0 := getitem lines (idx * 3 + 0) in
       let* tle_line_0 := split3LELineIntoFields line_0 in
       let* line_1 := getitem lines (idx * 3 + 1) in
       let* tle_line_1 := split3LELineIntoFields line_1 in
       let* line_2 := getitem lines (idx * 3 + 2) in
       let* tle_line_2 := split3LELineIntoFields line_2 in
       Ok (tles ++
             [if string_only
              then TleStr (line_str tle_line_0 +:+ line_str tle_line_1 +:+ line_str tle_line_2)
              else TleDict {[ 0 := tle_line_0; 1 := tle_line_1; 2 := tle_line_2 ]}]))
    acc =
  for_ idxs
    (fun tles idx =>
       let* t := (if string_only then record_text split3LELineIntoFields lines
                  else record_dict split3LELineIntoFields lines) idx in
       Ok (tles ++ [t]))
    acc.
Proof.
  revert acc.
  destruct string_only;
    (induction idxs as [|idx idxs IH]; intros acc; simpl; [reflexivity|]);
    unfold record_text, record_dict, record_lines, split_line;
    (destruct (getitem lines (idx * 3 + 0)) as [l0|]; cbn [bind]; [|reflexivity]);
    (destruct (split3LELineIntoFields l0) as [r0|]; cbn [bind]; [|reflexivity]);
    (destruct (getitem lines (idx * 3 + 1)) as [l1|]; cbn [bind]; [|reflexivity]);
    (destruct (split3LELineIntoFields l1) as [r1|]; cbn [bind]; [|reflexivity]);
    (destruct (getitem lines (idx * 3 + 2)) as [l2|]; cbn [bind]; [|reflexivity]);
    (destruct (split3LELineIntoFields l2) as [r2|]; cbn [bind]; [|reflexivity]);
    apply IH.
Qed.

Lemma getStoredTLEByIdx_map fs path lines idx_list string_only :
  fs path = Present (Ok lines) ->
  getStoredTLEByIdx split3LELineIntoFields fs path idx_list string_only =
    (let* tles :=
       mapM (if string_only then record_text split3LELineIntoFields lines
             else record_dict split3LELineIntoFields lines)
         (match idx_list with IdxInt idx => [idx] | IdxList idxs => idxs end) in
     Ok (Some tles)).
Proof.
  intros Hfs. unfold getStoredTLEByIdx, path_exists, readlines.
  rewrite Hfs. cbn [negb bind].
  set (idxs := match idx_list with IdxInt idx => [idx] | IdxList idxs => idxs end).
  etransitivity;
    [apply (f_equal (fun r => let* tles := r in Ok (Some tles))
              (record_loop lines string_only idxs []))|].
  rewrite for_append. destruct (mapM _ idxs); reflexivity.
Qed.

(** A loop over indices that all succeed returns, item by item *)
Lemma mapM_total {A B} (f : A -> result B) (P : A -> B -> Prop) (xs : list A) :
  Forall (fun x => exists y, f x = Ok y /\ P x y) xs ->
  exists ys, mapM f xs = Ok ys /\ Forall2 P xs ys.
Proof.
  induction 1 as [|x xs (y & Hy & HP) _ (ys & Hys & HF)]; simpl.
  - exists []. split; [reflexivity|constructor].
  - exists (y :: ys). rewrite Hy. cbn [bind]. rewrite Hys. cbn [bind].
    split; [reflexivity|constructor; assumption].
Qed.

Lemma record_lines_Ok lines k r0 r1 r2 :
  split_line split3LELineIntoFields lines (k * 3 + 0) = Ok r0 ->
  split_line split3LELineIntoFields lines (k * 3 + 1) = Ok r1 ->
  split_line split3LELineIntoFields lines (k * 3 + 2) = Ok r2 ->
  record_lines split3LELineIntoFields lines k = Ok (r0, r1, r2).
Proof.
  intros H0 H1 H2. unfold record_lines. rewrite H0. cbn [bind]. rewrite H1. cbn [bind].
  rewrite H2. reflexivity.
Qed.

(** C7: on an existing file, [getStoredTLEByIdx] with [string_only=True]
    is the loop of [record_text] over the requested indices, a single int
    [k] standing for the list [[k]]; when the lines [3k], [3k+1], [3k+2] of
    every requested record [k] exist and split, it returns one string per
    requested index, in request order: the [line_str] texts of the three
    lines one after the other, nothing added.  Index 0 on a file that
    begins with the lines L0, L1, L2 (each with its newline), split by a
    splitter that keeps the line as [line_str], gives the one string made
    of L0, L1 and L2 with their newlines. *)
Theorem getStoredTLEByIdx_string_only fs path lines :
  fs path = Present (Ok lines) ->
  (forall idxs,
      getStoredTLEByIdx split3LELineIntoFields fs path (IdxList idxs) true =
        (let* tles := mapM (record_text split3LELineIntoFields lines) idxs in Ok (Some tles)))
  /\ (forall k,
        getStoredTLEByIdx split3LELineIntoFields fs path (IdxInt k) true
        = getStoredTLEByIdx split3LELineIntoFields fs path (IdxList [k]) true)
  /\ (forall idxs,
        Forall (fun k => exists r0 r1 r2,
                    split_line split3LELineIntoFields lines (k * 3 + 0) = Ok r0
                    /\ split_line split3LELineIntoFields lines (k * 3 + 1) = Ok r1
                    /\ split_line split3LELineIntoFields lines (k * 3 + 2) = Ok r2) idxs ->
        exists tles,
          getStoredTLEByIdx split3LELineIntoFields fs path (IdxList idxs) true = Ok (Some tles)
          /\ length tles = length idxs
          /\ Forall2 (fun k t => exists r0 r1 r2,
                          split_line split3LELineIntoFields lines (k * 3 + 0) = Ok r0
                          /\ split_line split3LELineIntoFields lines (k * 3 + 1) = Ok r1
                          /\ split_line split3LELineIntoFields lines (k * 3 + 2) = Ok r2
                          /\ t = TleStr (line_str r0 +:+ line_str r1 +:+ line_str r2))
               idxs tles)
  /\ (forall rest r0 r1 r2,
        lines = ("L0" +:+ nl) :: ("L1" +:+ nl) :: ("L2" +:+ nl) :: rest ->
        split3LELineIntoFields ("L0" +:+ nl) = Ok r0 -> line_str r0 = "L0" +:+ nl ->
        split3LELineIntoFields ("L1" +:+ nl) = Ok r1 -> line_str r1 = "L1" +:+ nl ->
        split3LELineIntoFields ("L2" +:+ nl) = Ok r2 -> line_str r2 = "L2" +:+ nl ->
        getStoredTLEByIdx split3LELineIntoFields fs path (IdxInt 0) true
        = Ok (Some [TleStr ("L0" +:+ nl +:+ "L1" +:+ nl +:+ "L2" +:+ nl)])).
Proof.
  intros Hfs. split; [|split; [|split]].
  - intros idxs. apply (getStoredTLEByIdx_map fs path lines (IdxList idxs) true Hfs).
  - intros k. rewrite (getStoredTLEByIdx_map fs path lines (IdxInt k) true Hfs).
    rewrite (getStoredTLEByIdx_map fs path lines (IdxList [k]) true Hfs). reflexivity.
  - intros idxs Hall.
    destruct (mapM_total (record_text split3LELineIntoFields lines)
                (fun k t => exists r0 r1 r2,
                     split_line split3LELineIntoFields lines (k * 3 + 0) = Ok r0
                     /\ split_line split3LELineIntoFields lines (k * 3 + 1) = Ok r1
                     /\ split_line split3LELineIntoFields lines (k * 3 + 2) = Ok r2
                     /\ t = TleStr (line_str r0 +:+ line_str r1 +:+ line_str r2)) idxs)
      as (tles & Htles & Hall2).
    { eapply Forall_impl; [exact Hall|]. intros k (r0 & r1 & r2 & H0 & H1 & H2).
      exists (TleStr (line_str r0 +:+ line_str r1 +:+ line_str r2)). split.
      - unfold record_text. rewrite (record_lines_Ok lines k r0 r1 r2 H0 H1 H2). reflexivity.
      - exists r0, r1, r2. auto. }
    exists tles. rewrite (getStoredTLEByIdx_map fs path lines (IdxList idxs) true Hfs).
    cbn beta iota.
    rewrite Htles. split; [reflexivity|]. split; [|exact Hall2].
    symmetry. eapply Forall2_length, Hall2.
  - intros rest r0 r1 r2 -> H0 L0 H1 L1 H2 L2.
    rewrite (getStoredTLEByIdx_map fs path _ (IdxInt 0) true Hfs). cbn beta iota.
    unfold mapM, record_text, record_lines, split_line.
    rewrite (getitem_nat (_ :: _ :: _ :: rest) 0 ("L0" +:+ nl) eq_refl).
    rewrite (getitem_nat (_ :: _ :: _ :: rest) 1 ("L1" +:+ nl) eq_refl).
    rewrite (getitem_nat (_ :: _ :: _ :: rest) 2 ("L2" +:+ nl) eq_refl).
    cbn [bind]. rewrite H0. cbn [bind]. rewrite H1. cbn [bind]. rewrite H2. cbn [bind].
    rewrite L0, L1, L2. reflexivity.
Qed.

(** C8: on an existing file, [getStoredTLEByIdx] with
    [string_only=False] is the loop of [record_dict] over the requested
    indices; when the lines of every requested record exist and split, it
    returns one dict per requested index, in request order, whose keys are
    0, 1 and 2 and whose value at key [j] is the whole result of the
    splitter on line [3k+j]: the structure that holds the field sequence
    under [fields] and the text of the line under [line_str]. *)
Theorem getStoredTLEByIdx_dicts fs path lines :
  fs path = Present (Ok lines) ->
  (forall idx_list,
      getStoredTLEByIdx split3LELineIntoFields fs path idx_list false =
        (let* tles :=
           mapM (record_dict split3LELineIntoFields lines)
             (match idx_list with IdxInt idx => [idx] | IdxList idxs => idxs end) in
         Ok (Some tles)))
  /\ (forall idxs,
        Forall (fun k => exists r0 r1 r2,
                    split_line split3LELineIntoFields lines (k * 3 + 0) = Ok r0
                    /\ split_line split3LELineIntoFields lines (k * 3 + 1) = Ok r1
                    /\ split_line split3LELineIntoFields lines (k * 3 + 2) = Ok r2) idxs ->
        exists tles,
          getStoredTLEByIdx split3LELineIntoFields fs path (IdxList idxs) false = Ok (Some tles)
          /\ length tles = length idxs
          /\ Forall2 (fun k t => exists r0 r1 r2 (d : gmap Z ElementsLineDict),
                          split_line split3LELineIntoFields lines (k * 3 + 0) = Ok r0
                          /\ split_line split3LELineIntoFields lines (k * 3 + 1) = Ok r1
                          /\ split_line split3LELineIntoFields lines (k * 3 + 2) = Ok r2
                          /\ t = TleDict d
                          /\ d !! 0 = Some r0 /\ d !! 1 = Some r1 /\ d !! 2 = Some r2
                          /\ (forall j, d !! j <> None -> j = 0 \/ j = 1 \/ j = 2))
               idxs tles).
Proof.
  intros Hfs. split.
  - intros idx_list. apply (getStoredTLEByIdx_map fs path lines idx_list false Hfs).
  - intros idxs Hall.
    destruct (mapM_total (record_dict split3LELineIntoFields lines)
                (fun k t => exists r0 r1 r2 (d : gmap Z ElementsLineDict),
                     split_line split3LELineIntoFields lines (k * 3 + 0) = Ok r0
                     /\ split_line split3LELineIntoFields lines (k * 3 + 1) = Ok r1
                     /\ split_line split3LELineIntoFields lines (k * 3 + 2) = Ok r2
                     /\ t = TleDict d
                     /\ d !! 0 = Some r0 /\ d !! 1 = Some r1 /\ d !! 2 = Some r2
                     /\ (forall j, d !! j <> None -> j = 0 \/ j = 1 \/ j = 2)) idxs)
      as (tles & Htles & Hall2).
    { eapply Forall_impl; [exact Hall|]. intros k (r0 & r1 & r2 & H0 & H1 & H2).
      exists (TleDict {[ 0 := r0; 1 := r1; 2 := r2 ]}). split.
      - unfold record_dict. rewrite (record_lines_Ok lines k r0 r1 r2 H0 H1 H2). reflexivity.
      - exists r0, r1, r2, {[ 0 := r0; 1 := r1; 2 := r2 ]}.
        repeat (split; [first [assumption | reflexivity]|]).
        intros j Hj.
        destruct (decide (j = 0)) as [|N0]; [auto|].
        destruct (decide (j = 1)) as [|N1]; [auto|].
        destruct (decide (j = 2)) as [|N2]; [auto|].
        exfalso. apply Hj.
        rewrite !lookup_insert_ne by congruence. apply lookup_singleton_ne. congruence. }
    exists tles. rewrite (getStoredTLEByIdx_map fs path lines (IdxList idxs) false Hfs).
    cbn beta iota.
    rewrite Htles. split; [reflexivity|]. split; [|exact Hall2].
    symmetry. eapply Forall2_length, Hall2.
Qed.

End readers_facts.

(** A name of 256 characters in a directory whose names have at most 255:
    no such file, and no [None]. *)
Lemma readers_none_iff_absent_witness :
  path_exists empty_dir_fs long_name = Raise OSError
  /\ getStoredEpochs () sample_split empty_dir_fs long_name = Raise OSError
  /\ getAllStoredEpochs () sample_split empty_dir_fs long_name = Raise OSError
  /\ getStoredTLEByIdx sample_split empty_dir_fs long_name (IdxInt 0) true = Raise OSError.
Proof.
  assert (Hfs : empty_dir_fs long_name = Unreachable) by (vm_compute; reflexivity).
  exact (proj2 (proj2 (proj2 (readers_none_iff_absent () sample_split empty_dir_fs long_name
                                (IdxInt 0) true))) Hfs).
Defined.

(** The sample file of two records: the first epoch is the later one, and
    the pair comes back in file order. *)
Lemma getStoredEpochs_spec_witness :
  getStoredEpochs () sample_split sample_fs "tle/25544.tle"
  = Ok (Some (dt.mk 2021 1 2 12 0 0 0 (Some ()), dt.mk 2021 1 1 0 0 0 0 (Some ()))).
Proof.
  apply (proj2 (getStoredEpochs_spec () sample_split sample_fs "tle/25544.tle" sample_lines
                  (dt.mk 2021 1 2 12 0 0 0 (Some ())) (dt.mk 2021 1 1 0 0 0 0 (Some ()))
                  eq_refl)).
  - reflexivity.
  - vm_compute. reflexivity.
  - vm_compute. reflexivity.
Defined.

Lemma getStoredTLEByIdx_string_only_witness :
  getStoredTLEByIdx sample_split three_lines_fs "three.tle" (IdxInt 0) true
  = Ok (Some [TleStr ("L0" +:+ nl +:+ "L1" +:+ nl +:+ "L2" +:+ nl)]).
Proof.
  apply (proj2 (proj2 (proj2
           (getStoredTLEByIdx_string_only sample_split three_lines_fs "three.tle" three_lines
              eq_refl)))
           [] {| fields := ["L0"]; line_str := "L0" +:+ nl |}
              {| fields := ["L1"]; line_str := "L1" +:+ nl |}
              {| fields := ["L2"]; line_str := "L2" +:+ nl |});
    reflexivity.
Defined.

(** With [string_only=False], the value at key 0 of the record read from
    the three-line file is the dict with the keys [fields] and [line_str],
    not the list of the fields. *)
Lemma getStoredTLEByIdx_value_not_field_sequence :
  exists t,
    getStoredTLEByIdx sample_split three_lines_fs "three.tle" (IdxInt 0) false = Ok (Some [t])
    /\ sample_split ("L0" +:+ nl) = Ok {| fields := ["L0"]; line_str := "L0" +:+ nl |}
    /\ dict_get (obj_of_tle_data t) 0
       = Some (PDict [(PStr "fields", PList [PStr "L0"]);
                      (PStr "line_str", PStr ("L0" +:+ nl))])
    /\ dict_get (obj_of_tle_data t) 0
       <> Some (field_sequence {| fields := ["L0"]; line_str := "L0" +:+ nl |}).
Proof.
  eexists. split; [vm_compute; reflexivity|].
  split; [reflexivity|]. split; [vm_compute; reflexivity|].
  vm_compute. discriminate.
Qed.

Lemma getStoredTLEByIdx_dicts_witness :
  exists tles,
    getStoredTLEByIdx sample_split sample_fs "tle/25544.tle" (IdxList [1; 0]) false
    = Ok (Some tles)
    /\ length tles = 2%nat.
Proof.
  destruct (proj2 (getStoredTLEByIdx_dicts sample_split sample_fs "tle/25544.tle" sample_lines
                     eq_refl) [1; 0]) as (tles & Htles & Hlen & _).
  - repeat constructor; eexists _, _, _; repeat split; reflexivity.
  - exists tles. split; [exact Htles|exact Hlen].
Defined.

(** ** The order of dates *)

Lemma days_before_year_mono y1 y2 :
  y1 <= y2 -> dt.days_before_year y1 <= dt.days_before_year y2.
Proof. intros Hy. unfold dt.days_before_year. div_lia. Qed.

Lemma days_before_year_step y :
  dt.days_before_year (y + 1) = dt.days_before_year y + 365 + (if dt.is_leap y then 1 else 0).
Proof.
  unfold dt.days_before_year, dt.is_leap.
  repeat match goal with |- context [?x =? ?y] => destruct (Z.eqb_spec x y) end;
    simpl; div_lia.
Qed.

(** The day of the year of a date is within the year *)
Lemma year_day_range y m d :
  1 <= m <= 12 -> 1 <= d <= dt.days_in_month y m ->
  1 <= dt.days_before_month y m + d <= 365 + (if dt.is_leap y then 1 else 0).
Proof.
  intros Hm. unfold dt.days_before_month, dt.days_in_month.
  destruct (month_cases m Hm) as
    [->|[->|[->|[->|[->|[->|[->|[->|[->|[->|[->| ->]]]]]]]]]]];
    destruct (dt.is_leap y); month_tables; lia.
Qed.

Lemma days_before_month_next y m :
  1 <= m <= 11 ->
  dt.days_before_month y (m + 1) = dt.days_before_month y m + dt.days_in_month y m.
Proof.
  intros Hm. unfold dt.days_before_month, dt.days_in_month.
  assert (Hc : m = 1 \/ m = 2 \/ m = 3 \/ m = 4 \/ m = 5 \/ m = 6 \/
               m = 7 \/ m = 8 \/ m = 9 \/ m = 10 \/ m = 11) by lia.
  destruct Hc as [->|[->|[->|[->|[->|[->|[->|[->|[->|[->| ->]]]]]]]]]];
    destruct (dt.is_leap y); month_tables; lia.
Qed.

Lemma days_before_month_mono y m1 m2 :
  1 <= m1 -> m1 <= m2 -> m2 <= 12 ->
  dt.days_before_month y m1 <= dt.days_before_month y m2.
Proof.
  intros H1 Hle H2.
  replace m2 with (m1 + Z.of_nat (Z.to_nat (m2 - m1))) in * by lia.
  induction (Z.to_nat (m2 - m1)) as [|k IH].
  - replace (m1 + Z.of_nat 0) with m1 by lia. lia.
  - replace (m1 + Z.of_nat (S k)) with (m1 + Z.of_nat k + 1) in * by lia.
    rewrite days_before_month_next by lia.
    pose proof (days_in_month_range y (m1 + Z.of_nat k) ltac:(lia)).
    specialize (IH ltac:(lia) ltac:(lia)). lia.
Qed.

Lemma ymd2ord_compare y1 m1 d1 y2 m2 d2 :
  1 <= m1 <= 12 -> 1 <= d1 <= dt.days_in_month y1 m1 ->
  1 <= m2 <= 12 -> 1 <= d2 <= dt.days_in_month y2 m2 ->
  dt.lex_compare [y1; m1; d1] [y2; m2; d2] = (dt.ymd2ord y1 m1 d1 ?= dt.ymd2ord y2 m2 d2).
Proof.
  intros Hm1 Hd1 Hm2 Hd2. unfold dt.ymd2ord. cbn [dt.lex_compare].
  pose proof (year_day_range y1 m1 d1 Hm1 Hd1) as Hr1.
  pose proof (year_day_range y2 m2 d2 Hm2 Hd2) as Hr2.
  symmetry.
  destruct (Z.compare_spec y1 y2) as [->|Hy|Hy].
  - destruct (Z.compare_spec m1 m2) as [->|Hm|Hm].
    + destruct (Z.compare_spec d1 d2) as [->|Hd|Hd].
      * apply Z.compare_refl.
      * apply Z.compare_lt_iff. lia.
      * apply Z.compare_gt_iff. lia.
    + apply Z.compare_lt_iff.
      pose proof (days_before_month_mono y2 (m1 + 1) m2 ltac:(lia) ltac:(lia) ltac:(lia)).
      rewrite days_before_month_next in * by lia. lia.
    + apply Z.compare_gt_iff.
      pose proof (days_before_month_mono y2 (m2 + 1) m1 ltac:(lia) ltac:(lia) ltac:(lia)).
      rewrite days_before_month_next in * by lia. lia.
  - apply Z.compare_lt_iff.
    pose proof (days_before_year_mono (y1 + 1) y2 ltac:(lia)).
    rewrite days_before_year_step in *. lia.
  - apply Z.compare_gt_iff.
    pose proof (days_before_year_mono (y2 + 1) y1 ltac:(lia)).
    rewrite days_before_year_step in *. lia.
Qed.

(** A valid date is the date of its ordinal *)
Lemma ord2ymd_ymd2ord y m d :
  1 <= y -> 1 <= m <= 12 -> 1 <= d <= dt.days_in_month y m ->
  dt.ord2ymd (dt.ymd2ord y m d) = (y, m, d).
Proof.
  intros Hy Hm Hd.
  destruct (dt.ord2ymd (dt.ymd2ord y m d)) as [[y' m'] d'] eqn:Hymd.
  assert (Hord : 1 <= dt.ymd2ord y m d).
  { unfold dt.ymd2ord. pose proof (year_day_range y m d Hm Hd).
    pose proof (days_before_year_mono 1 y Hy). change (dt.days_before_year 1) with 0 in *. lia. }
  apply ord2ymd_spec in Hymd as (Heq & Hm' & Hd' & _); [|exact Hord].
  pose proof (ymd2ord_compare y' m' d' y m d Hm' Hd' Hm Hd) as Hc.
  rewrite Heq, Z.compare_refl in Hc. cbn [dt.lex_compare] in Hc.
  destruct (Z.compare_spec y' y) as [->|?|?]; try discriminate.
  destruct (Z.compare_spec m' m) as [->|?|?]; try discriminate.
  destruct (Z.compare_spec d' d) as [->|?|?]; try discriminate.
  reflexivity.
Qed.

Section order_facts.
Context {TZ : Type} `{EqDecision TZ}.
Variable tz_utcoffset : TZ -> dt.datetime TZ -> option dt.timedelta.
Implicit Types a b : dt.datetime TZ.

Lemma lex_compare_instant a b :
  dt.wf a = true -> dt.wf b = true ->
  dt.lex_compare (dt.fields a) (dt.fields b) = (instant a ?= instant b).
Proof.
  intros Ha Hb.
  apply wf_spec in Ha as [(_ & Hma & Hda) (Hha & Hmia & Hsa & Husa)].
  apply wf_spec in Hb as [(_ & Hmb & Hdb) (Hhb & Hmib & Hsb & Husb)].
  pose proof (ymd2ord_compare (dt.year a) (dt.month a) (dt.day a)
                (dt.year b) (dt.month b) (dt.day b) Hma Hda Hmb Hdb) as Hc.
  unfold instant, dt.toordinal, dt.fields. cbn [dt.lex_compare] in *.
  symmetry.
  destruct (Z.compare_spec (dt.year a) (dt.year b)) as [Hy|Hy|Hy];
    [destruct (Z.compare_spec (dt.month a) (dt.month b)) as [Hm|Hm|Hm];
     [destruct (Z.compare_spec (dt.day a) (dt.day b)) as [Hd|Hd|Hd]| |]| |].
  - symmetry in Hc. rewrite Z.compare_eq_iff in Hc.
    destruct (Z.compare_spec (dt.hour a) (dt.hour b)) as [Hh|Hh|Hh];
      [destruct (Z.compare_spec (dt.minute a) (dt.minute b)) as [Hmi|Hmi|Hmi];
       [destruct (Z.compare_spec (dt.second a) (dt.second b)) as [Hs|Hs|Hs];
        [destruct (Z.compare_spec (dt.microsecond a) (dt.microsecond b)) as [Hus|Hus|Hus]
        | |]| |]| |];
      first [apply Z.compare_eq_iff | apply Z.compare_lt_iff | apply Z.compare_gt_iff]; lia.
  - symmetry in Hc. rewrite Z.compare_lt_iff in Hc. apply Z.compare_lt_iff. lia.
  - symmetry in Hc. rewrite Z.compare_gt_iff in Hc. apply Z.compare_gt_iff. lia.
  - symmetry in Hc. rewrite Z.compare_lt_iff in Hc. apply Z.compare_lt_iff. lia.
  - symmetry in Hc. rewrite Z.compare_gt_iff in Hc. apply Z.compare_gt_iff. lia.
  - symmetry in Hc. rewrite Z.compare_lt_iff in Hc. apply Z.compare_lt_iff. lia.
  - symmetry in Hc. rewrite Z.compare_gt_iff in Hc. apply Z.compare_gt_iff. lia.
Qed.

End order_facts.

(** ** epochEarlierThan and epochLaterThan *)

Lemma lex_compare_Eq xs ys : dt.lex_compare xs ys = Eq -> xs = ys.
Proof.
  revert ys. induction xs as [|x xs IH]; intros [|y ys]; simpl; try discriminate.
  - reflexivity.
  - destruct (Z.compare_spec x y) as [->|?|?]; try discriminate.
    intros H. f_equal. apply IH, H.
Qed.

Section epoch_order_facts.
Context {TZ : Type} `{EqDecision TZ}.
Variable utc : TZ.
Variable tz_utcoffset : TZ -> dt.datetime TZ -> option dt.timedelta.

(** What [epoch2datetime] returns is a datetime within its ranges, and
    carries [utc]. *)
Lemma epoch2datetime_Ok_wf v d :
  epoch2datetime utc v = Ok d -> dt.wf d = true /\ dt.tzinfo d = Some utc.
Proof.
  intros Hd.
  destruct (str v) as [s|e] eqn:Hs.
  2:{ rewrite (epoch2datetime_str_error utc v e Hs) in Hd. discriminate. }
  destruct (int_of_str (str_upto 2 s)) as [y|e] eqn:Hy.
  2:{ rewrite (epoch2datetime_int_error utc v s e Hs Hy) in Hd. discriminate. }
  destruct (float_of_str (str_from 2 s)) as [f|e] eqn:Hf.
  2:{ rewrite (epoch2datetime_float_error utc v s e Hs Hf) in Hd. discriminate. }
  rewrite (epoch2datetime_parsed utc v s y f Hs Hy Hf) in Hd.
  destruct (dt.timedelta_of_float_days f) as [delta|e] eqn:Hdelta; [|discriminate].
  cbn [bind] in Hd.
  pose proof (timedelta_of_float_days_Ok f delta Hdelta) as Hnorm.
  rewrite (epoch2datetime_arith utc y delta (year_segment_range _ _ Hy) Hnorm) in Hd.
  destruct (_ && _) eqn:Hrange in Hd; [|discriminate].
  injection Hd as <-.
  apply andb_true_iff in Hrange as [H1 H2]. apply Z.leb_le in H1, H2.
  destruct (shifted_datetime_wf utc y delta Hnorm (conj H1 H2)) as (Hwf & _ & _ & _ & Htz).
  split; assumption.
Qed.

Lemma instant_inj (a b : dt.datetime TZ) :
  dt.wf a = true -> dt.wf b = true -> dt.tzinfo a = dt.tzinfo b ->
  instant a = instant b -> a = b.
Proof.
  intros Ha Hb Htz Hi.
  pose proof (lex_compare_instant a b Ha Hb) as Hc.
  rewrite Hi, Z.compare_refl in Hc. apply lex_compare_Eq in Hc.
  destruct a, b. unfold dt.fields in Hc. simpl in *. congruence.
Qed.

(** Two results of [epoch2datetime] compare by their instants; the
    offsets are never asked for. *)
Lemma epoch_cmp a b da db :
  epoch2datetime utc a = Ok da -> epoch2datetime utc b = Ok db ->
  dt.cmp tz_utcoffset da db = Ok (instant da ?= instant db).
Proof.
  intros Ha Hb.
  apply epoch2datetime_Ok_wf in Ha as [Hwa Hta].
  apply epoch2datetime_Ok_wf in Hb as [Hwb Htb].
  unfold dt.cmp. rewrite decide_True by congruence.
  rewrite (lex_compare_instant da db Hwa Hwb). reflexivity.
Qed.

Lemma compare_ltb x y : match x ?= y with Lt => true | _ => false end = (x <? y).
Proof. unfold Z.ltb. destruct (x ?= y); reflexivity. Qed.

Lemma compare_gtb x y : match x ?= y with Gt => true | _ => false end = (y <? x).
Proof. rewrite (Z.compare_antisym y x). unfold Z.ltb. destruct (y ?= x); reflexivity. Qed.

Lemma epochEarlierThan_instant a b :
  epochEarlierThan utc tz_utcoffset a b =
    (let* da := epoch2datetime utc a in
     let* db := epoch2datetime utc b in
     Ok (instant da <? instant db)).
Proof.
  unfold epochEarlierThan.
  destruct (epoch2datetime utc a) as [da|e] eqn:Ha; cbn [bind]; [|reflexivity].
  destruct (epoch2datetime utc b) as [db|e] eqn:Hb; cbn [bind]; [|reflexivity].
  unfold dt.lt. rewrite (epoch_cmp a b da db Ha Hb). cbn [bind].
  rewrite compare_ltb. reflexivity.
Qed.

Lemma epochLaterThan_instant a b :
  epochLaterThan utc tz_utcoffset a b =
    (let* da := epoch2datetime utc a in
     let* db := epoch2datetime utc b in
     Ok (instant db <? instant da)).
Proof.
  unfold epochLaterThan.
  destruct (epoch2datetime utc a) as [da|e] eqn:Ha; cbn [bind]; [|reflexivity].
  destruct (epoch2datetime utc b) as [db|e] eqn:Hb; cbn [bind]; [|reflexivity].
  unfold dt.gt. rewrite (epoch_cmp a b da db Ha Hb). cbn [bind].
  rewrite compare_gtb. reflexivity.
Qed.

(** X1: [epochEarlierThan] and [epochLaterThan] convert [epoch_a], then
    [epoch_b], and pass on the first exception of the two conversions; when
    both convert, the answer is the strict order of the two instants
    (microseconds counted from the calendar fields), and the comparison
    itself never raises: both datetimes carry the one [utc] object. *)
Theorem epoch_comparisons_by_instant (a b : value) :
  epochEarlierThan utc tz_utcoffset a b =
    (let* da := epoch2datetime utc a in
     let* db := epoch2datetime utc b in
     Ok (instant da <? instant db))
  /\ epochLaterThan utc tz_utcoffset a b =
       (let* da := epoch2datetime utc a in
        let* db := epoch2datetime utc b in
        Ok (instant db <? instant da)).
Proof. split; [apply epochEarlierThan_instant|apply epochLaterThan_instant]. Qed.

(** X2: for two epochs that convert, [epochEarlierThan a b] is
    [epochLaterThan b a]; at most one of "a earlier than b" and "a later
    than b" holds, and when neither does the two epochs are one and the
    same datetime. *)
Theorem epoch_comparisons_trichotomy (a b : value) (da db : dt.datetime TZ) :
  epoch2datetime utc a = Ok da -> epoch2datetime utc b = Ok db ->
  epochEarlierThan utc tz_utcoffset a b = epochLaterThan utc tz_utcoffset b a
  /\ (epochEarlierThan utc tz_utcoffset a b = Ok true ->
      epochLaterThan utc tz_utcoffset a b = Ok false)
  /\ (epochLaterThan utc tz_utcoffset a b = Ok true ->
      epochEarlierThan utc tz_utcoffset a b = Ok false)
  /\ (epochEarlierThan utc tz_utcoffset a b = Ok false ->
      epochLaterThan utc tz_utcoffset a b = Ok false -> da = db).
Proof.
  intros Ha Hb.
  rewrite !epochEarlierThan_instant, !epochLaterThan_instant, Ha, Hb. cbn [bind].
  split; [reflexivity|]. split; [|split].
  - intros [= H]. f_equal. apply Z.ltb_lt in H. apply Z.ltb_ge. lia.
  - intros [= H]. f_equal. apply Z.ltb_lt in H. apply Z.ltb_ge. lia.
  - intros [= H1] [= H2]. apply Z.ltb_ge in H1, H2.
    pose proof (epoch2datetime_Ok_wf a da Ha) as [Hwa Hta].
    pose proof (epoch2datetime_Ok_wf b db Hb) as [Hwb Htb].
    apply instant_inj; [assumption|assumption|congruence|lia].
Qed.

(** X3: on epochs that convert, [epochEarlierThan] is a strict order: no
    epoch is earlier than itself, and "earlier" is transitive. *)
Theorem epochEarlierThan_strict_order (a b c : value) (da db dc : dt.datetime TZ) :
  epoch2datetime utc a = Ok da -> epoch2datetime utc b = Ok db ->
  epoch2datetime utc c = Ok dc ->
  epochEarlierThan utc tz_utcoffset a a = Ok false
  /\ (epochEarlierThan utc tz_utcoffset a b = Ok true ->
      epochEarlierThan utc tz_utcoffset b c = Ok true ->
      epochEarlierThan utc tz_utcoffset a c = Ok true).
Proof.
  intros Ha Hb Hc.
  rewrite !epochEarlierThan_instant, Ha, Hb, Hc. cbn [bind]. split.
  - rewrite Z.ltb_irrefl. reflexivity.
  - intros [= H1] [= H2]. f_equal. apply Z.ltb_lt in H1, H2. apply Z.ltb_lt. lia.
Qed.

End epoch_order_facts.


Lemma epoch_comparisons_trichotomy_witness :
  epochEarlierThan () no_offset (VStr "99365.5") (VStr "00001.25")
  = epochLaterThan () no_offset (VStr "00001.25") (VStr "99365.5").
Proof.
  assert (Ha : epoch2datetime () (VStr "99365.5") = Ok (dt.mk 1999 12 31 12 0 0 0 (Some ())))
    by (vm_compute; reflexivity).
  assert (Hb : epoch2datetime () (VStr "00001.25") = Ok (dt.mk 2000 1 1 6 0 0 0 (Some ())))
    by (vm_compute; reflexivity).
  exact (proj1 (epoch_comparisons_trichotomy () no_offset _ _ _ _ Ha Hb)).
Defined.

Lemma epochEarlierThan_strict_order_witness :
  epochEarlierThan () no_offset (VStr "21001.0") (VStr "21001.0") = Ok false.
Proof.
  assert (Ha : epoch2datetime () (VStr "21001.0") = Ok (dt.mk 2021 1 1 0 0 0 0 (Some ())))
    by (vm_compute; reflexivity).
  assert (Hb : epoch2datetime () (VStr "21002.5") = Ok (dt.mk 2021 1 2 12 0 0 0 (Some ())))
    by (vm_compute; reflexivity).
  assert (Hc : epoch2datetime () (VInt 22001) = Ok (dt.mk 2022 1 1 0 0 0 0 (Some ())))
    by (vm_compute; reflexivity).
  exact (proj1 (epochEarlierThan_strict_order () no_offset _ _ _ _ _ _ Ha Hb Hc)).
Defined.

(** ** getAllStoredEpochs *)

Lemma range_1_3 (n : Z) :
  range 1 n 3 = (fun k => 1 + 3 * k) <$> seqZ 0 ((n + 1) / 3).
Proof. unfold range. replace (n - 1 + 3 - 1) with (n + 1) by lia. reflexivity. Qed.

Section all_epochs_facts.
Context {TZ : Type}.
Variable utc : TZ.
Variable split3LELineIntoFields : string -> result ElementsLineDict.

Lemma epochs_loop (lines : list string) iis acc :
  for_ iis
    (fun tle_epochs_dt ii =>
       let* line := getitem lines ii in
       let* tle_line := split3LELineIntoFields line in
       let* epoch := getitem (fields tle_line) 3 in
       let* epoch_dt := epoch2datetime utc (VStr epoch) in
       Ok (tle_epochs_dt ++ [epoch_dt]))
    acc =
  for_ iis
    (fun tle_epochs_dt ii =>
       let* epoch_dt := line_epoch utc split3LELineIntoFields lines ii in
       Ok (tle_epochs_dt ++ [epoch_dt]))
    acc.
Proof.
  revert acc. induction iis as [|ii iis IH]; intros acc; simpl; [reflexivity|].
  unfold line_epoch, split_line.
  destruct (getitem lines ii) as [l|]; cbn [bind]; [|reflexivity].
  destruct (split3LELineIntoFields l) as [r|]; cbn [bind]; [|reflexivity].
  destruct (getitem (fields r) 3) as [e|]; cbn [bind]; [|reflexivity].
  destruct (epoch2datetime utc (VStr e)) as [d|]; cbn [bind]; [|reflexivity].
  apply IH.
Qed.

Lemma getAllStoredEpochs_map fs path lines :
  fs path = Present (Ok lines) ->
  getAllStoredEpochs utc split3LELineIntoFields fs path =
    (let* es :=
       mapM (line_epoch utc split3LELineIntoFields lines)
         ((fun k => 1 + 3 * k) <$> seqZ 0 ((Z.of_nat (length lines) + 1) / 3)) in
     Ok (Some es)).
Proof.
  intros Hfs. unfold getAllStoredEpochs, path_exists, readlines.
  rewrite Hfs. cbn [negb bind]. rewrite range_1_3.
  etransitivity;
    [apply (f_equal (fun r => let* es := r in Ok (Some es)) (epochs_loop lines _ []))|].
  rewrite for_append. destruct (mapM _ _); reflexivity.
Qed.

(** X4: on an existing file of [n] lines, [getAllStoredEpochs] returns the
    list [es] exactly when [es] has one entry for each of the lines 1, 4,
    7, ... below [n] (there are [(n + 1) / 3] of them) and its [i]-th entry
    is the epoch converted from field 3 of the split of line [3 i + 1]: the
    epochs come in file order, and a last record cut after its second line
    still counts. *)
Theorem getAllStoredEpochs_spec fs path lines (es : list (dt.datetime TZ)) :
  fs path = Present (Ok lines) ->
  getAllStoredEpochs utc split3LELineIntoFields fs path = Ok (Some es)
  <-> (Z.of_nat (length es) = (Z.of_nat (length lines) + 1) / 3
       /\ forall (i : nat) d, es !! i = Some d ->
            line_epoch utc split3LELineIntoFields lines (3 * Z.of_nat i + 1) = Ok d).
Proof.
  intros Hfs. rewrite (getAllStoredEpochs_map fs path lines Hfs).
  set (m := (Z.of_nat (length lines) + 1) / 3).
  assert (Hm : 0 <= m) by (subst m; apply Z.div_pos; lia).
  split.
  - intros Hres. apply bind_Ok in Hres as (es' & Hes & [= <-]).
    apply mapM_Ok in Hes. split.
    + apply Forall2_length in Hes. rewrite length_fmap, length_seqZ in Hes. lia.
    + intros i d Hi.
      destruct (Forall2_lookup_r _ _ _ _ _ Hes Hi) as (k & Hk & Hline).
      rewrite list_lookup_fmap in Hk.
      destruct (seqZ 0 m !! i) as [k'|] eqn:Hk'; [|discriminate].
      injection Hk as <-. apply lookup_seqZ in Hk' as [-> _].
      replace (3 * Z.of_nat i + 1) with (1 + 3 * (0 + Z.of_nat i)) by lia. exact Hline.
  - intros [Hlen Hall].
    assert (Hes : mapM (line_epoch utc split3LELineIntoFields lines)
                    ((fun k => 1 + 3 * k) <$> seqZ 0 m) = Ok es).
    { apply mapM_Ok. apply Forall2_same_length_lookup. split.
      - rewrite length_fmap, length_seqZ. lia.
      - intros i k d Hk Hd. rewrite list_lookup_fmap in Hk.
        destruct (seqZ 0 m !! i) as [k'|] eqn:Hk'; [|discriminate].
        injection Hk as <-. apply lookup_seqZ in Hk' as [-> _].
        replace (1 + 3 * (0 + Z.of_nat i)) with (3 * Z.of_nat i + 1) by lia.
        apply Hall, Hd. }
    rewrite Hes. reflexivity.
Qed.

(** X5: an existing file with no line, or with one line, has no epoch line:
    [getAllStoredEpochs] returns the empty list, while [getStoredEpochs]
    raises [IndexError], before the splitter is called. *)
Theorem stored_epochs_short_file fs path lines :
  fs path = Present (Ok lines) -> (length lines <= 1)%nat ->
  getAllStoredEpochs utc split3LELineIntoFields fs path = Ok (Some [])
  /\ getStoredEpochs utc split3LELineIntoFields fs path = Raise IndexError.
Proof.
  intros Hfs Hlen. split.
  - rewrite (getAllStoredEpochs_map fs path lines Hfs).
    replace ((Z.of_nat (length lines) + 1) / 3) with 0; [reflexivity|].
    symmetry. apply Z.div_small. lia.
  - unfold getStoredEpochs, path_exists, readlines. rewrite Hfs. cbn [negb bind].
    destruct lines as [|l [|l' lines]]; [reflexivity|reflexivity|simpl in Hlen; lia].
Qed.

(** X6: on a file of whole records ([3 m] lines, [m >= 1]) for which
    [getAllStoredEpochs] returns, [getStoredEpochs] returns too, and its
    pair is the first and the last entry of that list. *)
Theorem getStoredEpochs_first_last fs path lines (m : nat) (es : list (dt.datetime TZ)) :
  fs path = Present (Ok lines) -> length lines = (3 * m)%nat -> (1 <= m)%nat ->
  getAllStoredEpochs utc split3LELineIntoFields fs path = Ok (Some es) ->
  exists d1 d2,
    head es = Some d1 /\ last es = Some d2
    /\ getStoredEpochs utc split3LELineIntoFields fs path = Ok (Some (d1, d2)).
Proof.
  intros Hfs Hlen Hm Hall.
  rewrite (getAllStoredEpochs_map fs path lines Hfs) in Hall.
  apply bind_Ok in Hall as (es' & Hes & [= <-]).
  replace ((Z.of_nat (length lines) + 1) / 3) with (Z.of_nat m) in Hes
    by (rewrite Hlen; apply (Z.div_unique _ _ _ 1); lia).
  apply mapM_Ok in Hes.
  assert (Hlen' : length es' = m).
  { apply Forall2_length in Hes. rewrite length_fmap, length_seqZ in Hes. lia. }
  assert (Hat : forall i : nat, (i < m)%nat ->
            exists d, es' !! i = Some d
                      /\ line_epoch utc split3LELineIntoFields lines (1 + 3 * Z.of_nat i) = Ok d).
  { intros i Hi.
    assert (Hk : ((fun k => 1 + 3 * k) <$> seqZ 0 (Z.of_nat m)) !! i
                 = Some (1 + 3 * Z.of_nat i)).
    { rewrite list_lookup_fmap.
      rewrite (proj2 (lookup_seqZ 0 (Z.of_nat m) i (0 + Z.of_nat i))) by (split; lia).
      reflexivity. }
    destruct (Forall2_lookup_l _ _ _ _ _ Hes Hk) as (d & Hd & Hline). eauto. }
  destruct (Hat 0%nat ltac:(lia)) as (d1 & Hd1 & He1).
  destruct (Hat (m - 1)%nat ltac:(lia)) as (d2 & Hd2 & He2).
  exists d1, d2. split; [|split].
  - rewrite head_lookup. exact Hd1.
  - rewrite last_lookup, Hlen'. replace (Nat.pred m) with (m - 1)%nat by lia. exact Hd2.
  - apply (getStoredEpochs_lines utc split3LELineIntoFields fs path lines d1 d2 Hfs).
    + exact He1.
    + unfold line_epoch, split_line in *.
      destruct (getitem_from_end lines (Z.of_nat (3 * m)) 2) as [Heq|?];
        [rewrite Hlen; reflexivity|lia| |lia].
      change (- (2)) with (-2) in Heq. rewrite Heq.
      replace (Z.of_nat (3 * m) - 2) with (1 + 3 * Z.of_nat (m - 1)) by lia. exact He2.
Qed.

End all_epochs_facts.

Lemma getAllStoredEpochs_spec_witness :
  getAllStoredEpochs () sample_split sample_fs "tle/25544.tle"
  = Ok (Some [dt.mk 2021 1 2 12 0 0 0 (Some ()); dt.mk 2021 1 1 0 0 0 0 (Some ())]).
Proof.
  assert (Hfs : sample_fs "tle/25544.tle" = Present (Ok sample_lines)) by reflexivity.
  apply (proj2 (getAllStoredEpochs_spec () sample_split sample_fs "tle/25544.tle" sample_lines
                  _ Hfs)).
  split; [reflexivity|].
  intros [|[|i]] d Hd; try discriminate Hd; injection Hd as <-; vm_compute; reflexivity.
Defined.

Lemma stored_epochs_short_file_witness :
  getAllStoredEpochs () sample_split (fun _ => Present (Ok ["ISS (ZARYA)" +:+ nl])) "one.tle"
  = Ok (Some [])
  /\ getStoredEpochs () sample_split (fun _ => Present (Ok ["ISS (ZARYA)" +:+ nl])) "one.tle"
     = Raise IndexError.
Proof.
  exact (stored_epochs_short_file () sample_split
           (fun _ => Present (Ok ["ISS (ZARYA)" +:+ nl])) "one.tle" ["ISS (ZARYA)" +:+ nl]
           eq_refl (le_n 1)).
Defined.

Lemma getStoredEpochs_first_last_witness :
  exists d1 d2,
    head [dt.mk 2021 1 2 12 0 0 0 (Some ()); dt.mk 2021 1 1 0 0 0 0 (Some ())] = Some d1
    /\ last [dt.mk 2021 1 2 12 0 0 0 (Some ()); dt.mk 2021 1 1 0 0 0 0 (Some ())] = Some d2
    /\ getStoredEpochs () sample_split sample_fs "tle/25544.tle" = Ok (Some (d1, d2)).
Proof.
  assert (Hall : getAllStoredEpochs () sample_split sample_fs "tle/25544.tle"
                 = Ok (Some [dt.mk 2021 1 2 12 0 0 0 (Some ()); dt.mk 2021 1 1 0 0 0 0 (Some ())]))
    by (vm_compute; reflexivity).
  exact (getStoredEpochs_first_last () sample_split sample_fs "tle/25544.tle" sample_lines 2 _
           eq_refl eq_refl (le_S 1 1 (le_n 1)) Hall).
Defined.

(** ** getStoredTLEByIdx *)

Lemma mapM_app {A B} (f : A -> result B) (xs ys : list A) :
  mapM f (xs ++ ys) =
    (let* a := mapM f xs in let* b := mapM f ys in Ok (a ++ b)).
Proof.
  induction xs as [|x xs IH]; simpl.
  - destruct (mapM f ys); reflexivity.
  - destruct (f x) as [y|]; cbn [bind]; [|reflexivity].
    rewrite IH. destruct (mapM f xs) as [a|]; cbn [bind]; [|reflexivity].
    destruct (mapM f ys); reflexivity.
Qed.

Lemma mapM_ext {A B C} (f : A -> result B) (g : C -> result B) (h : A -> C) (xs : list A) :
  Forall (fun x => f x = g (h x)) xs -> mapM f xs = mapM g (h <$> xs).
Proof.
  induction 1 as [|x xs Hx _ IH]; simpl; [reflexivity|]. rewrite Hx, IH. reflexivity.
Qed.

Lemma mapM_fmap {A B C} (f : A -> result B) (g : B -> C) (xs : list A) :
  mapM (fun x => let* y := f x in Ok (g y)) xs = (let* ys := mapM f xs in Ok (g <$> ys)).
Proof.
  induction xs as [|x xs IH]; simpl; [reflexivity|].
  destruct (f x) as [y|]; cbn [bind]; [|reflexivity].
  rewrite IH. destruct (mapM f xs); reflexivity.
Qed.

Lemma getitem_out_of_range {A} (l : list A) (i : Z) :
  i < - Z.of_nat (length l) \/ Z.of_nat (length l) <= i -> getitem l i = Raise IndexError.
Proof.
  intros Hi. unfold getitem.
  destruct (_ && _) eqn:Hin; [|reflexivity].
  apply andb_true_iff in Hin as [H1 H2]. apply Z.leb_le in H1. apply Z.ltb_lt in H2.
  destruct (Z.ltb_spec i 0); lia.
Qed.

Lemma getitem_negative {A} (l : list A) (i : Z) :
  i < 0 -> 0 <= i + Z.of_nat (length l) -> getitem l i = getitem l (i + Z.of_nat (length l)).
Proof.
  intros Hi Hn. unfold getitem.
  destruct (Z.ltb_spec i 0); [|lia].
  destruct (Z.ltb_spec (i + Z.of_nat (length l)) 0); [lia|]. reflexivity.
Qed.

Section records_facts.
Variable split3LELineIntoFields : string -> result ElementsLineDict.

Lemma record_text_of_dict lines k :
  record_text split3LELineIntoFields lines k =
    (let* t := record_dict split3LELineIntoFields lines k in Ok (tle_text t)).
Proof.
  unfold record_text, record_dict.
  destruct (record_lines split3LELineIntoFields lines k) as [[[r0 r1] r2]|]; reflexivity.
Qed.

(** X7: [getStoredTLEByIdx] with [string_only=True] returns what it returns
    with [string_only=False], each dict replaced by the [line_str] of its
    values at the keys 0, 1 and 2 joined in this order; the two calls return
    [None] together and raise the same exception together. *)
Theorem getStoredTLEByIdx_text_of_dicts fs path idx_list :
  getStoredTLEByIdx split3LELineIntoFields fs path idx_list true =
    (let* r := getStoredTLEByIdx split3LELineIntoFields fs path idx_list false in
     Ok (fmap (M:=option) (fmap (M:=list) tle_text) r)).
Proof.
  destruct (fs path) as [|[lines|e]|] eqn:Hfs.
  - unfold getStoredTLEByIdx, path_exists. rewrite Hfs. reflexivity.
  - rewrite (getStoredTLEByIdx_map split3LELineIntoFields fs path lines idx_list true Hfs).
    rewrite (getStoredTLEByIdx_map split3LELineIntoFields fs path lines idx_list false Hfs).
    cbn beta iota.
    rewrite (mapM_ext (record_text split3LELineIntoFields lines)
               (fun k => let* t := record_dict split3LELineIntoFields lines k in Ok (tle_text t))
               id) by (apply Forall_forall; intros; apply record_text_of_dict).
    rewrite list_fmap_id, mapM_fmap.
    destruct (mapM _ _); reflexivity.
  - unfold getStoredTLEByIdx, path_exists, readlines. rewrite Hfs. reflexivity.
  - unfold getStoredTLEByIdx, path_exists. rewrite Hfs. reflexivity.
Qed.

Lemma record_out_of_range lines k (string_only : bool) :
  k * 3 < - Z.of_nat (length lines) \/ Z.of_nat (length lines) <= k * 3 ->
  (if string_only then record_text split3LELineIntoFields lines
   else record_dict split3LELineIntoFields lines) k = Raise IndexError.
Proof.
  intros Hk.
  assert (Hget : getitem lines (k * 3 + 0) = Raise IndexError)
    by (apply getitem_out_of_range; lia).
  destruct string_only; unfold record_text, record_dict, record_lines, split_line;
    rewrite Hget; reflexivity.
Qed.

(** X8: a record index [k] whose first line [3 k] is not a line of the file
    (counting from the end when negative) makes the call raise
    [IndexError], whatever [string_only] is: for the single int [k], and
    for a list in which [k] comes after indices that were all read; the
    records read before it are not returned. *)
Theorem getStoredTLEByIdx_index_error fs path lines (pre post : list Z) (k : Z)
    (string_only : bool) :
  fs path = Present (Ok lines) ->
  k * 3 < - Z.of_nat (length lines) \/ Z.of_nat (length lines) <= k * 3 ->
  getStoredTLEByIdx split3LELineIntoFields fs path (IdxInt k) string_only = Raise IndexError
  /\ ((exists tles, getStoredTLEByIdx split3LELineIntoFields fs path (IdxList pre) string_only
                    = Ok (Some tles)) ->
      getStoredTLEByIdx split3LELineIntoFields fs path (IdxList (pre ++ k :: post)) string_only
      = Raise IndexError).
Proof.
  intros Hfs Hk. split.
  - rewrite (getStoredTLEByIdx_map split3LELineIntoFields fs path lines (IdxInt k) _ Hfs).
    cbn beta iota. cbn [mapM]. rewrite (record_out_of_range lines k string_only Hk).
    reflexivity.
  - intros (tles & Hpre).
    rewrite (getStoredTLEByIdx_map split3LELineIntoFields fs path lines (IdxList pre) _ Hfs)
      in Hpre.
    rewrite (getStoredTLEByIdx_map split3LELineIntoFields fs path lines
               (IdxList (pre ++ k :: post)) _ Hfs).
    cbn beta iota in *. rewrite mapM_app.
    destruct (mapM _ pre) as [a|]; [|discriminate Hpre]. cbn [bind mapM].
    rewrite (record_out_of_range lines k string_only Hk). reflexivity.
Qed.

(** X9: records are read one by one: the result for the indices
    [idxs1 ++ idxs2] is the result for [idxs1] followed by the result for
    [idxs2], and it raises the first exception of the two calls. *)
Theorem getStoredTLEByIdx_app fs path lines (idxs1 idxs2 : list Z) (string_only : bool) :
  fs path = Present (Ok lines) ->
  getStoredTLEByIdx split3LELineIntoFields fs path (IdxList (idxs1 ++ idxs2)) string_only =
    (let* r1 := getStoredTLEByIdx split3LELineIntoFields fs path (IdxList idxs1) string_only in
     let* r2 := getStoredTLEByIdx split3LELineIntoFields fs path (IdxList idxs2) string_only in
     Ok (Some (default [] r1 ++ default [] r2))).
Proof.
  intros Hfs.
  rewrite !(getStoredTLEByIdx_map split3LELineIntoFields fs path lines (IdxList _) _ Hfs).
  cbn beta iota. rewrite mapM_app.
  destruct (mapM _ idxs1) as [a|]; cbn [bind]; [|reflexivity].
  destruct (mapM _ idxs2) as [b|]; reflexivity.
Qed.

Lemma record_from_start lines (m k : Z) (string_only : bool) :
  Z.of_nat (length lines) = 3 * m -> - m <= k < m ->
  (if string_only then record_text split3LELineIntoFields lines
   else record_dict split3LELineIntoFields lines) k =
  (if string_only then record_text split3LELineIntoFields lines
   else record_dict split3LELineIntoFields lines) (from_start m k).
Proof.
  intros Hlen Hk. unfold from_start.
  destruct (Z.ltb_spec k 0) as [Hneg|Hpos]; [|reflexivity].
  assert (H0 : getitem lines (k * 3 + 0) = getitem lines ((k + m) * 3 + 0)).
  { rewrite getitem_negative by lia. f_equal. lia. }
  assert (H1 : getitem lines (k * 3 + 1) = getitem lines ((k + m) * 3 + 1)).
  { rewrite getitem_negative by lia. f_equal. lia. }
  assert (H2 : getitem lines (k * 3 + 2) = getitem lines ((k + m) * 3 + 2)).
  { rewrite getitem_negative by lia. f_equal. lia. }
  destruct string_only; unfold record_text, record_dict, record_lines, split_line;
    rewrite H0, H1, H2; reflexivity.
Qed.

(** X10: on a file of [m] whole records ([3 m] lines), a negative record
    index counts from the end: for indices between [- m] and [m - 1], the
    call returns (or raises) what it does for the same indices counted from
    the start, [k + m] for a negative [k]. *)
Theorem getStoredTLEByIdx_negative_index fs path lines (m : Z) (idxs : list Z)
    (string_only : bool) :
  fs path = Present (Ok lines) -> Z.of_nat (length lines) = 3 * m ->
  Forall (fun k => - m <= k < m) idxs ->
  getStoredTLEByIdx split3LELineIntoFields fs path (IdxList idxs) string_only =
  getStoredTLEByIdx split3LELineIntoFields fs path (IdxList (from_start m <$> idxs)) string_only.
Proof.
  intros Hfs Hlen Hall.
  rewrite !(getStoredTLEByIdx_map split3LELineIntoFields fs path lines (IdxList _) _ Hfs).
  cbn beta iota.
  rewrite (mapM_ext
             (if string_only then record_text split3LELineIntoFields lines
              else record_dict split3LELineIntoFields lines)
             (if string_only then record_text split3LELineIntoFields lines
              else record_dict split3LELineIntoFields lines)
             (from_start m) idxs); [reflexivity|].
  eapply Forall_impl; [exact Hall|]. intros k Hk.
  apply (record_from_start lines m k string_only Hlen Hk).
Qed.

End records_facts.

Lemma getStoredTLEByIdx_index_error_witness :
  getStoredTLEByIdx sample_split three_lines_fs "three.tle" (IdxInt 1) true = Raise IndexError.
Proof.
  assert (Hk : 1 * 3 < - Z.of_nat (length three_lines)
               \/ Z.of_nat (length three_lines) <= 1 * 3)
    by (right; vm_compute; intros H; discriminate H).
  exact (proj1 (getStoredTLEByIdx_index_error sample_split three_lines_fs "three.tle"
                  three_lines [] [] 1 true eq_refl Hk)).
Defined.

Lemma getStoredTLEByIdx_app_witness :
  getStoredTLEByIdx sample_split sample_fs "tle/25544.tle" (IdxList ([1] ++ [0])) true =
    (let* r1 := getStoredTLEByIdx sample_split sample_fs "tle/25544.tle" (IdxList [1]) true in
     let* r2 := getStoredTLEByIdx sample_split sample_fs "tle/25544.tle" (IdxList [0]) true in
     Ok (Some (default [] r1 ++ default [] r2))).
Proof.
  exact (getStoredTLEByIdx_app sample_split sample_fs "tle/25544.tle" sample_lines
           [1] [0] true eq_refl).
Defined.

Lemma getStoredTLEByIdx_negative_index_witness :
  getStoredTLEByIdx sample_split sample_fs "tle/25544.tle" (IdxList [-1; 0]) false =
  getStoredTLEByIdx sample_split sample_fs "tle/25544.tle" (IdxList [1; 0]) false.
Proof.
  exact (getStoredTLEByIdx_negative_index sample_split sample_fs "tle/25544.tle" sample_lines
           2 [-1; 0] false eq_refl eq_refl
           ltac:(repeat constructor; lia)).
Defined.

(** ** Reading a whole file back *)

Lemma record_texts_lookup (k : nat) : forall lines : list string,
  (3 * k + 2 < length lines)%nat ->
  exists a b c,
    lines !! (3 * k)%nat = Some a /\ lines !! (3 * k + 1)%nat = Some b
    /\ lines !! (3 * k + 2)%nat = Some c
    /\ record_texts lines !! k = Some (a +:+ b +:+ c).
Proof.
  induction k as [|k IH]; intros lines Hlen.
  - destruct lines as [|a [|b [|c rest]]]; simpl in Hlen; try lia.
    exists a, b, c. repeat split; reflexivity.
  - destruct lines as [|a [|b [|c rest]]]; simpl in Hlen; try lia.
    destruct (IH rest ltac:(lia)) as (a' & b' & c' & Ha & Hb & Hc & Ht).
    exists a', b', c'.
    replace (3 * S k)%nat with (S (S (S (3 * k)))) by lia.
    replace (S (S (S (3 * k))) + 1)%nat with (S (S (S (3 * k + 1)))) by lia.
    replace (S (S (S (3 * k))) + 2)%nat with (S (S (S (3 * k + 2)))) by lia.
    repeat split; assumption.
Qed.

Lemma record_texts_length (m : nat) : forall lines : list string,
  length lines = (3 * m)%nat -> length (record_texts lines) = m.
Proof.
  induction m as [|m IH]; intros lines Hlen.
  - destruct lines; [reflexivity|discriminate].
  - destruct lines as [|a [|b [|c rest]]]; simpl in Hlen; try lia.
    simpl. f_equal. apply IH. lia.
Qed.

Lemma string_append_assoc (a b c : string) : (a +:+ b) +:+ c = a +:+ (b +:+ c).
Proof.
  induction a as [|x a IH]; [reflexivity|].
  change (String x ((a +:+ b) +:+ c) = String x (a +:+ (b +:+ c))). rewrite IH. reflexivity.
Qed.

Lemma text_of_record_texts (m : nat) : forall lines : list string,
  length lines = (3 * m)%nat -> text_of (record_texts lines) = text_of lines.
Proof.
  induction m as [|m IH]; intros lines Hlen.
  - destruct lines; [reflexivity|discriminate].
  - destruct lines as [|a [|b [|c rest]]]; simpl in Hlen; try lia.
    unfold text_of in *. simpl. rewrite (IH rest) by lia.
    rewrite !string_append_assoc. reflexivity.
Qed.

Section whole_file_facts.
Variable split3LELineIntoFields : string -> result ElementsLineDict.

(** X11: with a splitter that keeps each line as its [line_str], a file of
    [m] whole records read at the indices [0 .. m - 1] with
    [string_only=True] gives [m] strings, the text of each record, and
    these strings joined are the text of the file: nothing is dropped,
    added or reordered. *)
Theorem getStoredTLEByIdx_whole_file fs path lines (m : nat) :
  fs path = Present (Ok lines) -> length lines = (3 * m)%nat ->
  Forall (fun l => exists r, split3LELineIntoFields l = Ok r /\ line_str r = l) lines ->
  getStoredTLEByIdx split3LELineIntoFields fs path (IdxList (seqZ 0 (Z.of_nat m))) true
  = Ok (Some (TleStr <$> record_texts lines))
  /\ length (record_texts lines) = m
  /\ text_of (record_texts lines) = text_of lines.
Proof.
  intros Hfs Hlen Hsplit.
  split; [|split; [apply record_texts_length, Hlen|apply (text_of_record_texts m), Hlen]].
  rewrite (getStoredTLEByIdx_map split3LELineIntoFields fs path lines (IdxList _) true Hfs).
  cbn beta iota.
  assert (Hall : mapM (record_text split3LELineIntoFields lines) (seqZ 0 (Z.of_nat m))
                 = Ok (TleStr <$> record_texts lines)).
  { apply mapM_Ok, Forall2_same_length_lookup. split.
    - rewrite length_seqZ, length_fmap, (record_texts_length m lines Hlen). lia.
    - intros i k t Hk Ht. apply lookup_seqZ in Hk as [-> Hi].
      destruct (record_texts_lookup i lines ltac:(lia)) as (a & b & c & Ha & Hb & Hc & Hrec).
      rewrite list_lookup_fmap, Hrec in Ht. injection Ht as <-.
      rewrite Forall_forall in Hsplit.
      destruct (Hsplit a (list_elem_of_lookup_2 _ _ _ Ha)) as (ra & Hra & Hla).
      destruct (Hsplit b (list_elem_of_lookup_2 _ _ _ Hb)) as (rb & Hrb & Hlb).
      destruct (Hsplit c (list_elem_of_lookup_2 _ _ _ Hc)) as (rc & Hrc & Hlc).
      unfold record_text, record_lines, split_line.
      replace ((0 + Z.of_nat i) * 3 + 0) with (Z.of_nat (3 * i)) by lia.
      replace ((0 + Z.of_nat i) * 3 + 1) with (Z.of_nat (3 * i + 1)) by lia.
      replace ((0 + Z.of_nat i) * 3 + 2) with (Z.of_nat (3 * i + 2)) by lia.
      rewrite (getitem_nat lines _ a Ha), (getitem_nat lines _ b Hb),
        (getitem_nat lines _ c Hc).
      cbn [bind]. rewrite Hra. cbn [bind]. rewrite Hrb. cbn [bind]. rewrite Hrc. cbn [bind].
      rewrite Hla, Hlb, Hlc. reflexivity. }
  rewrite Hall. reflexivity.
Qed.

End whole_file_facts.

Lemma getStoredTLEByIdx_whole_file_witness :
  getStoredTLEByIdx sample_split sample_fs "tle/25544.tle" (IdxList (seqZ 0 (Z.of_nat 2))) true
  = Ok (Some (TleStr <$> record_texts sample_lines))
  /\ length (record_texts sample_lines) = 2%nat
  /\ text_of (record_texts sample_lines) = text_of sample_lines.
Proof.
  assert (Hsplit : Forall (fun l => exists r, sample_split l = Ok r /\ line_str r = l)
                     sample_lines).
  { apply Forall_forall. intros l _. eexists. split; reflexivity. }
  exact (getStoredTLEByIdx_whole_file sample_split sample_fs "tle/25544.tle" sample_lines 2
           eq_refl eq_refl Hsplit).
Defined.

(** ** The tzinfo of the input plays no part *)

Section tzinfo_facts.
Context {TZ : Type} `{EqDecision TZ}.

(** X12: [datetime2sgp4epoch] reads the calendar fields of [date] only:
    the reference instant takes the tzinfo of [date], so no UTC offset is
    consulted, and the result is the same for every tzinfo (or none) put on
    the same fields, whatever the [utcoffset] methods return. *)
Theorem datetime2sgp4epoch_ignores_tzinfo
    (off off' : TZ -> dt.datetime TZ -> option dt.timedelta)
    (date : dt.datetime TZ) (tz : option TZ) :
  dt.wf date = true ->
  datetime2sgp4epoch off' (replace_tzinfo date tz) = datetime2sgp4epoch off date.
Proof.
  intros Hwf.
  assert (Hwf' : dt.wf (replace_tzinfo date tz) = true) by exact Hwf.
  destruct (datetime2sgp4epoch_value off date Hwf) as (_ & frac & Hfrac & ->).
  destruct (datetime2sgp4epoch_value off' (replace_tzinfo date tz) Hwf')
    as (_ & frac' & Hfrac' & ->).
  change (int_truediv (dt.hour date * 3600 + dt.minute date * 60 + dt.second date) 86400
          = Ok frac') in Hfrac'.
  rewrite Hfrac in Hfrac'. injection Hfrac' as <-. reflexivity.
Qed.

(** X13: [datetime2TLEepoch] never asks for a UTC offset: the midnight it
    subtracts takes the tzinfo of [date], and the difference of two
    datetimes that carry one and the same tzinfo object calls no
    [utcoffset]; so the outcome for [date] is the same whatever the
    [utcoffset] methods return, and no conversion to UTC takes place. *)
Theorem datetime2TLEepoch_ignores_utcoffset
    (off off' : TZ -> dt.datetime TZ -> option dt.timedelta) (date : dt.datetime TZ) :
  dt.wf date = true ->
  datetime2TLEepoch off' date = datetime2TLEepoch off date.
Proof.
  intros Hwf.
  destruct (datetime2TLEepoch_value off date Hwf) as (_ & secs & Hsecs & ->).
  destruct (datetime2TLEepoch_value off' date Hwf) as (_ & secs' & Hsecs' & ->).
  cbv zeta in Hsecs, Hsecs'. rewrite Hsecs in Hsecs'. injection Hsecs' as <-. reflexivity.
Qed.

End tzinfo_facts.

(** A [utcoffset] of ten hours for every tzinfo object *)
Lemma datetime2sgp4epoch_ignores_tzinfo_witness :
  datetime2sgp4epoch (fun _ _ => Some (dt.Build_timedelta 0 36000 0))
    (replace_tzinfo (dt.mk 2021 1 1 12 0 0 0 None) (Some ()))
  = datetime2sgp4epoch no_offset (dt.mk 2021 1 1 12 0 0 0 None).
Proof.
  exact (datetime2sgp4epoch_ignores_tzinfo no_offset
           (fun _ _ => Some (dt.Build_timedelta 0 36000 0))
           (dt.mk 2021 1 1 12 0 0 0 None) (Some ()) eq_refl).
Defined.

Lemma datetime2TLEepoch_ignores_utcoffset_witness :
  datetime2TLEepoch (fun _ _ => Some (dt.Build_timedelta 0 36000 0))
    (dt.mk 2021 1 1 12 0 0 0 (Some ()))
  = datetime2TLEepoch no_offset (dt.mk 2021 1 1 12 0 0 0 (Some ())).
Proof.
  exact (datetime2TLEepoch_ignores_utcoffset no_offset
           (fun _ _ => Some (dt.Build_timedelta 0 36000 0))
           (dt.mk 2021 1 1 12 0 0 0 (Some ())) eq_refl).
Defined.

(** ** From a midnight to its TLE epoch and back *)

Lemma chars_append (a b : string) : chars (a +:+ b) = chars a ++ chars b.
Proof.
  induction a as [|x a IH]; [reflexivity|].
  change (x :: chars (a +:+ b) = x :: (chars a ++ chars b)). rewrite IH. reflexivity.
Qed.

Lemma str_upto_append (a b : string) (n : nat) :
  length (chars a) = n -> str_upto n (a +:+ b) = a.
Proof.
  intros <-. unfold str_upto. rewrite chars_append, take_app_length. apply of_chars_chars.
Qed.

Lemma str_from_append (a b : string) (n : nat) :
  length (chars a) = n -> str_from n (a +:+ b) = b.
Proof.
  intros <-. unfold str_from. rewrite chars_append, drop_app_length. apply of_chars_chars.
Qed.

Lemma year_text_checked : forallb year_text_ok (seqZ 1900 300) = true.
Proof. vm_compute. reflexivity. Qed.

Lemma day_text_checked : forallb day_text_ok (seqZ 1 366) = true.
Proof. vm_compute. reflexivity. Qed.

Lemma year_text_spec y :
  1900 <= y <= 2199 ->
  length (chars (str_last 2 (str_of_int y))) = 2%nat
  /\ int_of_str (str_last 2 (str_of_int y)) = Ok (y mod 100).
Proof.
  intros Hy.
  assert (Hok : year_text_ok y = true).
  { pose proof year_text_checked as Hall. rewrite forallb_forall in Hall.
    apply Hall, list_elem_of_In, elem_of_seqZ. lia. }
  unfold year_text_ok in Hok. cbv zeta in Hok.
  apply andb_true_iff in Hok as [Hlen Hint]. apply Nat.eqb_eq in Hlen.
  split; [exact Hlen|].
  destruct (int_of_str _) as [v|]; [|discriminate]. apply Z.eqb_eq in Hint. congruence.
Qed.

Lemma day_text_spec n :
  1 <= n <= 366 ->
  exists f,
    float_of_str (zfill 3 (str_of_int n) +:+ ".0") = Ok f
    /\ dt.timedelta_of_float_days f = Ok (dt.Build_timedelta n 0 0).
Proof.
  intros Hn.
  assert (Hok : day_text_ok n = true).
  { pose proof day_text_checked as Hall. rewrite forallb_forall in Hall.
    apply Hall, list_elem_of_In, elem_of_seqZ. lia. }
  unfold day_text_ok in Hok.
  destruct (float_of_str _) as [f|]; [|discriminate]. exists f. split; [reflexivity|].
  destruct (dt.timedelta_of_float_days f) as [td|]; [|discriminate].
  apply bool_decide_eq_true in Hok. congruence.
Qed.

Lemma pivot_year_range r : 0 <= r <= 99 -> 1950 <= pivot_year r <= 2049.
Proof. intros Hr. unfold pivot_year. destruct (Z.ltb_spec r 50); lia. Qed.

Lemma pivot_year_window y : 1950 <= y <= 2049 -> pivot_year (y mod 100) = y.
Proof. intros Hy. unfold pivot_year. destruct (Z.ltb_spec (y mod 100) 50); div_lia. Qed.



Section round_trip_facts.
Context {TZ : Type} `{EqDecision TZ}.
Variable utc : TZ.
Variable tz_utcoffset : TZ -> dt.datetime TZ -> option dt.timedelta.

(** The text of a midnight, and what [epoch2datetime] makes of it *)
Lemma midnight_epoch_back (y m d : Z) (tz : option TZ) :
  dt.wf (dt.mk y m d 0 0 0 0 tz) = true -> 1900 <= y <= 2199 ->
  let n := dt.days_before_month y m + d in
  let s := str_last 2 (str_of_int y) +:+ zfill 3 (str_of_int n) +:+ ".0" in
  datetime2TLEepoch tz_utcoffset (dt.mk y m d 0 0 0 0 tz) = Ok s
  /\ epoch2datetime utc (VStr s) =
       Ok (shifted_datetime utc (y mod 100) (dt.Build_timedelta n 0 0)).
Proof.
  intros Hwf Hy n s.
  pose proof Hwf as Hfields. apply wf_spec in Hfields as [(Hy' & Hm & Hd) _].
  simpl in Hy', Hm, Hd.
  pose proof (year_day_range y m d Hm Hd) as Hn. fold n in Hn.
  assert (Hn366 : 1 <= n <= 366) by (destruct (dt.is_leap y); lia).
  destruct (year_text_spec y ltac:(lia)) as [Hlen Hint].
  destruct (day_text_spec n Hn366) as (f & Hf & Hdelta).
  split.
  - destruct (datetime2TLEepoch_value tz_utcoffset (dt.mk y m d 0 0 0 0 tz) Hwf)
      as (_ & secs & Hsecs & ->).
    vm_compute in Hsecs. injection Hsecs as <-.
    unfold dt.tm_yday. cbn [dt.year dt.month dt.day]. fold n.
    change (str_from 1 (float_repr (fdiv (S754_zero false) (dt.fint 86400)))) with ".0"%string.
    reflexivity.
  - assert (Hup : str_upto 2 s = str_last 2 (str_of_int y))
      by (apply str_upto_append, Hlen).
    assert (Hfrom : str_from 2 s = zfill 3 (str_of_int n) +:+ ".0")
      by (apply str_from_append, Hlen).
    rewrite (epoch2datetime_parsed utc (VStr s) s (y mod 100) f eq_refl);
      [|rewrite Hup; exact Hint|rewrite Hfrom; exact Hf].
    rewrite Hdelta. cbn [bind].
    rewrite epoch2datetime_arith;
      [|div_lia|unfold normalized, dt.max_delta_days; simpl; lia].
    cbv zeta. cbn [dt.days].
    pose proof (pivot_year_range (y mod 100) ltac:(div_lia)) as Hp.
    rewrite ymd2ord_jan1.
    assert (Hdby : 0 <= dt.days_before_year (pivot_year (y mod 100)) <= 3651695).
    { unfold dt.days_before_year. div_lia. }
    assert (Hrange : (2 <=? dt.days_before_year (pivot_year (y mod 100)) + 1 + n)
                     && (dt.days_before_year (pivot_year (y mod 100)) + 1 + n
                         <=? dt.MAXORDINAL) = true).
    { apply andb_true_iff. unfold dt.MAXORDINAL.
      assert (dt.days_before_year (pivot_year (y mod 100)) <= dt.days_before_year 2049)
        by (apply days_before_year_mono; lia).
      change (dt.days_before_year 2049) with 748017 in *.
      split; [apply Z.leb_le|apply Z.leb_le]; lia. }
    rewrite Hrange. reflexivity.
Qed.

(** X14: a naive midnight (no tzinfo) of the years 1950 to 2049 is written
    by [datetime2TLEepoch] as its two-digit year, its day of the year on
    three digits and [.0], and [epoch2datetime] reads this text back as the
    same date at midnight, in UTC. *)
Theorem midnight_round_trip (date : dt.datetime TZ) :
  dt.wf date = true -> dt.tzinfo date = None -> 1950 <= dt.year date <= 2049 ->
  dt.hour date = 0 -> dt.minute date = 0 -> dt.second date = 0 -> dt.microsecond date = 0 ->
  let s := str_last 2 (str_of_int (dt.year date))
           +:+ zfill 3 (str_of_int (dt.tm_yday date)) +:+ ".0" in
  datetime2TLEepoch tz_utcoffset date = Ok s
  /\ epoch2datetime utc (VStr s) = Ok (replace_tzinfo date (Some utc)).
Proof.
  destruct date as [y m d hh mi ss us tz].
  cbn [dt.year dt.hour dt.minute dt.second dt.microsecond dt.tzinfo].
  intros Hwf -> Hy -> -> -> ->. unfold dt.tm_yday. cbn [dt.year dt.month dt.day].
  destruct (midnight_epoch_back y m d None Hwf ltac:(lia)) as [Hs Hback].
  cbv zeta in *. split; [exact Hs|]. rewrite Hback.
  apply wf_spec in Hwf as [(Hy' & Hm & Hd) _]. simpl in Hy', Hm, Hd.
  unfold shifted_datetime, replace_tzinfo. cbn [dt.days dt.seconds dt.microseconds].
  rewrite (pivot_year_window y Hy), ymd2ord_jan1.
  replace (dt.days_before_year y + 1 + (dt.days_before_month y m + d) - 1)
    with (dt.ymd2ord y m d) by (unfold dt.ymd2ord; lia).
  rewrite (ord2ymd_ymd2ord y m d ltac:(lia) Hm Hd). reflexivity.
Qed.


End round_trip_facts.

Lemma midnight_round_trip_witness :
  datetime2TLEepoch no_offset (dt.mk 2024 12 31 0 0 0 0 None) = Ok "24366.0"
  /\ epoch2datetime () (VStr "24366.0") = Ok (dt.mk 2024 12 31 0 0 0 0 (Some ())).
Proof.
  exact (midnight_round_trip () no_offset (dt.mk 2024 12 31 0 0 0 0 None)
           eq_refl eq_refl ltac:(simpl; lia) eq_refl eq_refl eq_refl eq_refl).
Defined.


(** ** Distances that are zero *)

Lemma fsub_diag x : is_finite x = true -> fsub x x = S754_zero false.
Proof.
  destruct x as [s|s| |s m e]; try discriminate; intros _.
  - unfold fsub, SFsub. destruct s; reflexivity.
  - unfold fsub, SFsub. rewrite Z.sub_diag. reflexivity.
Qed.

Lemma dist_diag q : is_finite q = true -> is_zero (dist q q) = true.
Proof. intros Hq. unfold dist. rewrite (fsub_diag q Hq). reflexivity. Qed.

Lemma fle_zero_fabs z x : is_zero z = true -> not_nan x -> fle z (fabs x) = true.
Proof.
  destruct z as [sz| | |]; try discriminate. intros _ Hx.
  destruct x as [s|s| |s m e]; try discriminate Hx; reflexivity.
Qed.

Lemma fle_fabs_zero z x : is_zero z = true -> fle (fabs x) z = true -> is_zero (fabs x) = true.
Proof.
  destruct z as [sz| | |]; try discriminate. intros _.
  destruct x as [s|s| |s m e]; simpl; try discriminate; reflexivity.
Qed.

Section findClosest_more.
Context {T : Type}.
Variable timestamp : T -> result float.

(** X16: [np.vectorize] refuses an array of size 0, so an empty array on
    either side makes [findClosestDatetimeIndices] raise [ValueError]: with
    no query at once, and with no reference as soon as the timestamps of
    the queries have been taken. *)
Theorem findClosestDatetimeIndices_empty :
  (forall source_arr : list T,
      findClosestDatetimeIndices timestamp [] source_arr = Raise ValueError)
  /\ (forall (test_arr : list T) (tq : list float),
        mapM timestamp test_arr = Ok tq ->
        findClosestDatetimeIndices timestamp test_arr [] = Raise ValueError).
Proof.
  split.
  - intros source_arr. rewrite findClosest_map. reflexivity.
  - intros test_arr tq Htq. rewrite findClosest_map. unfold np.vectorize.
    destruct test_arr; [reflexivity|]. rewrite Htq. reflexivity.
Qed.

(** X17: a query whose timestamp is at distance zero of a reference
    timestamp (so, one that occurs in the reference) gets the first index
    at distance zero: the index returned is at most any index [k] of such a
    timestamp, the timestamp it points to is at distance zero, and no
    earlier one is. *)
Theorem findClosestDatetimeIndices_exact_match
    (test_arr source_arr : list T) (tq ts : list float) (idx_arr : list Z) :
  mapM timestamp test_arr = Ok tq -> mapM timestamp source_arr = Ok ts ->
  Forall (fun q => is_finite q = true) tq -> Forall (fun s => is_finite s = true) ts ->
  findClosestDatetimeIndices timestamp test_arr source_arr = Ok idx_arr ->
  forall (i k : nat) (q sk : float),
    tq !! i = Some q -> ts !! k = Some sk ->
    (sk = q \/ is_zero (dist sk q) = true) ->
    exists (j : nat) (sj : float),
      idx_arr !! i = Some (Z.of_nat j) /\ (j <= k)%nat /\ ts !! j = Some sj
      /\ is_zero (dist sj q) = true
      /\ (forall k' sk', (k' < j)%nat -> ts !! k' = Some sk' -> is_zero (dist sk' q) = false).
Proof.
  intros Htq Hts Hfq Hfs Hres i k q sk Hq Hsk Hzero.
  rewrite Forall_forall in Hfq.
  assert (Hqf : is_finite q = true) by (apply Hfq; eapply list_elem_of_lookup_2, Hq).
  assert (Hz : is_zero (dist sk q) = true).
  { destruct Hzero as [->|Hz]; [apply dist_diag, Hqf|exact Hz]. }
  assert (Hts_ne : ts <> []) by (intros ->; discriminate Hsk).
  rewrite findClosest_map in Hres. unfold np.vectorize in Hres.
  destruct test_arr as [|t0 test_arr]; [discriminate Hres|]. rewrite Htq in Hres.
  cbn [bind] in Hres.
  destruct source_arr as [|s0 source_arr]; [discriminate Hres|]. rewrite Hts in Hres.
  cbn [bind] in Hres. apply mapM_Ok in Hres.
  destruct (Forall2_lookup_l _ _ _ _ _ Hres Hq) as (kk & Hkk & Hnear).
  destruct (nearest_spec ts q Hts_ne Hfs Hqf) as (j & sj & Hj & Hsj & Hmin & Hfirst).
  rewrite Hj in Hnear. injection Hnear as <-.
  assert (Hearlier : forall k' sk', (k' < j)%nat -> ts !! k' = Some sk' ->
                       is_zero (dist sk' q) = false).
  { intros k' sk' Hlt Hsk'. destruct (is_zero (dist sk' q)) eqn:Hz'; [|reflexivity].
    pose proof (Hfirst k' sk' Hlt Hsk') as Hfalse.
    unfold dist in Hfalse at 2.
    rewrite (fle_zero_fabs (dist sk' q) (fsub sj q) Hz') in Hfalse; [discriminate|].
    apply fsub_not_nan; [|exact Hqf]. apply is_finite_not_nan.
    rewrite Forall_forall in Hfs. apply Hfs. eapply list_elem_of_lookup_2, Hsj. }
  exists j, sj. split; [exact Hkk|]. split; [|split; [exact Hsj|split; [|exact Hearlier]]].
  - destruct (Nat.le_gt_cases j k) as [Hle|Hgt]; [exact Hle|].
    rewrite (Hearlier k sk Hgt Hsk) in Hz. discriminate.
  - apply (fle_fabs_zero (dist sk q) (fsub sj q) Hz). apply (Hmin k sk Hsk).
Qed.

End findClosest_more.

Lemma findClosestDatetimeIndices_empty_witness :
  findClosestDatetimeIndices float_of_int [5; 12] [] = Raise ValueError.
Proof.
  assert (Htq : mapM float_of_int [5; 12] = Ok (dt.fint <$> [5; 12]))
    by (vm_compute; reflexivity).
  exact (proj2 (findClosestDatetimeIndices_empty float_of_int) [5; 12] _ Htq).
Defined.

Lemma findClosestDatetimeIndices_exact_match_witness :
  exists (j : nat) (sj : float),
    [1; 1; 3] !! 1%nat = Some (Z.of_nat j) /\ (j <= 2)%nat
    /\ (dt.fint <$> [0; 10; 10; 30]) !! j = Some sj
    /\ is_zero (dist sj (dt.fint 10)) = true
    /\ (forall k' sk', (k' < j)%nat -> (dt.fint <$> [0; 10; 10; 30]) !! k' = Some sk' ->
          is_zero (dist sk' (dt.fint 10)) = false).
Proof.
  assert (Htq : mapM float_of_int [12; 10; 29] = Ok (dt.fint <$> [12; 10; 29]))
    by (vm_compute; reflexivity).
  assert (Hts : mapM float_of_int [0; 10; 10; 30] = Ok (dt.fint <$> [0; 10; 10; 30]))
    by (vm_compute; reflexivity).
  assert (Hres : findClosestDatetimeIndices float_of_int [12; 10; 29] [0; 10; 10; 30]
                 = Ok [1; 1; 3]) by (vm_compute; reflexivity).
  assert (Hfq : Forall (fun q => is_finite q = true) (dt.fint <$> [12; 10; 29]))
    by (repeat constructor).
  assert (Hfs : Forall (fun s => is_finite s = true) (dt.fint <$> [0; 10; 10; 30]))
    by (repeat constructor).
  exact (findClosestDatetimeIndices_exact_match float_of_int [12; 10; 29] [0; 10; 10; 30]
           _ _ _ Htq Hts Hfq Hfs Hres 1%nat 2%nat (dt.fint 10) (dt.fint 10)
           eq_refl eq_refl (or_introl eq_refl)).
Defined.

(** ** Floats of integers are not negative zeros *)

Lemma Zdigits2_pos m : 0 < m -> 0 < Zdigits2 m.
Proof. intros Hm. rewrite Zdigits2_log2 by exact Hm. pose proof (Z.log2_nonneg m). lia. Qed.

Lemma binary_round_aux_not_zero s m e l :
  0 < m -> 3 - emax - prec <= e -> is_zero (binary_round_aux prec emax s m e l) = false.
Proof.
  intros Hm He. unfold binary_round_aux.
  pose proof (Zdigits2_pos m Hm) as Hdm.
  pose proof (shr_fexp_spec m e l ltac:(lia)) as (H1 & He' & Hd').
  destruct (shr_fexp prec emax m e l) as [mrs' e']. simpl in H1, He', Hd'.
  pose proof (round_nearest_even_spec (shr_m mrs') (loc_of_shr_record mrs') H1) as Hr.
  set (m' := round_nearest_even (shr_m mrs') (loc_of_shr_record mrs')) in *.
  assert (Hpos1 : 0 < shr_m mrs').
  { destruct (Z.eq_dec (shr_m mrs') 0) as [H0|H0]; [|lia].
    rewrite H0 in Hd'. change (Zdigits2 0) with 0 in Hd'.
    unfold fexp, SpecFloat.emin, prec, emax in *. lia. }
  assert (Hm' : 0 < m') by lia.
  pose proof (Zdigits2_pos m' Hm') as Hdm'.
  pose proof (shr_fexp_spec m' e' loc_Exact ltac:(lia)) as (H2 & He'' & Hd'').
  destruct (shr_fexp prec emax m' e' loc_Exact) as [mrs'' e'']. simpl in H2, He'', Hd''.
  destruct (shr_m mrs'') as [|p|p] eqn:Hp; [|destruct (e'' <=? emax - prec); reflexivity|lia].
  change (Zdigits2 0) with 0 in Hd''.
  unfold fexp, SpecFloat.emin, prec, emax in *. lia.
Qed.

Lemma binary_round_not_zero s m :
  is_zero (binary_round prec emax s m 0) = false.
Proof.
  unfold binary_round, shl_align.
  destruct (fexp prec emax (Zpos (digits2_pos m) + 0) - 0) as [|p|p] eqn:Hn.
  - apply binary_round_aux_not_zero; unfold emax, prec; lia.
  - apply binary_round_aux_not_zero; unfold emax, prec; lia.
  - apply binary_round_aux_not_zero; [lia|].
    unfold fexp, SpecFloat.emin, prec, emax in *. lia.
Qed.

Lemma fint_not_negative_zero z : dt.fint z <> S754_zero true.
Proof.
  unfold dt.fint. destruct z as [|p|p]; simpl.
  - discriminate.
  - pose proof (binary_round_not_zero false p) as H. intros Heq. rewrite Heq in H. discriminate.
  - pose proof (binary_round_not_zero true p) as H. intros Heq. rewrite Heq in H. discriminate.
Qed.

Lemma fadd_zero_r x : x <> S754_zero true -> fadd x (S754_zero false) = x.
Proof. destruct x as [[]| | |]; intros Hx; try reflexivity. contradiction. Qed.

Section sgp4_midnight.
Context {TZ : Type} `{EqDecision TZ}.
Variable tz_utcoffset : TZ -> dt.datetime TZ -> option dt.timedelta.

(** X18: when the time of day of [date] has no whole second (hour, minute
    and second are 0), [datetime2sgp4epoch] returns the float of a whole
    number: [float(n)] for the number [n] of days from 1949-12-31 to the
    day of [date], negative before the reference. *)
Theorem datetime2sgp4epoch_whole_days (date : dt.datetime TZ) :
  dt.wf date = true ->
  dt.hour date = 0 -> dt.minute date = 0 -> dt.second date = 0 ->
  datetime2sgp4epoch tz_utcoffset date
  = float_of_int (dt.toordinal date - dt.ymd2ord 1949 12 31).
Proof.
  intros Hwf Hh Hm Hs.
  pose proof (toordinal_range date Hwf) as Hord.
  destruct (datetime2sgp4epoch_value tz_utcoffset date Hwf) as (_ & frac & Hfrac & ->).
  rewrite Hh, Hm, Hs in Hfrac. vm_compute in Hfrac. injection Hfrac as <-.
  change (dt.ymd2ord 1949 12 31) with 711857.
  rewrite fadd_zero_r by apply fint_not_negative_zero.
  rewrite float_of_int_Ok; [reflexivity|].
  assert (2 ^ 22 <= 2 ^ 1023) by (apply Z.pow_le_mono_r; lia).
  change (2 ^ 22) with 4194304 in *. lia.
Qed.

End sgp4_midnight.

Lemma datetime2sgp4epoch_whole_days_witness :
  datetime2sgp4epoch no_offset (dt.mk 1949 12 30 0 0 0 250000 None) = float_of_int (-1).
Proof.
  exact (datetime2sgp4epoch_whole_days no_offset (dt.mk 1949 12 30 0 0 0 250000 None)
           eq_refl eq_refl eq_refl eq_refl).
Defined.

(** ** GMST_epoch beside the results of epoch2datetime *)

Section gmst_facts.
Context {TZ : Type} `{EqDecision TZ}.
Variable utc : TZ.
Variable tz_utcoffset : TZ -> dt.datetime TZ -> option dt.timedelta.

(** X19: [GMST_epoch] is built as the module is loaded, and has no tzinfo,
    while every result of [epoch2datetime] carries [utc]; with a [utc]
    whose [utcoffset] is not [None] (that of [dt.timezone.utc] is zero),
    ordering one against the other, either way round, raises
    [TypeError]. *)
Theorem GMST_epoch_not_comparable (v : value) (d : dt.datetime TZ) :
  (forall x, tz_utcoffset utc x <> None) ->
  epoch2datetime utc v = Ok d ->
  dt.new 2000 1 1 12 0 0 0 None = Ok (@GMST_epoch TZ)
  /\ dt.lt tz_utcoffset d GMST_epoch = Raise TypeError
  /\ dt.gt tz_utcoffset d GMST_epoch = Raise TypeError
  /\ dt.lt tz_utcoffset GMST_epoch d = Raise TypeError
  /\ dt.gt tz_utcoffset GMST_epoch d = Raise TypeError.
Proof.
  intros Hoff Hd. apply epoch2datetime_Ok_wf in Hd as [_ Htz].
  split; [reflexivity|].
  assert (Hcmp : dt.cmp tz_utcoffset d GMST_epoch = Raise TypeError).
  { unfold dt.cmp, dt.utcoffset. rewrite Htz. cbn [dt.tzinfo GMST_epoch].
    rewrite decide_False by discriminate.
    destruct (tz_utcoffset utc d) as [off|] eqn:Hoffd; [|exfalso; apply (Hoff d Hoffd)].
    rewrite decide_False by discriminate. reflexivity. }
  assert (Hcmp' : dt.cmp tz_utcoffset GMST_epoch d = Raise TypeError).
  { unfold dt.cmp, dt.utcoffset. rewrite Htz. cbn [dt.tzinfo GMST_epoch].
    rewrite decide_False by discriminate.
    destruct (tz_utcoffset utc d) as [off|] eqn:Hoffd; [|exfalso; apply (Hoff d Hoffd)].
    rewrite decide_False by discriminate. reflexivity. }
  unfold dt.lt, dt.gt. rewrite Hcmp, Hcmp'. repeat split; reflexivity.
Qed.

End gmst_facts.

Lemma GMST_epoch_not_comparable_witness :
  dt.lt no_offset (dt.mk 2021 1 1 0 0 0 0 (Some ())) GMST_epoch = Raise TypeError.
Proof.
  assert (Hoff : forall x, no_offset () x <> None) by (intros x; discriminate).
  assert (Hd : epoch2datetime () (VStr "21001.0") = Ok (dt.mk 2021 1 1 0 0 0 0 (Some ())))
    by (vm_compute; reflexivity).
  exact (proj1 (proj2 (GMST_epoch_not_comparable () no_offset _ _ Hoff Hd))).
Defined.

(** ** The first five characters of a TLE epoch *)



Section tle_prefix_facts.
Context {TZ : Type} `{EqDecision TZ}.
Variable tz_utcoffset : TZ -> dt.datetime TZ -> option dt.timedelta.


End tle_prefix_facts.


(** ** The epochs of the records *)

Section record_epoch_facts.
Context {TZ : Type}.
Variable utc : TZ.
Variable split3LELineIntoFields : string -> result ElementsLineDict.

(** X21: the two readers agree record by record: when
    [getAllStoredEpochs] returns [es] and [getStoredTLEByIdx] with
    [string_only=False] returns the dict of record [k], the [k]-th entry of
    [es] is the epoch converted from field 3 of the value at key 1 of that
    dict. *)
Theorem stored_epoch_of_record fs path lines (es : list (dt.datetime TZ)) (k : nat)
    (rec : gmap Z ElementsLineDict) (r1 : ElementsLineDict) (d : dt.datetime TZ) :
  fs path = Present (Ok lines) ->
  getAllStoredEpochs utc split3LELineIntoFields fs path = Ok (Some es) ->
  getStoredTLEByIdx split3LELineIntoFields fs path (IdxInt (Z.of_nat k)) false
  = Ok (Some [TleDict rec]) ->
  rec !! 1 = Some r1 -> es !! k = Some d ->
  exists epoch,
    getitem (fields r1) 3 = Ok epoch /\ epoch2datetime utc (VStr epoch) = Ok d.
Proof.
  intros Hfs Hall Hrec Hr1 Hd.
  rewrite (getAllStoredEpochs_map utc split3LELineIntoFields fs path lines Hfs) in Hall.
  apply bind_Ok in Hall as (es' & Hes & [= <-]). apply mapM_Ok in Hes.
  destruct (Forall2_lookup_r _ _ _ _ _ Hes Hd) as (ii & Hii & Hline).
  rewrite list_lookup_fmap in Hii.
  destruct (seqZ 0 _ !! k) as [k'|] eqn:Hk'; [|discriminate].
  injection Hii as <-. apply lookup_seqZ in Hk' as [-> _].
  rewrite (getStoredTLEByIdx_map split3LELineIntoFields fs path lines _ false Hfs) in Hrec.
  cbn beta iota in Hrec. cbn [mapM] in Hrec.
  unfold record_dict, record_lines in Hrec.
  destruct (split_line split3LELineIntoFields lines (Z.of_nat k * 3 + 0)) as [r0|];
    [|discriminate]. cbn [bind] in Hrec.
  destruct (split_line split3LELineIntoFields lines (Z.of_nat k * 3 + 1)) as [r1'|] eqn:Hs1;
    [|discriminate]. cbn [bind] in Hrec.
  destruct (split_line split3LELineIntoFields lines (Z.of_nat k * 3 + 2)) as [r2|];
    [|discriminate]. cbn [bind] in Hrec.
  injection Hrec as <-.
  rewrite lookup_insert_ne in Hr1 by discriminate.
  rewrite lookup_insert in Hr1.
  assert (Hr : r1' = r1).
  { destruct (decide (1 = 1)) in Hr1; [congruence|contradiction]. }
  subst r1'.
  unfold line_epoch in Hline.
  replace (1 + 3 * (0 + Z.of_nat k)) with (Z.of_nat k * 3 + 1) in Hline by lia.
  rewrite Hs1 in Hline. cbn [bind] in Hline.
  destruct (getitem (fields r1) 3) as [epoch|]; [|discriminate].
  exists epoch. split; [reflexivity|exact Hline].
Qed.

End record_epoch_facts.

Lemma stored_epoch_of_record_witness :
  exists epoch,
    getitem (fields {| fields := tokens_from (chars (nth 4 sample_lines "")) [];
                       line_str := nth 4 sample_lines "" |}) 3 = Ok epoch
    /\ epoch2datetime () (VStr epoch) = Ok (dt.mk 2021 1 1 0 0 0 0 (Some ())).
Proof.
  pose (R := fun i : nat => {| fields := tokens_from (chars (nth i sample_lines "")) [];
                               line_str := nth i sample_lines "" |}).
  assert (Hall : getAllStoredEpochs () sample_split sample_fs "tle/25544.tle"
                 = Ok (Some [dt.mk 2021 1 2 12 0 0 0 (Some ()); dt.mk 2021 1 1 0 0 0 0 (Some ())]))
    by (vm_compute; reflexivity).
  assert (Hrec : getStoredTLEByIdx sample_split sample_fs "tle/25544.tle"
                   (IdxInt (Z.of_nat 1)) false
                 = Ok (Some [TleDict {[ 0 := R 3%nat; 1 := R 4%nat; 2 := R 5%nat ]}]))
    by (vm_compute; reflexivity).
  assert (Hr1 : ({[ 0 := R 3%nat; 1 := R 4%nat; 2 := R 5%nat ]} : gmap Z ElementsLineDict) !! 1
                = Some (R 4%nat)) by (vm_compute; reflexivity).
  exact (stored_epoch_of_record () sample_split sample_fs "tle/25544.tle" sample_lines
           _ 1%nat _ (R 4%nat) _ eq_refl Hall Hrec Hr1 eq_refl).
Defined.
